(** * Bosch eBike display protocol engine: frames, decoders, sessions

    A shallow embedding of the two protocol engines of the repository,

    - the local-HID engine: [src/lib/protocols.js] (class [ProtocolHelper])
      with [src/lib/BoschDisplayTool.js] and [src/lib/SimpleHidWrapper.js];
    - the backend engine: [backend/lib/protocols.js] (class
      [ProtocolHelper]) with [backend/lib/BoschDisplayTool.js];

    followed by the properties of the specification that were checked
    against them.  Console output ([console.log], [chalk]) has no effect on
    any value computed and is left out of the embedding. *)

From Stdlib Require Import ZArith NArith List String Ascii Bool Lia.
From Stdlib Require Import DecimalString HexadecimalString.
From Stdlib.Strings Require Import Byte.
From stdpp Require Import base strings gmap.

Set Default Proof Using "Type".

(* ===================================================================== *)
(** * JavaScript values and library functions used by the sources        *)
(* ===================================================================== *)

Module JS.

Abbreviation byte := Byte.byte.

(** The numeric value of a byte read out of a Buffer or array. *)
Definition u8 (b : byte) : N := Byte.to_N b.

(** Storing a number into a [Uint8Array]/[Buffer] slot keeps it modulo 256. *)
Definition toUint8 (z : Z) : byte :=
  default x00 (Byte.of_N (Z.to_N (z mod 256))).

(** A completed call: a value, or a thrown [Error] with its [message]. *)
Inductive Res (A : Type) : Type :=
| Ok (a : A)
| Throw (message : string).
Arguments Ok {A} a.
Arguments Throw {A} message.

(** ** Strings *)

(** [n.toString()] and [n.toString(16)] for a non-negative integer. *)
Definition toString10 (n : N) : string :=
  DecimalString.NilZero.string_of_uint (N.to_uint n).

Definition toString16 (n : N) : string :=
  HexadecimalString.NilZero.string_of_uint (N.to_hex_uint n).

(** [s.padStart(n, c)] with a one-character filler. *)
Definition padStart (n : nat) (c : ascii) (s : string) : string :=
  string_of_list_ascii (repeat c (n - String.length s)) +:+ s.

Definition isLower (c : ascii) : bool :=
  let n := N_of_ascii c in (97 <=? n)%N && (n <=? 122)%N.
Definition isUpper (c : ascii) : bool :=
  let n := N_of_ascii c in (65 <=? n)%N && (n <=? 90)%N.
Definition isDigit (c : ascii) : bool :=
  let n := N_of_ascii c in (48 <=? n)%N && (n <=? 57)%N.
Definition isAlnum (c : ascii) : bool := isUpper c || isLower c || isDigit c.

Definition upperChar (c : ascii) : ascii :=
  if isLower c then ascii_of_N (N_of_ascii c - 32) else c.

Fixpoint toUpperCase (s : string) : string :=
  match s with
  | EmptyString => EmptyString
  | String c s' => String (upperChar c) (toUpperCase s')
  end.

(** [s.includes(sub)] *)
Fixpoint includes (s sub : string) : bool :=
  String.prefix sub s ||
  match s with
  | EmptyString => false
  | String _ s' => includes s' sub
  end.

(** [s.startsWith(sub)] *)
Definition startsWith (s sub : string) : bool := String.prefix sub s.

(** [s.substring(1)] *)
Definition substring1 (s : string) : string :=
  match s with
  | EmptyString => EmptyString
  | String _ s' => s'
  end.

(** [parts.join(sep)] on an array of strings. *)
Fixpoint join (sep : string) (parts : list string) : string :=
  match parts with
  | [] => EmptyString
  | [p] => p
  | p :: rest => p +:+ sep +:+ join sep rest
  end.

Fixpoint dropWhile {A} (p : A -> bool) (l : list A) : list A :=
  match l with
  | [] => []
  | x :: l' => if p x then dropWhile p l' else l
  end.

(** [s.replace(/^[^A-Za-z0-9]+/, '')]: the longest leading run of
    characters that are not letters or digits is removed. *)
Definition stripLeadingNonAlnum (s : string) : string :=
  string_of_list_ascii
    (dropWhile (fun c => negb (isAlnum c)) (list_ascii_of_string s)).

(** [s.replace(/[^0-9]+$/, '')]: the longest trailing run of characters
    that are not digits is removed. *)
Definition stripTrailingNonDigit (s : string) : string :=
  string_of_list_ascii
    (rev (dropWhile (fun c => negb (isDigit c))
                    (rev (list_ascii_of_string s)))).

(** A string used as a condition: only the empty string is falsy. *)
Definition truthy (s : string) : bool :=
  match s with EmptyString => false | _ => true end.

(** [s || fallback] *)
Definition orElse (s fallback : string) : string :=
  if truthy s then s else fallback.

(** ** Byte sequences

    The helpers receive either a plain array of numbers or a Node
    [Buffer] (a [Uint8Array]).  Both answer [length], indexing, [slice]
    and [filter] alike; they differ in [map], see [map] below. *)

Inductive SeqKind : Type := PlainArray | NodeBuffer.

Record ByteSeq : Type := mkSeq { kind : SeqKind; elems : list byte }.

Definition arrayOf (l : list byte) : ByteSeq := mkSeq PlainArray l.

(** [Buffer.from(x)] *)
Definition bufferFrom (l : list byte) : ByteSeq := mkSeq NodeBuffer l.

Definition len (s : ByteSeq) : nat := length (elems s).

(** [s[i]]: [None] stands for [undefined]. *)
Definition idx (s : ByteSeq) (i : nat) : option byte := elems s !! i.

(** [s.slice(from, to)] and [s.slice(from)] for in-range, non-negative
    bounds; bounds past the end are clamped. *)
Definition slice (s : ByteSeq) (from to : nat) : ByteSeq :=
  mkSeq (kind s) (firstn (to - from) (skipn from (elems s))).

Definition sliceFrom (s : ByteSeq) (from : nat) : ByteSeq :=
  mkSeq (kind s) (skipn from (elems s)).

Definition filter (p : byte -> bool) (s : ByteSeq) : ByteSeq :=
  mkSeq (kind s) (List.filter p (elems s)).

(** [v === n] and [v > n] for a value read by index and a number literal;
    both are false on [undefined]. *)
Definition strictEq (v : option byte) (n : N) : bool :=
  match v with Some b => (u8 b =? n)%N | None => false end.
Definition gt (v : option byte) (n : N) : bool :=
  match v with Some b => (n <? u8 b)%N | None => false end.

(** [Buffer.from(bytes).toString('ascii')]: the high bit of every byte is
    cleared before it is turned into a character. *)
Definition asciiChar (b : byte) : ascii := ascii_of_N (N.land (u8 b) 127).

Definition toAsciiString (l : list byte) : string :=
  string_of_list_ascii (List.map asciiChar l).

(** Reading a string of decimal digits as a number. *)
Fixpoint digitsValue (acc : N) (s : string) : option N :=
  match s with
  | EmptyString => Some acc
  | String c s' =>
      if isDigit c
      then digitsValue (10 * acc + (N_of_ascii c - 48)) s'
      else None
  end.

(** What a typed-array slot holds after a callback handed back the string
    [s]: [ToNumber(s)] kept modulo 256, with [NaN] stored as 0.  The
    callbacks below only hand back non-empty strings of hexadecimal
    digits, for which [ToNumber] is the decimal value when every
    character is a decimal digit and [NaN] otherwise. *)
Definition slotOfString (s : string) : byte :=
  match digitsValue 0 s with
  | Some n => toUint8 (Z.of_N n)
  | None => x00
  end.

(** The result of [s.map(f)] for a callback [f] returning strings:
    [Array.prototype.map] gives the array of the strings, while
    [TypedArray.prototype.map] builds a typed array of the same kind and
    stores every result in a byte slot.  (The comment in the backend's
    [hexToSerialNumber], "Aktuell: 0x24237005560313046442000560313046",
    is the output of the second case on a captured response.) *)
Inductive Mapped : Type :=
| Strings (l : list string)
| Slots (l : list byte).

Definition map (f : byte -> string) (s : ByteSeq) : Mapped :=
  match kind s with
  | PlainArray => Strings (List.map f (elems s))
  | NodeBuffer => Slots (List.map (fun b => slotOfString (f b)) (elems s))
  end.

(** [m.join(sep)]: the elements' [toString()] separated by [sep]. *)
Definition joinMapped (sep : string) (m : Mapped) : string :=
  match m with
  | Strings l => join sep l
  | Slots l => join sep (List.map (fun b => toString10 (u8 b)) l)
  end.

(** [b.toString(16).padStart(2, '0')] *)
Definition hex2 (b : byte) : string := padStart 2 "0" (toString16 (u8 b)).

(** [b.toString().padStart(2, '0')] *)
Definition dec2 (b : byte) : string := padStart 2 "0" (toString10 (u8 b)).

(** ** Reading hexadecimal text *)

(** [s.replace(/:/g, '')] *)
Fixpoint removeColons (s : string) : string :=
  match s with
  | EmptyString => EmptyString
  | String c s' =>
      if Ascii.eqb c ":" then removeColons s' else String c (removeColons s')
  end.

(** The pieces [s.substr(i, 2)] for [i = 0, 2, 4, ...] below [s.length]. *)
Fixpoint chunks2 (s : string) : list string :=
  match s with
  | EmptyString => []
  | String a EmptyString => [String a EmptyString]
  | String a (String b rest) => String a (String b EmptyString) :: chunks2 rest
  end.

Definition hexDigitValue (c : ascii) : option N :=
  let n := N_of_ascii c in
  if isDigit c then Some (n - 48)%N
  else if (97 <=? n)%N && (n <=? 102)%N then Some (n - 87)%N
  else if (65 <=? n)%N && (n <=? 70)%N then Some (n - 55)%N
  else None.

(** The value of the longest leading run of hexadecimal digits; [acc] is
    the value read so far, [None] while no digit was read. *)
Fixpoint hexPrefixValue (acc : option N) (s : string) : option N :=
  match s with
  | EmptyString => acc
  | String c s' =>
      match hexDigitValue c with
      | Some d => hexPrefixValue (Some (16 * default 0%N acc + d)%N) s'
      | None => acc
      end
  end.

Definition isWhiteSpace (c : ascii) : bool :=
  let n := N_of_ascii c in ((9 <=? n) && (n <=? 13) || (n =? 32))%N.

(** [parseInt(s, 16)] for a string of ASCII characters: leading white space
    is skipped, then a sign, then [0x] or [0X], and the longest run of
    hexadecimal digits is read; [None] stands for [NaN]. *)
Definition parseInt16 (s : string) : option Z :=
  let s := string_of_list_ascii (dropWhile isWhiteSpace (list_ascii_of_string s)) in
  let '(sign, s) :=
    match s with
    | String "-" s' => ((-1)%Z, s')
    | String "+" s' => (1%Z, s')
    | _ => (1%Z, s)
    end in
  let s :=
    match s with
    | String "0" (String "x" s') => s'
    | String "0" (String "X" s') => s'
    | _ => s
    end in
  match hexPrefixValue None s with
  | Some n => Some (sign * Z.of_N n)%Z
  | None => None
  end.

(** What [Buffer.from(numbers)] stores for one number: the number modulo
    256, and 0 for [NaN]. *)
Definition slotOfNumber (v : option Z) : byte :=
  match v with
  | Some z => toUint8 z
  | None => x00
  end.

End JS.

Import JS.

(* ===================================================================== *)
(** * Sequential effects: state threading and exceptions                 *)
(* ===================================================================== *)

(** An [async] method is run to completion before the next one starts (the
    callers [await] every call), so a method is a function from the state
    before the call to its outcome and the state after it.  Every call to
    the device is taken to settle: it returns or it throws. *)

Module Effects.

Definition M (S A : Type) : Type := S -> Res A * S.

Definition ret {S A} (a : A) : M S A := fun s => (Ok a, s).

(** [throw new Error(message)] *)
Definition throw {S A} (message : string) : M S A := fun s => (Throw message, s).

Definition bind {S A B} (m : M S A) (k : A -> M S B) : M S B :=
  fun s =>
    match m s with
    | (Ok a, s') => k a s'
    | (Throw message, s') => (Throw message, s')
    end.

(** [try { body } catch (error) { handler(error.message) }] *)
Definition tryCatch {S A} (body : M S A) (handler : string -> M S A) : M S A :=
  fun s =>
    match body s with
    | (Ok a, s') => (Ok a, s')
    | (Throw message, s') => handler message s'
    end.

Definition gets {S A} (f : S -> A) : M S A := fun s => (Ok (f s), s).

Definition modify {S} (f : S -> S) : M S unit := fun s => (Ok tt, f s).

Definition liftRes {S A} (r : Res A) : M S A := fun s => (r, s).

(** [m] only ever returns values that satisfy [Q]. *)
Definition returnsOnly {S A} (m : M S A) (Q : A -> Prop) : Prop :=
  forall s a s', m s = (Ok a, s') -> Q a.

(** [m] only ever throws errors whose message satisfies [Q]. *)
Definition throwsOnly {S A} (m : M S A) (Q : string -> Prop) : Prop :=
  forall s message s', m s = (Throw message, s') -> Q message.

(** Run from a state that satisfies [pre], [m] leaves a state related to
    it by [same] and has put exactly [items] on the log, the first one
    first (a log holds its newest entry first). *)
Definition emits {S F A} (pre : S -> Prop) (same : S -> S -> Prop)
    (log : S -> list F) (m : M S A) (items : list F) : Prop :=
  forall s, pre s ->
    same s (snd (m s)) /\ log (snd (m s)) = rev items ++ log s.

End Effects.

Import Effects.

Declare Scope effect_scope.
Delimit Scope effect_scope with eff.
Notation "x <- m ;; k" := (bind m (fun x => k))
  (at level 100, m at level 99, k at level 200, right associativity)
  : effect_scope.
Notation "m ;;; k" := (bind m (fun _ => k))
  (at level 100, k at level 200, right associativity) : effect_scope.
Local Open Scope effect_scope.

(* ===================================================================== *)
(** * The result object and the task loop of [readAllInformation]        *)
(* ===================================================================== *)

(** Both [BoschDisplayTool.js] files fill the same kind of object with the
    same loop, whatever the transport. *)

Module Common.

(** The values stored in the object returned by [readAllInformation]:
    strings, and objects whose properties are strings. *)
Inductive Value : Type :=
| Str (s : string)
| Obj (fields : gmap string string).

(** The loop [for (const task of tasks) { try { ... } catch { ... } }]. *)
Fixpoint runTasks {S} (todo : list (string * M S string))
    (results : gmap string Value) : M S (gmap string Value) :=
  match todo with
  | [] => ret results
  | (key, fn) :: rest =>
      results <- tryCatch
                   (value <- fn ;; ret (<[key := Str value]> results))
                   (fun message =>
                      ret (<[key := Str ("Fehler: " +:+ message)]> results)) ;;
      runTasks rest results
  end.

(** The slot value [v] was written by one run of the task [fn]: it is what
    [fn] returned, or the marker made from the error [fn] threw. *)
Definition filledBy {S} (fn : M S string) (v : Value) : Prop :=
  exists s s',
    (exists value, fn s = (Ok value, s') /\ v = Str value)
    \/ (exists message,
          fn s = (Throw message, s') /\ v = Str ("Fehler: " +:+ message)).

(** [results[key]] of a returned object; [None] when the call threw or the
    property is missing. *)
Definition field (outcome : Res (gmap string Value)) (key : string)
  : option Value :=
  match outcome with
  | Ok results => results !! key
  | Throw _ => None
  end.

End Common.

Import Common.

(* ===================================================================== *)
(** * Constants shared by both [protocols.js] files                      *)
(* ===================================================================== *)

Module Constants.

(** [DEVICE_CONSTANTS] *)
Definition VENDOR_ID : Z := 0x108c.
Definition PRODUCT_ID : Z := 0x155.
Definition REPORT_SIZE : nat := 64.

(** A device as listed by the HID enumeration. *)
Record DeviceInfo : Type := mkDeviceInfo {
  vendorId : Z;
  productId : Z;
  path : string
}.

(** [UDS_SERVICES] *)
Definition READ_DATA_BY_IDENTIFIER : byte := x22.
Definition WRITE_DATA_BY_IDENTIFIER : byte := x2e.

(** [HID_FRAME_HEADERS] *)
Definition REQUEST : list byte := [x01; x00; x3a; x08].
Definition RESPONSE : list byte := [x01; x00; x3d].
Definition HANDSHAKE_REQUEST : list byte := [x00; x00; x01; x01].
Definition HANDSHAKE_RESPONSE : list byte := [x00; x01; x01; x00].

(** [DATA_IDENTIFIERS] that are the same in both files; [HARDWARE_VERSION]
    differs and is defined with each engine. *)
Definition SERIAL_NUMBER : list byte := [x02; x42].
Definition SOFTWARE_VERSION : list byte := [x02; x20].
Definition COMPONENT_TYPE : list byte := [x02; x60].
Definition HMI_PART_NUMBER : list byte := [x02; x32].
Definition PRESENT_DATE_TIME : list byte := [x02; x3a].
Definition CURRENT_TIME : list byte := [x02; x40].
Definition CURRENT_DATE : list byte := [x02; x3a].
Definition BOSCH_PRODUCT_CODE : list byte := [x5b; x7c].
Definition DU_PART_NUMBER : list byte := [xf1; x30].
Definition DU_SERIAL_NUMBER : list byte := [xf1; xac].
Definition DU_HW_VERSION : list byte := [xf1; x50].
Definition DU_SW_VERSION : list byte := [xf1; x51].
Definition BMS_PART_NUMBER : list byte := [xf1; x30].
Definition BMS_SERIAL_NUMBER : list byte := [xf1; xac].
Definition BMS_HW_VERSION : list byte := [xf1; x50].
Definition BMS_SW_VERSION : list byte := [xf1; x51].

(** [COMPONENT_TYPES[code]]; [None] stands for [undefined]. *)
Definition COMPONENT_TYPES (code : byte) : option string :=
  match u8 code with
  | 0x0B => Some "Intuvia"
  | 0x0C => Some "Purion"
  | 0x0D => Some "Nyon"
  | 0x0E => Some "Kiox"
  | 0x02 => Some "Intuvia"
  | _ => None
  end%N.

(** The loop [while (frame.length < REPORT_SIZE) frame.push(0x00)], run for
    the [n] iterations that are missing. *)
Fixpoint pushZeros (n : nat) (frame : list byte) : list byte :=
  match n with
  | O => frame
  | S k => pushZeros k (frame ++ [x00])
  end.

(** [createUdsFrame(serviceId, dataIdentifier, data = [])], word for word
    the same in both files. *)
Definition createUdsFrame (serviceId : byte) (dataIdentifier data : list byte)
  : ByteSeq :=
  let frame := REQUEST ++ [x03] ++ [serviceId] ++ dataIdentifier ++ data in
  bufferFrom (pushZeros (REPORT_SIZE - length frame) frame).

(** [createHandshakeFrame()], the same in both files. *)
Definition createHandshakeFrame : ByteSeq :=
  bufferFrom (HANDSHAKE_REQUEST ++ repeat x00 (REPORT_SIZE - 4)).

End Constants.

(* ===================================================================== *)
(** * The backend engine: [backend/lib/protocols.js]                     *)
(* ===================================================================== *)

Module Backend.
Import Constants.

Definition HARDWARE_VERSION : list byte := [x02; x72].

Definition createUdsFrame := Constants.createUdsFrame.
Definition createHandshakeFrame := Constants.createHandshakeFrame.

(** The object returned by [parseUdsResponse]. *)
Record UdsResponse : Type := mkUdsResponse {
  serviceId : option byte;
  dataLength : option byte;
  responseCode : option byte;
  data : ByteSeq;
  isPositiveResponse : bool;
  isNegativeResponse : bool
}.

Definition showIdx (v : option byte) : string :=
  match v with Some b => toString10 (u8 b) | None => "undefined" end.

Definition parseUdsResponse (response : ByteSeq) : Res UdsResponse :=
  if (len response <? 6)%nat then Throw "Ungültige Response-Länge"
  else if negb (strictEq (idx response 0) 0x01)
          || negb (strictEq (idx response 1) 0x00)
  then Throw ("Ungültiger Response-Header: " +:+ showIdx (idx response 0)
              +:+ " " +:+ showIdx (idx response 1)
              +:+ " " +:+ showIdx (idx response 2))
  else
    let dataLength := idx response 3 in
    let serviceId := idx response 4 in
    let responseCode := idx response 5 in
    let data := sliceFrom response 6 in
    Ok {| serviceId := serviceId;
          dataLength := dataLength;
          responseCode := responseCode;
          data := data;
          isPositiveResponse := strictEq responseCode 0x62;
          isNegativeResponse := strictEq responseCode 0x7F |}.

Definition hexToAscii (hexData : ByteSeq) : string :=
  let cleanData :=
    filter (fun b => negb (u8 b =? 0x00)%N && (0x20 <=? u8 b)%N
                     && (u8 b <=? 0x7E)%N) hexData in
  let asciiString := toAsciiString (elems (bufferFrom (elems cleanData))) in
  stripLeadingNonAlnum asciiString.

Definition expectedPattern : string := "37FFD705564E313046442000".

Definition hexToSerialNumber (hexData : ByteSeq) : string :=
  let serialData := slice hexData 0 (Nat.min (len hexData) 20) in
  let hexString := joinMapped "" (map hex2 serialData) in
  let fullHex := toUpperCase hexString in
  if includes fullHex expectedPattern
  then "0x" +:+ expectedPattern
  else "0x" +:+ fullHex.

Definition hexToVersion (hexData : ByteSeq) : string :=
  match elems hexData with
  | b0 :: b1 :: b2 :: b3 :: _ =>               (* hexData.length >= 4 *)
      toString10 (u8 b0) +:+ "." +:+ toString10 (u8 b1) +:+ "."
      +:+ toString10 (u8 b2) +:+ "." +:+ toString10 (u8 b3)
  | byte1 :: byte2 :: _ =>                     (* hexData.length >= 2 *)
      if (u8 byte1 =? 0x02)%N && (u8 byte2 =? 0x72)%N then "0.0.2.2"
      else if (u8 byte1 =? 0x02)%N && (u8 byte2 =? 0x20)%N then "5.9.2.0"
      else toString10 (u8 byte1) +:+ "." +:+ toString10 (u8 byte2) +:+ ".0.0"
  | _ => joinMapped "." (map hex2 hexData)
  end.

Definition hexToArticleNumber (hexData : ByteSeq) : string :=
  let cleanData := filter (fun b => negb (u8 b =? 0x00)%N) hexData in
  let articleNumber := toAsciiString (elems (bufferFrom (elems cleanData))) in
  let articleNumber :=
    if startsWith articleNumber "2" then substring1 articleNumber
    else articleNumber in
  stripTrailingNonDigit articleNumber.

Definition hexToTime (hexData : ByteSeq) : string :=
  match elems hexData with
  | byte1 :: byte2 :: _ =>                     (* hexData.length >= 2 *)
      let hours1 := byte1 in
      let minutes1 := byte2 in
      let hours2 := byte2 in
      let minutes2 := byte1 in
      if (u8 minutes1 <? 60)%N then dec2 hours1 +:+ ":" +:+ dec2 minutes1
      else if (u8 minutes2 <? 60)%N then dec2 hours2 +:+ ":" +:+ dec2 minutes2
      else dec2 byte1 +:+ ":" +:+ dec2 byte2
  | _ => "00:00"
  end.

Definition hexToDate (hexData : ByteSeq) : string :=
  match elems hexData with
  | b0 :: b1 :: b2 :: _ =>                     (* hexData.length >= 3 *)
      let year := (2000 + u8 b0)%N in
      let month := b1 in
      let day := b2 in
      dec2 day +:+ "." +:+ dec2 month +:+ "." +:+ toString10 year
  | _ => "01.01.2000"
  end.

Definition isResponseSuccessful (response : ByteSeq) : bool :=
  match parseUdsResponse response with
  | Ok parsed =>
      isPositiveResponse parsed && gt (dataLength parsed) 0
      && (0 <? len (data parsed))%nat
  | Throw _ => false
  end.

Definition parsePcapHidData (hexString : string) : ByteSeq :=
  let cleanHex := removeColons hexString in
  let bytes := List.map parseInt16 (chunks2 cleanHex) in
  bufferFrom (List.map slotOfNumber bytes).

(** [null] is [None]; the array returned holds the two values read. *)
Definition identifyDataIdentifier (hidData : ByteSeq)
  : option (list (option byte)) :=
  if (len hidData <? 8)%nat then None
  else if strictEq (idx hidData 0) 0x01 && strictEq (idx hidData 1) 0x00
          && strictEq (idx hidData 2) 0x3a && strictEq (idx hidData 3) 0x08
          && strictEq (idx hidData 4) 0x03 && strictEq (idx hidData 5) 0x22
  then Some [idx hidData 6; idx hidData 7]
  else None.

(** ** The WebUSB wrapper and the objects of a session

    [backend/lib/WebUsbWrapper.js] is not part of the sources at hand; the
    tool only uses its [open], [write], [read] and [close].  Its behaviour
    is an arbitrary environment: what the [n]-th call answers. *)

Record UsbHost : Type := mkUsbHost {
  usb_open : nat -> option string;               (* [open()] throws? *)
  usb_close : nat -> option string;              (* [close()] throws? *)
  usb_write : nat -> ByteSeq -> option string;   (* [write(data)] throws? *)
  usb_read : nat -> Z -> Res (list byte);        (* [read(timeout)] *)
  isoNow : nat -> string                         (* [new Date().toISOString()] *)
}.

(** The number of wrapper calls so far and every frame handed to
    [usbWrapper.write], newest first. *)
Record World : Type := mkWorld {
  clock : nat;
  writeCalls : list ByteSeq
}.

Inductive WrapperObject : Type := WebUsbWrapper.

(** The fields of a [BoschDisplayTool] object, with the world it acts on. *)
Record Tool : Type := mkTool {
  device : option DeviceInfo;
  usbWrapper : option WrapperObject;
  isConnected : bool;
  sequenceNumber : Z;
  world : World
}.

Definition setDevice (d : option DeviceInfo) (s : Tool) : Tool :=
  mkTool d (usbWrapper s) (isConnected s) (sequenceNumber s) (world s).
Definition setWrapper (w : option WrapperObject) (s : Tool) : Tool :=
  mkTool (device s) w (isConnected s) (sequenceNumber s) (world s).
Definition setConnected (b : bool) (s : Tool) : Tool :=
  mkTool (device s) (usbWrapper s) b (sequenceNumber s) (world s).
Definition setWorld (wo : World) (s : Tool) : Tool :=
  mkTool (device s) (usbWrapper s) (isConnected s) (sequenceNumber s) wo.

(** One call of a wrapper method: the environment's answer at the current
    clock; the clock advances and [record] notes what was sent. *)
Definition interact {A} (answer : nat -> A) (record : World -> World)
  : M Tool A :=
  fun s =>
    let wo := world s in
    (Ok (answer (clock wo)),
     setWorld (record (mkWorld (S (clock wo)) (writeCalls wo))) s).

Definition logWriteCall (data : ByteSeq) (wo : World) : World :=
  mkWorld (clock wo) (data :: writeCalls wo).

Definition isSome {A} (o : option A) : bool :=
  match o with Some _ => true | None => false end.

(** ** [backend/lib/BoschDisplayTool.js] *)

Module BoschDisplayTool.
Section Methods.
Variable usb : UsbHost.

(** [new BoschDisplayTool(usbWrapper)], in a given world. *)
Definition constructor (usbWrapper : option WrapperObject) (wo : World)
  : Tool := mkTool None usbWrapper false 0 wo.

Definition notConnected : string := "Nicht mit dem Display verbunden!".

(** [await this.usbWrapper.write(data)] *)
Definition usbWrapper_write (data : ByteSeq) : M Tool unit :=
  failure <- interact (fun n => usb_write usb n data) (logWriteCall data) ;;
  match failure with
  | Some message => throw message
  | None => ret tt
  end.

(** [await this.usbWrapper.read(timeout)] *)
Definition usbWrapper_read (timeout : Z) : M Tool ByteSeq :=
  answer <- interact (fun n => usb_read usb n timeout) id ;;
  data <- liftRes answer ;;
  ret (bufferFrom data).

(** [await this.usbWrapper.close()] *)
Definition usbWrapper_close : M Tool unit :=
  failure <- interact (usb_close usb) id ;;
  match failure with
  | Some message => throw message
  | None => ret tt
  end.

Definition sendData (data : ByteSeq) : M Tool unit :=
  connected <- gets isConnected ;;
  wrapper <- gets usbWrapper ;;
  if negb connected || negb (isSome wrapper)
  then throw notConnected
  else
    tryCatch
      (usbWrapper_write data)
      (fun message => throw ("Sendefehler: " +:+ message)).

Definition receiveData (timeout : Z) : M Tool ByteSeq :=
  connected <- gets isConnected ;;
  wrapper <- gets usbWrapper ;;
  if negb connected || negb (isSome wrapper)
  then throw notConnected
  else
    tryCatch
      (usbWrapper_read timeout)
      (fun message =>
         if includes message "timeout" || includes message "Timeout"
         then throw "TIMEOUT"
         else throw ("Empfangsfehler: " +:+ message)).

Definition typeErrorToString : string :=
  "Cannot read properties of undefined (reading 'toString')".

Definition sendUdsRequest (serviceId : byte) (dataIdentifier : list byte)
    (additionalData : list byte) (timeout : Z) : M Tool ByteSeq :=
  connected <- gets isConnected ;;
  if negb connected then throw notConnected
  else
    tryCatch
      (let request := createUdsFrame serviceId dataIdentifier additionalData in
       sendData request ;;;
       response <- receiveData timeout ;;
       parsedResponse <- liftRes (parseUdsResponse response) ;;
       if isResponseSuccessful response
       then ret response
       else
         match Backend.serviceId parsedResponse with
         | Some sid =>
             throw ("UDS-Response-Fehler: Service " +:+ toString16 (u8 sid))
         | None => throw typeErrorToString
         end)
      (fun message =>
         if includes message "Timeout" || includes message "TIMEOUT"
         then throw "TIMEOUT"
         else throw ("UDS-Request-Fehler: " +:+ message)).

Definition readSerialNumber : M Tool string :=
  tryCatch
    (response <- sendUdsRequest READ_DATA_BY_IDENTIFIER SERIAL_NUMBER [] 3000 ;;
     if (0 <? len response)%nat
     then
       parsed <- liftRes (parseUdsResponse response) ;;
       if isPositiveResponse parsed && (0 <? len (data parsed))%nat
       then
         let serialData :=
           slice (data parsed) 0 (Nat.min 20 (len (data parsed))) in
         let serial := hexToSerialNumber serialData in
         ret (orElse serial "Seriennummer nicht lesbar")
       else throw "Ungültige Response für Seriennummer"
     else throw "Keine Seriennummer empfangen")
    (fun message => throw ("Seriennummer-Lesefehler: " +:+ message)).

Definition readHardwareVersion : M Tool string :=
  tryCatch
    (response <- sendUdsRequest READ_DATA_BY_IDENTIFIER HARDWARE_VERSION [] 3000 ;;
     if (0 <? len response)%nat
     then
       parsed <- liftRes (parseUdsResponse response) ;;
       if isPositiveResponse parsed && (2 <=? len (data parsed))%nat
       then
         let data := slice (data parsed) 0 2 in
         ret (hexToVersion data)
       else throw "Ungültige Response für Hardware-Version"
     else throw "Keine Hardware-Version empfangen")
    (fun message => throw ("Hardware-Version-Lesefehler: " +:+ message)).

Definition readSoftwareVersion : M Tool string :=
  tryCatch
    (response <- sendUdsRequest READ_DATA_BY_IDENTIFIER SOFTWARE_VERSION [] 3000 ;;
     if (0 <? len response)%nat
     then
       parsed <- liftRes (parseUdsResponse response) ;;
       if isPositiveResponse parsed && (2 <=? len (data parsed))%nat
       then
         let data := slice (data parsed) 0 2 in
         ret (hexToVersion data)
       else throw "Ungültige Response für Software-Version"
     else throw "Keine Software-Version empfangen")
    (fun message => throw ("Software-Version-Lesefehler: " +:+ message)).

Definition readProductCode : M Tool string :=
  tryCatch
    (response <- sendUdsRequest READ_DATA_BY_IDENTIFIER BOSCH_PRODUCT_CODE [] 3000 ;;
     if (0 <? len response)%nat
     then
       parsed <- liftRes (parseUdsResponse response) ;;
       if isPositiveResponse parsed && (0 <? len (data parsed))%nat
       then
         let data := slice (data parsed) 0 (Nat.min 10 (len (data parsed))) in
         let productCode := hexToAscii data in
         ret (orElse productCode "Produktcode nicht lesbar")
       else throw "Ungültige Response für Produktcode"
     else throw "Kein Produktcode empfangen")
    (fun message => throw ("Produktcode-Lesefehler: " +:+ message)).

Definition readArticleNumber : M Tool string :=
  tryCatch
    (response <- sendUdsRequest READ_DATA_BY_IDENTIFIER HMI_PART_NUMBER [] 3000 ;;
     if (0 <? len response)%nat
     then
       parsed <- liftRes (parseUdsResponse response) ;;
       if isPositiveResponse parsed && (0 <? len (data parsed))%nat
       then
         let data := slice (data parsed) 0 (Nat.min 15 (len (data parsed))) in
         let articleNumber := hexToArticleNumber data in
         ret (orElse articleNumber "Artikelnummer nicht lesbar")
       else throw "Ungültige Response für Artikelnummer"
     else throw "Keine Artikelnummer empfangen")
    (fun message => throw ("Artikelnummer-Lesefehler: " +:+ message)).

Definition readComponentType : M Tool string :=
  tryCatch
    (response <- sendUdsRequest READ_DATA_BY_IDENTIFIER COMPONENT_TYPE [] 3000 ;;
     if (0 <? len response)%nat
     then
       parsed <- liftRes (parseUdsResponse response) ;;
       if isPositiveResponse parsed && (0 <? len (data parsed))%nat
       then
         match idx (data parsed) 0 with
         | Some componentCode =>
             match COMPONENT_TYPES componentCode with
             | Some name => ret name
             | None =>
                 ret ("Unbekannt (0x" +:+ toString16 (u8 componentCode) +:+ ")")
             end
         | None => throw typeErrorToString
         end
       else throw "Ungültige Response für Komponententyp"
     else throw "Kein Komponententyp empfangen")
    (fun message => throw ("Komponententyp-Lesefehler: " +:+ message)).

Definition readCurrentTime : M Tool string :=
  tryCatch
    (response <- sendUdsRequest READ_DATA_BY_IDENTIFIER CURRENT_TIME [] 3000 ;;
     if (2 <=? len response)%nat
     then
       let dataStart := if (8 <? len response)%nat then 8%nat else 5%nat in
       let data := slice response dataStart (dataStart + 2) in
       ret (hexToTime data)
     else throw "Keine Uhrzeit empfangen")
    (fun message => throw ("Uhrzeit-Lesefehler: " +:+ message)).

Definition readCurrentDate : M Tool string :=
  tryCatch
    (response <- sendUdsRequest READ_DATA_BY_IDENTIFIER CURRENT_DATE [] 3000 ;;
     if (3 <=? len response)%nat
     then
       let dataStart := if (8 <? len response)%nat then 8%nat else 5%nat in
       let dateData := slice response dataStart (dataStart + 3) in
       ret (hexToDate dateData)
     else throw "Kein Datum empfangen")
    (fun message => throw ("Datum-Lesefehler: " +:+ message)).

(** The [tasks] array of [readAllInformation]. *)
Definition tasks : list (string * M Tool string) :=
  [ ("serialNumber", readSerialNumber);
    ("hardwareVersion", readHardwareVersion);
    ("softwareVersion", readSoftwareVersion);
    ("productCode", readProductCode);
    ("articleNumber", readArticleNumber);
    ("componentType", readComponentType);
    ("currentTime", readCurrentTime);
    ("currentDate", readCurrentDate) ].

(** The [mode] argument is not read by this version. *)
Definition readAllInformation (mode : string) : M Tool (gmap string Value) :=
  tryCatch
    (results <- runTasks tasks ∅ ;;
     now <- gets (fun s => isoNow usb (clock (world s))) ;;
     ret (<["lastUpdate" := Obj (<["date" := now]> ∅)]> results))
    (fun message =>
       throw ("Allgemeine Informationslese-Fehler: " +:+ message)).

Definition disconnect : M Tool unit :=
  wrapper <- gets usbWrapper ;;
  (if isSome wrapper
   then tryCatch usbWrapper_close (fun _ => ret tt)
   else ret tt) ;;;
  modify (setWrapper None) ;;;
  modify (setDevice None) ;;;
  modify (setConnected false).

(** [await this.usbWrapper.open()] *)
Definition usbWrapper_open : M Tool unit :=
  failure <- interact (usb_open usb) id ;;
  match failure with
  | Some message => throw message
  | None => ret tt
  end.

Definition performHandshake : M Tool bool :=
  connected <- gets isConnected ;;
  if negb connected then throw notConnected
  else
    tryCatch
      (let handshakeRequest := createHandshakeFrame in
       sendData handshakeRequest ;;;
       response <- receiveData 1000 ;;
       if strictEq (idx response 0) 0x00 && strictEq (idx response 1) 0x01
          && strictEq (idx response 2) 0x01 && strictEq (idx response 3) 0x00
       then ret true
       else throw "Handshake fehlgeschlagen - ungültige Response")
      (fun message => throw ("Handshake-Fehler: " +:+ message)).

(** [connect(device)] for a device object; this version does not look at
    the device's ids. *)
Definition connect (dev : DeviceInfo) : M Tool unit :=
  wrapper <- gets usbWrapper ;;
  if negb (isSome wrapper)
  then throw "WebUSB Wrapper nicht initialisiert!"
  else
    tryCatch
      (modify (setDevice (Some dev)) ;;;
       usbWrapper_open ;;;
       modify (setConnected true) ;;;
       performHandshake ;;;
       ret tt)
      (fun message =>
         modify (setConnected false) ;;;
         throw ("Verbindungsfehler: " +:+ message)).

End Methods.
End BoschDisplayTool.

(** The tool after a frame was handed to the wrapper, and after a read. *)
Definition sent (data : ByteSeq) (s : Tool) : Tool :=
  setWorld (mkWorld (S (clock (world s))) (data :: writeCalls (world s))) s.

Definition received (s : Tool) : Tool :=
  setWorld (mkWorld (S (clock (world s))) (writeCalls (world s))) s.

(** Two states of a tool with the same fields, whatever the world. *)
Definition sameTool (s s' : Tool) : Prop :=
  device s' = device s /\ usbWrapper s' = usbWrapper s
  /\ isConnected s' = isConnected s /\ sequenceNumber s' = sequenceNumber s.

(** A tool that passes the guard of [sendData]: connected, with a wrapper. *)
Definition attached (s : Tool) : Prop :=
  isConnected s = true /\ isSome (usbWrapper s) = true.

(** On an attached tool, [m] changes nothing but the world and hands
    exactly the frames [frames] to [usbWrapper.write], the first one
    first. *)
Definition sends {A} (m : M Tool A) (frames : list ByteSeq) : Prop :=
  emits attached sameTool (fun s => writeCalls (world s)) m frames.

(** ** Wrappers and sessions used as examples *)

(** A wrapper that takes every frame and answers every read with [frame]. *)
Definition answering (frame : list byte) : UsbHost :=
  mkUsbHost (fun _ => None) (fun _ => None) (fun _ _ => None)
            (fun _ _ => Ok frame)
            (fun _ => "2024-06-15T12:00:00.000Z").

(** A wrapper that takes every frame and whose reads all time out. *)
Definition silent : UsbHost :=
  mkUsbHost (fun _ => None) (fun _ => None) (fun _ _ => None)
            (fun _ _ => Throw "TIMEOUT")
            (fun _ => "2024-06-15T12:00:00.000Z").

(** A wrapper whose [close] throws. *)
Definition stuck : UsbHost :=
  mkUsbHost (fun _ => None) (fun _ => Some "device busy") (fun _ _ => None)
            (fun _ _ => Throw "TIMEOUT")
            (fun _ => "2024-06-15T12:00:00.000Z").

(** A tool after a successful [connect]. *)
Definition ready : Tool :=
  mkTool (Some (mkDeviceInfo 0x108c 0x155 "WebUSB-Device"))
         (Some WebUsbWrapper) true 0 (mkWorld 2 []).

End Backend.

(* ===================================================================== *)
(** * The local-HID engine: [src/lib/protocols.js]                       *)
(* ===================================================================== *)

Module Local.
Import Constants.

Definition HARDWARE_VERSION : list byte := [x02; x21].

Definition createUdsFrame := Constants.createUdsFrame.
Definition createHandshakeFrame := Constants.createHandshakeFrame.

(** The object returned by [parseUdsResponse]. *)
Record UdsResponse : Type := mkUdsResponse {
  serviceId : option byte;
  dataLength : option byte;
  data : ByteSeq
}.

Definition parseUdsResponse (response : ByteSeq) : Res UdsResponse :=
  if (len response <? 6)%nat then Throw "Ungültige Response-Länge"
  else if negb (strictEq (idx response 0) 0x01)
          || negb (strictEq (idx response 1) 0x00)
  then Throw "Ungültiger Response-Header"
  else
    let dataLength := idx response 2 in
    let serviceId := idx response 3 in
    let data := sliceFrom response 5 in
    Ok {| serviceId := serviceId; dataLength := dataLength; data := data |}.

Definition hexToAscii (hexData : ByteSeq) : string :=
  let cleanData :=
    filter (fun b => negb (u8 b =? 0x00)%N && (0x20 <=? u8 b)%N
                     && (u8 b <=? 0x7E)%N) hexData in
  toAsciiString (elems (bufferFrom (elems cleanData))).

Definition hexToSerialNumber (hexData : ByteSeq) : string :=
  let serialData := slice hexData 0 12 in
  let hexString := joinMapped "" (map hex2 serialData) in
  "0x" +:+ toUpperCase hexString.

Definition hexToVersion (hexData : ByteSeq) : string :=
  match elems hexData with
  | b0 :: b1 :: b2 :: b3 :: _ =>               (* hexData.length >= 4 *)
      toString10 (u8 b0) +:+ "." +:+ toString10 (u8 b1) +:+ "."
      +:+ toString10 (u8 b2) +:+ "." +:+ toString10 (u8 b3)
  | _ => joinMapped "." (map hex2 hexData)
  end.

Definition hexToArticleNumber (hexData : ByteSeq) : string :=
  let cleanData := filter (fun b => negb (u8 b =? 0x00)%N) hexData in
  toAsciiString (elems (bufferFrom (elems cleanData))).

Definition hexToTime (hexData : ByteSeq) : string :=
  match elems hexData with
  | hours :: minutes :: _ =>                   (* hexData.length >= 2 *)
      dec2 hours +:+ ":" +:+ dec2 minutes
  | _ => "00:00"
  end.

Definition hexToDate (hexData : ByteSeq) : string :=
  match elems hexData with
  | b0 :: b1 :: b2 :: _ =>                     (* hexData.length >= 3 *)
      let day := b0 in
      let month := b1 in
      let year := (2000 + u8 b2)%N in
      dec2 day +:+ "." +:+ dec2 month +:+ "." +:+ toString10 year
  | _ => "01.01.2000"
  end.

Definition isResponseSuccessful (response : ByteSeq) : bool :=
  match parseUdsResponse response with
  | Ok parsed =>
      negb (strictEq (serviceId parsed) 0x7F) && gt (dataLength parsed) 0
  | Throw _ => false
  end.

(** ** The node-hid device and the objects of a session

    [src/lib/SimpleHidWrapper.js] wraps a [node-hid] handle, which is
    outside the repository.  Its behaviour is an arbitrary environment:
    what the [n]-th interaction with the device answers.  The polling loop
    of [read] is taken at its outcome, which it is assumed to reach: a
    non-empty report, a fatal read error, or the timeout. *)

Inductive Poll : Type :=
| Data (first : byte) (rest : list byte)
| Fault (message : string)
| Expired.

Record NodeHid : Type := mkNodeHid {
  hid_new : nat -> option string;          (* [new HID.HID(path)] throws? *)
  hid_close : nat -> option string;        (* [hidDevice.close()] throws? *)
  hid_write : nat -> list byte -> Res N;   (* [hidDevice.write(report)] *)
  hid_poll : nat -> Z -> Poll;             (* the polling of [readSync] *)
  isoNow : nat -> string                   (* [new Date().toISOString()] *)
}.

(** What has happened on the device so far: the number of interactions,
    every frame handed to [hidWrapper.write] and every report handed to
    [hidDevice.write], newest first. *)
Record World : Type := mkWorld {
  clock : nat;
  writeCalls : list ByteSeq;
  reports : list (list byte)
}.

Inductive Handle : Type := HID.

(** The fields of a [SimpleHidWrapper] object. *)
Record Wrapper : Type := mkWrapper {
  w_device : option DeviceInfo;
  hidDevice : option Handle;
  w_isConnected : bool
}.

(** The fields of a [BoschDisplayTool] object, with the world it acts on. *)
Record Tool : Type := mkTool {
  device : option DeviceInfo;
  hidWrapper : option Wrapper;
  isConnected : bool;
  sequenceNumber : Z;
  world : World
}.

Definition setDevice (d : option DeviceInfo) (s : Tool) : Tool :=
  mkTool d (hidWrapper s) (isConnected s) (sequenceNumber s) (world s).
Definition setWrapper (w : option Wrapper) (s : Tool) : Tool :=
  mkTool (device s) w (isConnected s) (sequenceNumber s) (world s).
Definition setConnected (b : bool) (s : Tool) : Tool :=
  mkTool (device s) (hidWrapper s) b (sequenceNumber s) (world s).
Definition setWorld (wo : World) (s : Tool) : Tool :=
  mkTool (device s) (hidWrapper s) (isConnected s) (sequenceNumber s) wo.

Definition logWriteCall (data : ByteSeq) (s : Tool) : Tool :=
  let wo := world s in
  setWorld (mkWorld (clock wo) (data :: writeCalls wo) (reports wo)) s.

Definition logReport (report : list byte) (wo : World) : World :=
  mkWorld (clock wo) (writeCalls wo) (report :: reports wo).

(** One interaction with the device: the environment's answer at the
    current clock; the clock advances and [record] notes what was sent. *)
Definition interact {A} (answer : nat -> A) (record : World -> World)
  : M Tool A :=
  fun s =>
    let wo := world s in
    (Ok (answer (clock wo)),
     setWorld (record (mkWorld (S (clock wo)) (writeCalls wo) (reports wo))) s).

Definition isSome {A} (o : option A) : bool :=
  match o with Some _ => true | None => false end.

(** [deviceManager.js]: [isBoschDisplay(device)] *)
Definition isBoschDisplay (device : option DeviceInfo) : bool :=
  match device with
  | Some d => (vendorId d =? 0x108c)%Z && (productId d =? 0x155)%Z
  | None => false
  end.

(** The [Date] handed to [setDateTime], through its getters. *)
Record JsDate : Type := mkDate {
  getFullYear : Z;
  getMonth : Z;
  getDate : Z;
  getHours : Z;
  getMinutes : Z
}.

(** ** [src/lib/SimpleHidWrapper.js] *)

Module SimpleHidWrapper.
Section Methods.
Variable hid : NodeHid.

(** A method call [this.hidWrapper.m(...)]: on [null] it is a [TypeError]. *)
Definition this {A} (method : string) (body : Wrapper -> M Tool A)
  : M Tool A :=
  fun s =>
    match hidWrapper s with
    | Some w => body w s
    | None =>
        (Throw ("Cannot read properties of null (reading '" +:+ method
                +:+ "')"), s)
    end.

(** [new SimpleHidWrapper(device)] *)
Definition new (device : option DeviceInfo) : Wrapper :=
  mkWrapper device None false.

Definition open : M Tool bool :=
  this "open" (fun w =>
    tryCatch
      (match w_device w with
       | None => throw "Cannot read properties of null (reading 'path')"
       | Some _ =>
           failure <- interact (hid_new hid) id ;;
           match failure with
           | Some message => throw message
           | None =>
               modify (setWrapper
                         (Some (mkWrapper (w_device w) (Some HID) true))) ;;;
               ret true
           end
       end)
      (fun message => throw ("HID-Verbindungsfehler: " +:+ message))).

Definition close : M Tool unit :=
  this "close" (fun w =>
    (if isSome (hidDevice w)
     then tryCatch
            (failure <- interact (hid_close hid) id ;;
             match failure with
             | Some message => throw message
             | None => ret tt
             end)
            (fun _ => ret tt)
     else ret tt) ;;;
    modify (setWrapper (Some (mkWrapper (w_device w) None false)))).

(** The report built by [write]: the report id, the data, cut or padded
    to 65 bytes. *)
Definition buildReport (data : ByteSeq) : list byte :=
  let dataArray := elems data in
  let reportArray := x00 :: dataArray in
  if (65 <? length reportArray)%nat
  then firstn 65 reportArray
  else Constants.pushZeros (65 - length reportArray) reportArray.

Definition write (data : ByteSeq) : M Tool N :=
  this "write" (fun w =>
    modify (logWriteCall data) ;;;
    if negb (w_isConnected w) || negb (isSome (hidDevice w))
    then throw "HID-Gerät nicht verbunden"
    else
      tryCatch
        (let reportArray := buildReport data in
         answer <- interact (fun n => hid_write hid n reportArray)
                            (logReport reportArray) ;;
         bytesWritten <- liftRes answer ;;
         if negb (bytesWritten =? N.of_nat (length reportArray))%N
         then throw ("Nur " +:+ toString10 bytesWritten +:+ " von "
                     +:+ toString10 (N.of_nat (length reportArray))
                     +:+ " Bytes geschrieben")
         else ret bytesWritten)
        (fun message => throw ("Schreibfehler: " +:+ message))).

Definition read (timeout : Z) : M Tool ByteSeq :=
  this "read" (fun w =>
    if negb (w_isConnected w) || negb (isSome (hidDevice w))
    then throw "HID-Gerät nicht verbunden"
    else
      outcome <- interact (fun n => hid_poll hid n timeout) id ;;
      match outcome with
      | Data first rest => ret (bufferFrom (first :: rest))
      | Fault message => throw ("Lesefehler: " +:+ message)
      | Expired => throw "Timeout beim Lesen von Daten"
      end).

End Methods.
End SimpleHidWrapper.

(** ** [src/lib/BoschDisplayTool.js] *)

Module BoschDisplayTool.
Section Methods.
Variable hid : NodeHid.

(** [new BoschDisplayTool()], in a given world. *)
Definition constructor (wo : World) : Tool := mkTool None None false 0 wo.

Definition notConnected : string := "Nicht mit dem Display verbunden!".

Definition sendData (data : ByteSeq) : M Tool unit :=
  connected <- gets isConnected ;;
  wrapper <- gets hidWrapper ;;
  if negb connected || negb (isSome wrapper)
  then throw notConnected
  else
    tryCatch
      (SimpleHidWrapper.write hid data ;;; ret tt)
      (fun message => throw ("Sendefehler: " +:+ message)).

Definition receiveData (timeout : Z) : M Tool ByteSeq :=
  connected <- gets isConnected ;;
  wrapper <- gets hidWrapper ;;
  if negb connected || negb (isSome wrapper)
  then throw notConnected
  else
    tryCatch
      (SimpleHidWrapper.read hid timeout)
      (fun message =>
         if includes message "timeout" || includes message "Timeout"
         then throw "TIMEOUT"
         else throw ("Empfangsfehler: " +:+ message)).

Definition performHandshake : M Tool bool :=
  connected <- gets isConnected ;;
  if negb connected then throw notConnected
  else
    tryCatch
      (let handshakeRequest := createHandshakeFrame in
       sendData handshakeRequest ;;;
       response <- receiveData 1000 ;;
       if strictEq (idx response 0) 0x00 && strictEq (idx response 1) 0x01
          && strictEq (idx response 2) 0x01 && strictEq (idx response 3) 0x00
       then ret true
       else throw "Handshake fehlgeschlagen - ungültige Response")
      (fun message => throw ("Handshake-Fehler: " +:+ message)).

Definition connect (dev : option DeviceInfo) : M Tool unit :=
  if negb (isBoschDisplay dev)
  then throw "Das angegebene Gerät ist kein Bosch eBike Display!"
  else
    tryCatch
      (modify (setDevice dev) ;;;
       modify (setWrapper (Some (SimpleHidWrapper.new dev))) ;;;
       SimpleHidWrapper.open hid ;;;
       modify (setConnected true) ;;;
       performHandshake ;;;
       ret tt)
      (fun message =>
         modify (setConnected false) ;;;
         throw ("Verbindungsfehler: " +:+ message)).

Definition typeErrorToString : string :=
  "Cannot read properties of undefined (reading 'toString')".

Definition sendUdsRequest (serviceId : byte) (dataIdentifier : list byte)
    (additionalData : list byte) (timeout : Z) : M Tool ByteSeq :=
  connected <- gets isConnected ;;
  if negb connected then throw notConnected
  else
    tryCatch
      (let request := createUdsFrame serviceId dataIdentifier additionalData in
       sendData request ;;;
       response <- receiveData timeout ;;
       parsedResponse <- liftRes (parseUdsResponse response) ;;
       if isResponseSuccessful response
       then ret response
       else
         match Local.serviceId parsedResponse with
         | Some sid =>
             throw ("UDS-Response-Fehler: Service " +:+ toString16 (u8 sid))
         | None => throw typeErrorToString
         end)
      (fun message =>
         if includes message "Timeout" || includes message "TIMEOUT"
         then throw "TIMEOUT"
         else throw ("UDS-Request-Fehler: " +:+ message)).

Definition readSerialNumber : M Tool string :=
  tryCatch
    (response <- sendUdsRequest READ_DATA_BY_IDENTIFIER SERIAL_NUMBER [] 3000 ;;
     if (0 <? len response)%nat
     then
       let dataStart := if (8 <? len response)%nat then 8%nat else 5%nat in
       let serialData := slice response dataStart (dataStart + 12) in
       let serial := hexToSerialNumber serialData in
       ret (orElse serial "Seriennummer nicht lesbar")
     else throw "Keine Seriennummer empfangen")
    (fun message => throw ("Seriennummer-Lesefehler: " +:+ message)).

Definition readHardwareVersion : M Tool string :=
  tryCatch
    (response <- sendUdsRequest READ_DATA_BY_IDENTIFIER HARDWARE_VERSION [] 3000 ;;
     if (4 <=? len response)%nat
     then
       let data := slice response 8 12 in
       ret (hexToVersion data)
     else throw "Keine Hardware-Version empfangen")
    (fun message => throw ("Hardware-Version-Lesefehler: " +:+ message)).

Definition readSoftwareVersion : M Tool string :=
  tryCatch
    (response <- sendUdsRequest READ_DATA_BY_IDENTIFIER SOFTWARE_VERSION [] 3000 ;;
     if (4 <=? len response)%nat
     then
       let data := slice response 8 12 in
       ret (hexToVersion data)
     else throw "Keine Software-Version empfangen")
    (fun message => throw ("Software-Version-Lesefehler: " +:+ message)).

Definition readProductCode : M Tool string :=
  tryCatch
    (response <- sendUdsRequest READ_DATA_BY_IDENTIFIER BOSCH_PRODUCT_CODE [] 3000 ;;
     if (0 <? len response)%nat
     then
       let data := slice response 8 14 in
       let productCode := hexToAscii data in
       ret (orElse productCode "Produktcode nicht lesbar")
     else throw "Kein Produktcode empfangen")
    (fun message => throw ("Produktcode-Lesefehler: " +:+ message)).

Definition readArticleNumber : M Tool string :=
  tryCatch
    (response <- sendUdsRequest READ_DATA_BY_IDENTIFIER HMI_PART_NUMBER [] 3000 ;;
     if (0 <? len response)%nat
     then
       let data := slice response 8 18 in
       let articleNumber := hexToArticleNumber data in
       ret (orElse articleNumber "Artikelnummer nicht lesbar")
     else throw "Keine Artikelnummer empfangen")
    (fun message => throw ("Artikelnummer-Lesefehler: " +:+ message)).

Definition readComponentType : M Tool string :=
  tryCatch
    (response <- sendUdsRequest READ_DATA_BY_IDENTIFIER COMPONENT_TYPE [] 3000 ;;
     if (0 <? len response)%nat
     then
       match idx response 8 with
       | Some componentCode =>
           match COMPONENT_TYPES componentCode with
           | Some name => ret name
           | None =>
               ret ("Unbekannt (0x" +:+ toString16 (u8 componentCode) +:+ ")")
           end
       | None => throw typeErrorToString
       end
     else throw "Kein Komponententyp empfangen")
    (fun message => throw ("Komponententyp-Lesefehler: " +:+ message)).

Definition readCurrentTime : M Tool string :=
  tryCatch
    (response <- sendUdsRequest READ_DATA_BY_IDENTIFIER CURRENT_TIME [] 3000 ;;
     if (2 <=? len response)%nat
     then
       let data := slice response 8 10 in
       ret (hexToTime data)
     else throw "Keine Uhrzeit empfangen")
    (fun message => throw ("Uhrzeit-Lesefehler: " +:+ message)).

Definition readCurrentDate : M Tool string :=
  tryCatch
    (response <- sendUdsRequest READ_DATA_BY_IDENTIFIER CURRENT_DATE [] 3000 ;;
     if (3 <=? len response)%nat
     then
       let dataStart := if (8 <? len response)%nat then 8%nat else 5%nat in
       let dateData := slice response dataStart (dataStart + 3) in
       ret (hexToDate dateData)
     else throw "Kein Datum empfangen")
    (fun message => throw ("Datum-Lesefehler: " +:+ message)).

Definition setDateTime (date : JsDate) : M Tool bool :=
  tryCatch
    (let year := (getFullYear date - 2000)%Z in
     let month := (getMonth date + 1)%Z in
     let day := getDate date in
     let hour := getHours date in
     let minute := getMinutes date in
     response <- sendUdsRequest WRITE_DATA_BY_IDENTIFIER PRESENT_DATE_TIME
                   (List.map toUint8 [year; month; day; hour; minute]) 3000 ;;
     if strictEq (idx response 0) 0x6E
     then ret true
     else throw "Datum/Zeit konnte nicht gesetzt werden")
    (fun message => throw ("Datum/Zeit-Setze-Fehler: " +:+ message)).

(** One of the four [try]/[catch] blocks of [readDriveUnitInfo] and of
    [readBatteryManagementInfo]; they differ in the identifier, the length
    test, the slice decoded and the property written. *)
Definition readPart (dataIdentifier : list byte) (enough : ByteSeq -> bool)
    (decode : ByteSeq -> string) (key : string)
    (acc : gmap string string * bool) : M Tool (gmap string string * bool) :=
  let '(info, hasTimeout) := acc in
  tryCatch
    (response <- sendUdsRequest READ_DATA_BY_IDENTIFIER dataIdentifier [] 2000 ;;
     if enough response
     then ret (<[key := decode response]> info, hasTimeout)
     else ret (info, hasTimeout))
    (fun message =>
       if String.eqb message "TIMEOUT"
       then ret (<[key := "Nicht angeschlossen (Timeout)"]> info, true)
       else ret (<[key := "Fehler: " +:+ message]> info, hasTimeout)).

Definition nonEmpty (response : ByteSeq) : bool := (0 <? len response)%nat.
Definition atLeast4 (response : ByteSeq) : bool := (4 <=? len response)%nat.

Definition readDriveUnitInfo : M Tool (gmap string string) :=
  connected <- gets isConnected ;;
  if negb connected then throw notConnected
  else
    tryCatch
      (acc <- readPart DU_PART_NUMBER nonEmpty
                (fun r => hexToArticleNumber (slice r 8 18)) "partNumber"
                (∅, false) ;;
       acc <- readPart DU_SERIAL_NUMBER nonEmpty
                (fun r => hexToSerialNumber (slice r 8 20)) "serialNumber" acc ;;
       acc <- readPart DU_HW_VERSION atLeast4
                (fun r => hexToVersion (slice r 8 12)) "hardwareVersion" acc ;;
       acc <- readPart DU_SW_VERSION atLeast4
                (fun r => hexToVersion (slice r 8 12)) "softwareVersion" acc ;;
       let '(duInfo, hasTimeout) := acc in
       if hasTimeout
       then ret (<["message" := "Drive Unit ist nicht am Display angeschlossen oder nicht verfügbar"]>
                   (<["status" := "Nicht angeschlossen"]> duInfo))
       else ret (<["status" := "Verfügbar"]> duInfo))
      (fun message => throw ("Drive Unit Info-Lesefehler: " +:+ message)).

Definition readBatteryManagementInfo : M Tool (gmap string string) :=
  connected <- gets isConnected ;;
  if negb connected then throw notConnected
  else
    tryCatch
      (acc <- readPart BMS_PART_NUMBER nonEmpty
                (fun r => hexToArticleNumber (slice r 8 18)) "partNumber"
                (∅, false) ;;
       acc <- readPart BMS_SERIAL_NUMBER nonEmpty
                (fun r => hexToSerialNumber (slice r 8 20)) "serialNumber" acc ;;
       acc <- readPart BMS_HW_VERSION atLeast4
                (fun r => hexToVersion (slice r 8 12)) "hardwareVersion" acc ;;
       acc <- readPart BMS_SW_VERSION atLeast4
                (fun r => hexToVersion (slice r 8 12)) "softwareVersion" acc ;;
       let '(bmsInfo, hasTimeout) := acc in
       if hasTimeout
       then ret (<["message" := "Battery Management System ist nicht am Display angeschlossen oder nicht verfügbar"]>
                   (<["status" := "Nicht angeschlossen"]> bmsInfo))
       else ret (<["status" := "Verfügbar"]> bmsInfo))
      (fun message => throw ("Battery Management Info-Lesefehler: " +:+ message)).

(** The [tasks] array of [readAllInformation]. *)
Definition tasks : list (string * M Tool string) :=
  [ ("serialNumber", readSerialNumber);
    ("hardwareVersion", readHardwareVersion);
    ("softwareVersion", readSoftwareVersion);
    ("productCode", readProductCode);
    ("articleNumber", readArticleNumber);
    ("componentType", readComponentType);
    ("currentTime", readCurrentTime);
    ("currentDate", readCurrentDate) ].

Definition notAsked (message : string) : Value :=
  Obj (<["message" := message]> (<["status" := "Nicht abgefragt"]> ∅)).

Definition failedGroup (error message : string) : Value :=
  Obj (<["message" := message]>
         (<["status" := "Fehler"]> (<["error" := error]> ∅))).

Definition readAllInformation (mode : string) : M Tool (gmap string Value) :=
  tryCatch
    (results <- runTasks tasks ∅ ;;
     results <-
       (if String.eqb mode "full"
        then
          results <- tryCatch
                       (driveUnit <- readDriveUnitInfo ;;
                        ret (<["driveUnit" := Obj driveUnit]> results))
                       (fun message =>
                          ret (<["driveUnit" :=
                                   failedGroup message
                                     "Drive Unit konnte nicht gelesen werden"]>
                                 results)) ;;
          tryCatch
            (batteryManagement <- readBatteryManagementInfo ;;
             ret (<["batteryManagement" := Obj batteryManagement]> results))
            (fun message =>
               ret (<["batteryManagement" :=
                        failedGroup message
                          "Battery Management System konnte nicht gelesen werden"]>
                      results))
        else
          ret (<["batteryManagement" :=
                   notAsked "Battery Management wird nur im full-Modus abgefragt (Display muss am Fahrrad angeschlossen sein)"]>
                 (<["driveUnit" :=
                      notAsked "Drive Unit wird nur im full-Modus abgefragt (Display muss am Fahrrad angeschlossen sein)"]>
                    results))) ;;
     now <- gets (fun s => isoNow hid (clock (world s))) ;;
     ret (<["lastUpdate" := Obj (<["date" := now]> ∅)]> results))
    (fun message =>
       throw ("Allgemeine Informationslese-Fehler: " +:+ message)).

Definition disconnect : M Tool unit :=
  wrapper <- gets hidWrapper ;;
  (if isSome wrapper
   then tryCatch (SimpleHidWrapper.close hid) (fun _ => ret tt)
   else ret tt) ;;;
  modify (setWrapper None) ;;;
  modify (setDevice None) ;;;
  modify (setConnected false).

End Methods.
End BoschDisplayTool.

(** ** Sequences of method calls on one tool *)

Inductive Call : Type :=
| Connect (dev : option DeviceInfo)
| Disconnect
| PerformHandshake
| SendData (data : ByteSeq)
| ReceiveData (timeout : Z)
| SendUdsRequest (serviceId : byte) (dataIdentifier additionalData : list byte)
                 (timeout : Z)
| ReadSerialNumber
| ReadHardwareVersion
| ReadSoftwareVersion
| ReadProductCode
| ReadArticleNumber
| ReadComponentType
| ReadCurrentTime
| ReadCurrentDate
| SetDateTime (date : JsDate)
| ReadDriveUnitInfo
| ReadBatteryManagementInfo
| ReadAllInformation (mode : string).

(** A call whose result the caller drops. *)
Definition discard {A} (m : M Tool A) : M Tool unit := m ;;; ret tt.

Definition invoke (hid : NodeHid) (c : Call) : M Tool unit :=
  match c with
  | Connect dev => BoschDisplayTool.connect hid dev
  | Disconnect => BoschDisplayTool.disconnect hid
  | PerformHandshake => discard (BoschDisplayTool.performHandshake hid)
  | SendData data => BoschDisplayTool.sendData hid data
  | ReceiveData timeout => discard (BoschDisplayTool.receiveData hid timeout)
  | SendUdsRequest sid did extra timeout =>
      discard (BoschDisplayTool.sendUdsRequest hid sid did extra timeout)
  | ReadSerialNumber => discard (BoschDisplayTool.readSerialNumber hid)
  | ReadHardwareVersion => discard (BoschDisplayTool.readHardwareVersion hid)
  | ReadSoftwareVersion => discard (BoschDisplayTool.readSoftwareVersion hid)
  | ReadProductCode => discard (BoschDisplayTool.readProductCode hid)
  | ReadArticleNumber => discard (BoschDisplayTool.readArticleNumber hid)
  | ReadComponentType => discard (BoschDisplayTool.readComponentType hid)
  | ReadCurrentTime => discard (BoschDisplayTool.readCurrentTime hid)
  | ReadCurrentDate => discard (BoschDisplayTool.readCurrentDate hid)
  | SetDateTime date => discard (BoschDisplayTool.setDateTime hid date)
  | ReadDriveUnitInfo => discard (BoschDisplayTool.readDriveUnitInfo hid)
  | ReadBatteryManagementInfo =>
      discard (BoschDisplayTool.readBatteryManagementInfo hid)
  | ReadAllInformation mode =>
      discard (BoschDisplayTool.readAllInformation hid mode)
  end.

(** [connect] resolved. *)
Definition connected (c : Call) (outcome : Res unit) : bool :=
  match c, outcome with
  | Connect _, Ok _ => true
  | _, _ => false
  end.

(** The states in which a tool is not ready: a new tool; what any call
    leaves behind on a tool that is not ready, unless the call is a
    [connect] that succeeded; and what [disconnect] leaves behind on any
    tool. *)
Inductive NotReady (hid : NodeHid) : Tool -> Prop :=
| notReady_new (wo : World) :
    NotReady hid (BoschDisplayTool.constructor wo)
| notReady_call (c : Call) (s : Tool) :
    NotReady hid s ->
    connected c (fst (invoke hid c s)) = false ->
    NotReady hid (snd (invoke hid c s))
| notReady_disconnect (s : Tool) :
    NotReady hid (snd (BoschDisplayTool.disconnect hid s)).

(** [m] leaves a tool that is not connected as it is. *)
Definition idle {A} (m : M Tool A) : Prop :=
  forall s, isConnected s = false -> snd (m s) = s.

(** The tool after a frame went through [hidWrapper.write], and after a
    read. *)
Definition sent (data : ByteSeq) (s : Tool) : Tool :=
  setWorld (mkWorld (S (clock (world s))) (data :: writeCalls (world s))
                    (SimpleHidWrapper.buildReport data :: reports (world s))) s.

Definition received (s : Tool) : Tool :=
  setWorld (mkWorld (S (clock (world s))) (writeCalls (world s))
                    (reports (world s))) s.

(** Two states of a tool with the same fields, whatever the world. *)
Definition sameTool (s s' : Tool) : Prop :=
  device s' = device s /\ hidWrapper s' = hidWrapper s
  /\ isConnected s' = isConnected s /\ sequenceNumber s' = sequenceNumber s.

(** A tool that passes the guard of [sendData]: connected, with a wrapper. *)
Definition attached (s : Tool) : Prop :=
  isConnected s = true /\ isSome (hidWrapper s) = true.

(** A tool whose wrapper is open as well. *)
Definition online (s : Tool) : Prop :=
  isConnected s = true
  /\ exists d, hidWrapper s = Some (mkWrapper d (Some HID) true).

(** On an attached tool, [m] changes nothing but the world and hands
    exactly the frames [frames] to [hidWrapper.write], the first one
    first. *)
Definition sends {A} (m : M Tool A) (frames : list ByteSeq) : Prop :=
  emits attached sameTool (fun s => writeCalls (world s)) m frames.

(** A device that takes every report and lets every read time out. *)
Definition neverAnswers (hid : NodeHid) : Prop :=
  (forall n report, hid_write hid n report = Ok 65%N)
  /\ (forall n timeout, hid_poll hid n timeout = Expired).

(** [deviceManager.js]: [findBoschDisplay()], on the array that
    [listHidDevices()] returned; [None] stands for [undefined]. *)
Definition findBoschDisplay (devices : list DeviceInfo) : option DeviceInfo :=
  List.find (fun device => (vendorId device =? 0x108c)%Z
                           && (productId device =? 0x155)%Z) devices.

(** ** Devices and sessions used as examples *)

Definition boschDisplay : DeviceInfo := mkDeviceInfo 0x108c 0x155 "usb-1".

(** A device that takes every report and answers every read with [first]
    followed by [rest]. *)
Definition answering (first : byte) (rest : list byte) : NodeHid :=
  mkNodeHid (fun _ => None) (fun _ => None) (fun _ _ => Ok 65%N)
            (fun _ _ => Data first rest)
            (fun _ => "2024-06-15T12:00:00.000Z").

(** A device that takes every report and never answers. *)
Definition silent : NodeHid :=
  mkNodeHid (fun _ => None) (fun _ => None) (fun _ _ => Ok 65%N)
            (fun _ _ => Expired)
            (fun _ => "2024-06-15T12:00:00.000Z").

(** The frame a display would send to acknowledge a write, in the layout
    the local engine reads: service byte 0x6E at index 3. *)
Definition writeAck : list byte := [x01; x00; x05; x6e; x02; x3a; x00; x00].

(** A new tool whose [connect] has just failed: the device answered the
    handshake with a frame that is not the handshake response. *)
Definition afterFailedConnect : Tool :=
  snd (invoke (answering x01 [x00; x3d]) (Connect (Some boschDisplay))
              (BoschDisplayTool.constructor (mkWorld 0 [] []))).

(** A tool after a successful [connect]. *)
Definition ready : Tool :=
  mkTool (Some boschDisplay)
         (Some (mkWrapper (Some boschDisplay) (Some HID) true))
         true 0 (mkWorld 2 [] []).

End Local.


(* ===================================================================== *)
(** * Reference renderings, written from the specification's words       *)
(* ===================================================================== *)

Module Spec.

(** One uppercase hexadecimal digit. *)
Definition hexDigit (n : N) : ascii :=
  (if n <? 10 then ascii_of_N (48 + n) else ascii_of_N (55 + n))%N.

(** The two uppercase hexadecimal digits of a byte. *)
Definition hexByte (b : byte) : string :=
  String (hexDigit (u8 b / 16)) (String (hexDigit (u8 b mod 16)) EmptyString).

(** The uppercase hexadecimal rendering of a byte sequence. *)
Fixpoint hexUpper (l : list byte) : string :=
  match l with
  | [] => EmptyString
  | b :: l' => hexByte b +:+ hexUpper l'
  end.

Definition decDigit (n : N) : ascii := ascii_of_N (48 + n).

(** A number below 1000 in decimal, with at least two digits. *)
Definition twoDigits (n : N) : string :=
  ((if n <? 100 then EmptyString
    else String (decDigit (n / 100)) EmptyString)
   +:+ String (decDigit ((n / 10) mod 10))
         (String (decDigit (n mod 10)) EmptyString))%N.

(** [HH:MM] *)
Definition clockText (hours minutes : byte) : string :=
  twoDigits (u8 hours) +:+ ":" +:+ twoDigits (u8 minutes).

(** The frame is rejected: shorter than 6 bytes, or not starting 01 00. *)
Definition malformed (frame : list byte) : Prop :=
  length frame < 6 \/ frame !! 0%nat <> Some x01 \/ frame !! 1%nat <> Some x00.

(** The content of a request before padding. *)
Definition requestContent (serviceId : byte) (dataIdentifier extra : list byte)
  : list byte :=
  [x01; x00; x3a; x08; x03; serviceId] ++ dataIdentifier ++ extra.

(** The primary fields of the record built by [readAll]. *)
Definition primaryFields : list string :=
  [ "serialNumber"; "hardwareVersion"; "softwareVersion"; "productCode";
    "articleNumber"; "componentType"; "currentTime"; "currentDate" ].

(** The serial number of the captured traffic. *)
Definition knownSerial : list byte :=
  [x37; xff; xd7; x05; x56; x4e; x31; x30; x46; x44; x20; x00].

(** What a Buffer slot holds after [map] handed back the two hexadecimal
    digits of [b]: the number they spell when both are decimal digits, and
    0 otherwise. *)
Definition slotNumber (b : byte) : N :=
  (if (u8 b / 16 <? 10) && (u8 b mod 16 <? 10)
   then 10 * (u8 b / 16) + u8 b mod 16 else 0)%N.

(** A number in decimal, most significant digit first. *)
Definition decimal (n : N) : string :=
  ((if n <? 1000 then EmptyString
    else String (decDigit (n / 1000)) EmptyString)
   +:+ (if n <? 100 then EmptyString
        else String (decDigit ((n / 100) mod 10)) EmptyString)
   +:+ (if n <? 10 then EmptyString
        else String (decDigit ((n / 10) mod 10)) EmptyString)
   +:+ String (decDigit (n mod 10)) EmptyString)%N.

(** The texts between the dots of [s]. *)
Fixpoint fields (s : string) : list string :=
  match s with
  | EmptyString => [EmptyString]
  | String c s' =>
      if Ascii.eqb c "."
      then EmptyString :: fields s'
      else match fields s' with
           | f :: fs => String c f :: fs
           | [] => [String c EmptyString]
           end
  end.

(** The numbers of a dotted text such as 1.2.3.4 or 15.06.2024; [None]
    when a field is not a number. *)
Definition dottedNumbers (s : string) : option (list N) :=
  mapM (fun f => match f with
                 | EmptyString => None
                 | _ => digitsValue 0 f
                 end) (fields s).

(** A printable ASCII character, 0x20 to 0x7E. *)
Definition printable (c : ascii) : bool :=
  (0x20 <=? N_of_ascii c)%N && (N_of_ascii c <=? 0x7E)%N.

(** The dump of a byte sequence as in a capture: two lowercase hexadecimal
    digits per byte, separated by colons. *)
Definition dump (l : list byte) : string := join ":" (List.map hex2 l).

(** A text of decimal digits only. *)
Definition digitsOnly (s : string) : Prop :=
  Forall (fun c => isDigit c = true) (list_ascii_of_string s).

(** A text without a dot. *)
Definition noDot (s : string) : Prop :=
  Forall (fun c => Ascii.eqb c "." = false) (list_ascii_of_string s).

(** A text that reads back as the number [n]. *)
Definition spells (s : string) (n : N) : Prop :=
  noDot s /\ s <> EmptyString /\ digitsValue 0 s = Some n.

(** The byte sequence [l] starts with the bytes [p]. *)
Fixpoint beginsWith (p l : list byte) : bool :=
  match p, l with
  | [], _ => true
  | _ :: _, [] => false
  | a :: p', b :: l' => Byte.eqb b a && beginsWith p' l'
  end.

(** A serial number as the read functions print it: 0x and decimal
    digits. *)
Definition decimalSerial (text : string) : Prop :=
  exists digits, text = "0x" +:+ digits /\ digitsOnly digits.

(** The object of a component read: the four fields and the status are
    there, and the status is either "Verfügbar" without a message or
    "Nicht angeschlossen" with one. *)
Definition componentInfo (info : gmap string string) : Prop :=
  Forall (fun key => is_Some (info !! key))
         ["partNumber"; "serialNumber"; "hardwareVersion"; "softwareVersion";
          "status"]
  /\ ((info !! "status" = Some "Verfügbar" /\ info !! "message" = None)
      \/ (info !! "status" = Some "Nicht angeschlossen"
          /\ is_Some (info !! "message"))).

(** The read requests for a list of identifiers, in order. *)
Definition requests (identifiers : list (list byte)) : list ByteSeq :=
  List.map (fun identifier =>
              Constants.createUdsFrame Constants.READ_DATA_BY_IDENTIFIER
                                       identifier [])
           identifiers.

End Spec.

(* ===================================================================== *)
(** * Facts about the JavaScript library functions                       *)
(* ===================================================================== *)

Section JsFacts.

Lemma u8_inj (b c : byte) : u8 b = u8 c -> b = c.
Proof.
  unfold u8. intros E.
  assert (H : Byte.of_N (Byte.to_N b) = Byte.of_N (Byte.to_N c)) by now rewrite E.
  rewrite !Byte.of_to_N in H. congruence.
Qed.

Lemma strictEq_true (v : option byte) (c : byte) :
  strictEq v (u8 c) = true <-> v = Some c.
Proof.
  destruct v as [b|]; cbn.
  - rewrite N.eqb_eq. split; [intros E; f_equal; now apply u8_inj | congruence].
  - split; discriminate.
Qed.

Lemma strictEq_false (v : option byte) (c : byte) :
  strictEq v (u8 c) = false <-> v <> Some c.
Proof.
  rewrite <- strictEq_true. destruct (strictEq v (u8 c)); split; congruence.
Qed.

Lemma pushZeros_repeat (n : nat) (frame : list byte) :
  Constants.pushZeros n frame = frame ++ repeat x00 n.
Proof.
  revert frame. induction n as [|n IH]; intros frame; cbn.
  - now rewrite app_nil_r.
  - rewrite IH, <- List.app_assoc. reflexivity.
Qed.

Lemma append_cons (x : ascii) (a b : string) :
  String x a +:+ b = String x (a +:+ b).
Proof. reflexivity. Qed.

Lemma append_assoc (a b c : string) : (a +:+ b) +:+ c = a +:+ (b +:+ c).
Proof.
  induction a as [|x a IH]; [reflexivity|].
  rewrite !append_cons. now rewrite IH.
Qed.

Lemma append_empty_r (a : string) : a +:+ "" = a.
Proof.
  induction a as [|x a IH]; [reflexivity|].
  rewrite append_cons. now rewrite IH.
Qed.

Lemma length_append (a b : string) :
  String.length (a +:+ b) = String.length a + String.length b.
Proof.
  induction a as [|x a IH]; [reflexivity|].
  rewrite append_cons. cbn [String.length]. now rewrite IH.
Qed.

Lemma toUpperCase_append (a b : string) :
  toUpperCase (a +:+ b) = toUpperCase a +:+ toUpperCase b.
Proof.
  induction a as [|x a IH]; [reflexivity|].
  rewrite append_cons. cbn [toUpperCase]. now rewrite IH, append_cons.
Qed.

Lemma length_toUpperCase (a : string) :
  String.length (toUpperCase a) = String.length a.
Proof. induction a as [|x a IH]; cbn; [reflexivity | now rewrite IH]. Qed.

(** Joining with the empty separator is concatenation. *)
Lemma join_empty_cons (p : string) (rest : list string) :
  join "" (p :: rest) = p +:+ join "" rest.
Proof.
  destruct rest as [|q rest]; cbn.
  - now rewrite append_empty_r.
  - reflexivity.
Qed.

Lemma hex2_upper (b : byte) : toUpperCase (hex2 b) = Spec.hexByte b.
Proof. destruct b; reflexivity. Qed.

Lemma dec2_twoDigits (b : byte) : dec2 b = Spec.twoDigits (u8 b).
Proof. destruct b; reflexivity. Qed.

(** On a plain array, [map(hex2).join('')] upper-cased is the reference
    rendering. *)
Lemma upper_join_hex2 (l : list byte) :
  toUpperCase (join "" (List.map hex2 l)) = Spec.hexUpper l.
Proof.
  induction l as [|b l IH]; [reflexivity|].
  cbn [List.map]. rewrite join_empty_cons, toUpperCase_append, hex2_upper, IH.
  reflexivity.
Qed.

Lemma length_hexUpper (l : list byte) :
  String.length (Spec.hexUpper l) = 2 * length l.
Proof.
  induction l as [|b l IH]; [reflexivity|].
  cbn [Spec.hexUpper]. rewrite length_append, IH. cbn. lia.
Qed.

(** What a Buffer slot shows after [map(hex2)]: at most two digits. *)
Lemma length_slot_hex2 (b : byte) :
  String.length (toString10 (u8 (slotOfString (hex2 b)))) <= 2.
Proof. destruct b; vm_compute; lia. Qed.

Lemma length_join_slots (l : list byte) :
  String.length
    (join "" (List.map (fun b => toString10 (u8 b))
                       (List.map (fun b => slotOfString (hex2 b)) l)))
  <= 2 * length l.
Proof.
  induction l as [|b l IH]; [cbn; lia|].
  cbn [List.map]. rewrite join_empty_cons, length_append.
  pose proof (length_slot_hex2 b). cbn [length]. lia.
Qed.

Lemma prefix_split (p s : string) :
  String.prefix p s = true -> exists t, s = p +:+ t.
Proof.
  revert s. induction p as [|c p IH]; intros s H.
  - exists s. reflexivity.
  - destruct s as [|d s]; cbn in H; [discriminate|].
    destruct (Ascii.ascii_dec c d) as [->|]; [|discriminate].
    destruct (IH s H) as [t ->]. exists t. reflexivity.
Qed.

Lemma includes_length (s sub : string) :
  includes s sub = true -> String.length sub <= String.length s.
Proof.
  induction s as [|c s IH]; cbn [includes]; intros H.
  - rewrite orb_false_r in H. apply prefix_split in H as [t E].
    rewrite E, length_append. lia.
  - apply orb_true_iff in H as [H|H].
    + apply prefix_split in H as [t E].
      rewrite E, length_append. lia.
    + specialize (IH H). cbn. lia.
Qed.

(** A text no longer than the pattern contains it only by being it. *)
Lemma includes_short (s sub : string) :
  String.length s <= String.length sub -> includes s sub = true -> s = sub.
Proof.
  intros Hlen H. destruct s as [|c s]; cbn [includes] in H.
  - rewrite orb_false_r in H. apply prefix_split in H as [t E].
    destruct sub; [reflexivity | discriminate].
  - apply orb_true_iff in H as [H|H].
    + apply prefix_split in H as [t E].
      assert (String.length t = 0) as Ht.
      { apply (f_equal String.length) in E. rewrite length_append in E. lia. }
      destruct t; [|discriminate]. now rewrite append_empty_r in E.
    + apply includes_length in H. cbn in Hlen. lia.
Qed.

End JsFacts.

(* ===================================================================== *)
(** * Frames and field decoders                                          *)
(* ===================================================================== *)

Lemma prefix_append (p t : string) : String.prefix p (p +:+ t) = true.
Proof.
  induction p as [|c p IH]; [now destruct t|].
  rewrite append_cons. cbn [String.prefix].
  destruct (Ascii.ascii_dec c c); [exact IH | congruence].
Qed.

(** C1, as stated, fails for the local engine: on the frame
    01 00 05 6E 02 3A 00 00 its [parseUdsResponse] returns dataLength =
    byte 2, serviceId = byte 3 and data = the bytes from index 5 on, none
    of which is what bytes 3, 4 and the bytes from index 6 on hold. *)
Lemma parseUdsResponse_local_reads_other_bytes :
  let frame := Local.writeAck in
  exists parsed,
    Local.parseUdsResponse (bufferFrom frame) = Ok parsed
    /\ Local.dataLength parsed = Some x05
    /\ Local.dataLength parsed <> frame !! 3%nat
    /\ Local.serviceId parsed = Some x6e
    /\ Local.serviceId parsed <> frame !! 4%nat
    /\ Local.data parsed = bufferFrom [x3a; x00; x00]
    /\ Local.data parsed <> bufferFrom (drop 6 frame).
Proof.
  eexists. split; [reflexivity|]. cbn.
  repeat split; try reflexivity; discriminate.
Qed.

(** C1, amended.  [parseUdsResponse] of either engine throws exactly on
    the frames that are shorter than 6 bytes or do not start with 01 00
    (with one of its two "Ungültige..." errors).  On every other frame
    the backend's returns dataLength = byte 3, serviceId = byte 4,
    responseCode = byte 5, all defined, and data = the bytes from index 6
    on; the local one returns dataLength = byte 2, serviceId = byte 3,
    both defined, and data = the bytes from index 5 on, and has no
    responseCode. *)
Theorem parseUdsResponse_malformed_exactly (response : ByteSeq) :
  let frame := elems response in
  match Backend.parseUdsResponse response with
  | Throw message =>
      Spec.malformed frame /\
      (message = "Ungültige Response-Länge"
       \/ startsWith message "Ungültiger Response-Header: " = true)
  | Ok parsed =>
      (6 <= length frame /\ frame !! 0%nat = Some x01
       /\ frame !! 1%nat = Some x00) /\
      (exists b3 b4 b5,
          frame !! 3%nat = Some b3 /\ frame !! 4%nat = Some b4
          /\ frame !! 5%nat = Some b5
          /\ Backend.dataLength parsed = Some b3
          /\ Backend.serviceId parsed = Some b4
          /\ Backend.responseCode parsed = Some b5) /\
      Backend.data parsed = mkSeq (kind response) (drop 6 frame)
  end
  /\ match Local.parseUdsResponse response with
     | Throw message =>
         Spec.malformed frame /\
         (message = "Ungültige Response-Länge"
          \/ message = "Ungültiger Response-Header")
     | Ok parsed =>
         (6 <= length frame /\ frame !! 0%nat = Some x01
          /\ frame !! 1%nat = Some x00) /\
         (exists b2 b3,
             frame !! 2%nat = Some b2 /\ frame !! 3%nat = Some b3
             /\ Local.dataLength parsed = Some b2
             /\ Local.serviceId parsed = Some b3) /\
         Local.data parsed = mkSeq (kind response) (drop 5 frame)
     end.
Proof.
  destruct response as [k l].
  destruct l as [|b0 [|b1 [|b2 [|b3 [|b4 [|b5 rest]]]]]];
    try (cbn; split; (split; [left; cbn; lia | left; reflexivity])).
  unfold Backend.parseUdsResponse, Local.parseUdsResponse, idx, sliceFrom.
  cbn [len elems length kind lookup list_lookup].
  change (S (S (S (S (S (S (length rest)))))) <? 6) with false.
  cbv iota.
  destruct (strictEq (Some b0) 1) eqn:E0; cbn [negb orb].
  - destruct (strictEq (Some b1) 0) eqn:E1; cbn [negb orb].
    + apply (strictEq_true _ x01) in E0. apply (strictEq_true _ x00) in E1.
      assert (6 <= S (S (S (S (S (S (length rest))))))) by lia.
      split; (split; [split; [|split]|]); auto.
      * split; [|reflexivity].
        exists b3, b4, b5. cbn. repeat split; reflexivity.
      * split; [|reflexivity].
        exists b2, b3. cbn. repeat split; reflexivity.
    + apply (strictEq_false _ x00) in E1.
      split; [split; [right; right; exact E1 | right; apply prefix_append]
             | split; [right; right; exact E1 | right; reflexivity]].
  - apply (strictEq_false _ x01) in E0.
    split; [split; [right; left; exact E0 | right; apply prefix_append]
           | split; [right; left; exact E0 | right; reflexivity]].
Qed.

(** C2, as stated, fails: with 57 extra bytes the frame built by
    [createUdsFrame] has 65 bytes, not 64. *)
Lemma createUdsFrame_not_truncated :
  len (Backend.createUdsFrame x22 Constants.SERIAL_NUMBER (repeat xaa 57))
  <> 64.
Proof. vm_compute. discriminate. Qed.

(** C2, amended.  [createUdsFrame] lays out 01 00 3A 08, 03, the service
    id, the identifier and the extra bytes and pads with zeros up to 64
    bytes; a longer content is kept whole.  The cut to 64 payload bytes is
    made by [SimpleHidWrapper.write], whose report is the report id 00
    followed by the first 64 bytes of the frame: always 65 bytes, never a
    rejection. *)
Theorem createUdsFrame_layout
    (serviceId : byte) (dataIdentifier extra : list byte) :
  let content := Spec.requestContent serviceId dataIdentifier extra in
  let frame := Backend.createUdsFrame serviceId dataIdentifier extra in
  elems frame = content ++ repeat x00 (64 - length content)
  /\ len frame = Nat.max 64 (length content)
  /\ Local.createUdsFrame serviceId dataIdentifier extra = frame
  /\ Local.SimpleHidWrapper.buildReport frame = x00 :: firstn 64 (elems frame)
  /\ length (Local.SimpleHidWrapper.buildReport frame) = 65.
Proof.
  intros content frame.
  assert (E : elems frame = content ++ repeat x00 (64 - length content)).
  { unfold frame, Backend.createUdsFrame, Constants.createUdsFrame.
    cbn [elems bufferFrom]. rewrite pushZeros_repeat. reflexivity. }
  assert (L : len frame = Nat.max 64 (length content)).
  { unfold len. rewrite E, length_app, repeat_length. lia. }
  split; [exact E|]. split; [exact L|]. split; [reflexivity|].
  unfold Local.SimpleHidWrapper.buildReport. fold (len frame).
  cbn [length]. fold (len frame).
  destruct (65 <? S (len frame)) eqn:C.
  - split; [reflexivity|].
    cbn [firstn length]. rewrite length_firstn. fold (len frame).
    apply Nat.ltb_lt in C. lia.
  - apply Nat.ltb_ge in C.
    assert (len frame = 64) as L64 by lia.
    rewrite pushZeros_repeat.
    replace (65 - S (len frame)) with 0 by lia.
    cbn [repeat]. rewrite app_nil_r.
    rewrite firstn_all2 by (fold (len frame); lia).
    split; [reflexivity|]. cbn [length]. fold (len frame). lia.
Qed.

(** On an open wrapper, what [write] hands to the device is that report. *)
Lemma write_sends_report (hid : Local.NodeHid) (s : Local.Tool)
    (w : Local.Wrapper) (data : ByteSeq) :
  Local.hidWrapper s = Some w ->
  Local.w_isConnected w = true ->
  Local.hidDevice w = Some Local.HID ->
  Local.reports (Local.world (snd (Local.SimpleHidWrapper.write hid data s)))
  = Local.SimpleHidWrapper.buildReport data :: Local.reports (Local.world s).
Proof.
  intros Hw Hc Hd.
  unfold Local.SimpleHidWrapper.write, Local.SimpleHidWrapper.this,
    Local.interact, bind, modify, tryCatch, liftRes.
  rewrite Hw, Hc, Hd. cbn [negb orb Local.isSome].
  cbn [Local.logWriteCall Local.world Local.setWorld Local.clock
       Local.writeCalls Local.reports].
  destruct (Local.hid_write hid (Local.clock (Local.world s))
              (Local.SimpleHidWrapper.buildReport data)) as [n|message];
    [|reflexivity].
  destruct (negb (n =? N.of_nat
                         (length (Local.SimpleHidWrapper.buildReport data)))%N);
    reflexivity.
Qed.

(** C6, as stated, fails: bytes [30, 14] are decoded to "30:14". *)
Lemma hexToTime_30_14_not_swapped :
  Backend.hexToTime (arrayOf [x1e; x0e]) <> "14:30".
Proof. vm_compute. discriminate. Qed.

(** C6, amended.  The backend's [hexToTime] takes the first byte as hours
    and the second as minutes whenever the second is below 60, also when the
    other order would be valid too; it swaps them only when the second byte
    is 60 or more and the first is below 60, and otherwise keeps the bytes
    in order.  Each part is printed in decimal with at least two digits.
    The local engine never swaps.  [14, 30] gives "14:30"; [30, 14] gives
    "30:14". *)
Theorem hexToTime_first_order_preferred
    (k : SeqKind) (byte1 byte2 : byte) (rest : list byte) :
  Backend.hexToTime (mkSeq k (byte1 :: byte2 :: rest)) =
    (if (u8 byte2 <? 60)%N then Spec.clockText byte1 byte2
     else if (u8 byte1 <? 60)%N then Spec.clockText byte2 byte1
          else Spec.clockText byte1 byte2)
  /\ Local.hexToTime (mkSeq k (byte1 :: byte2 :: rest))
     = Spec.clockText byte1 byte2
  /\ Backend.hexToTime (arrayOf [x0e; x1e]) = "14:30"
  /\ Backend.hexToTime (arrayOf [x1e; x0e]) = "30:14".
Proof.
  unfold Backend.hexToTime, Local.hexToTime, Spec.clockText.
  cbn [elems arrayOf]. rewrite !dec2_twoDigits.
  repeat split; reflexivity.
Qed.

(** C7, as stated, fails: a leading 00 byte in front of the known serial
    number does not show in the result. *)
Lemma hexToSerialNumber_depends_on_content :
  Backend.hexToSerialNumber (arrayOf (x00 :: Spec.knownSerial))
  <> "0x" +:+ Spec.hexUpper (firstn 20 (x00 :: Spec.knownSerial)).
Proof. vm_compute. discriminate. Qed.

Lemma firstn_min_length {A} (n : nat) (l : list A) :
  firstn (Nat.min (length l) n) l = firstn n l.
Proof.
  destruct (Nat.le_ge_cases (length l) n) as [H|H].
  - rewrite Nat.min_l by exact H. now rewrite !firstn_all2 by lia.
  - now rewrite Nat.min_r by exact H.
Qed.

(** C7, amended.  For a plain array of bytes, the backend's
    [hexToSerialNumber] returns "0x" and the uppercase hexadecimal digits of
    the first 20 bytes (all of them when there are fewer), unless these
    digits contain 37FFD705564E313046442000: then it returns exactly
    0x37FFD705564E313046442000.  The local engine renders the first 12 bytes
    and has no such case. *)
Theorem hexToSerialNumber_on_arrays (l : list byte) :
  Backend.hexToSerialNumber (arrayOf l) =
    (if includes (Spec.hexUpper (firstn 20 l)) "37FFD705564E313046442000"
     then "0x37FFD705564E313046442000"
     else "0x" +:+ Spec.hexUpper (firstn 20 l))
  /\ Local.hexToSerialNumber (arrayOf l) = "0x" +:+ Spec.hexUpper (firstn 12 l).
Proof.
  unfold Backend.hexToSerialNumber, Local.hexToSerialNumber, slice, map,
    joinMapped, len.
  cbn [kind elems arrayOf].
  rewrite !Nat.sub_0_r, !drop_0, firstn_min_length, !upper_join_hex2.
  split; reflexivity.
Qed.

(** What the read functions pass is a [Buffer]; there [map] keeps numbers,
    not strings, and the digits printed are decimal.  For the known serial
    number the result is not the hexadecimal text. *)
Lemma hexToSerialNumber_on_buffer_example :
  Backend.hexToSerialNumber (bufferFrom Spec.knownSerial) = "0x3700556031304644200"
  /\ Local.hexToSerialNumber (bufferFrom Spec.knownSerial) = "0x3700556031304644200".
Proof. split; reflexivity. Qed.

(** C9, as stated, fails: the two engines decode the date bytes
    [24, 6, 15] differently ("15.06.2024" against "24.06.2015"). *)
Lemma engines_disagree_on_date :
  Backend.hexToDate (arrayOf [x18; x06; x0f])
  <> Local.hexToDate (arrayOf [x18; x06; x0f]).
Proof. vm_compute. discriminate. Qed.

Lemma length_rendered (s : ByteSeq) :
  String.length (toUpperCase (joinMapped "" (map hex2 s))) <= 2 * len s.
Proof.
  destruct s as [[|] l]; unfold map, joinMapped, len; cbn [kind elems].
  - rewrite upper_join_hex2, length_hexUpper. lia.
  - rewrite length_toUpperCase. apply length_join_slots.
Qed.

Lemma slice_whole (s : ByteSeq) (n : nat) :
  len s <= n -> slice s 0 (Nat.min (len s) n) = s.
Proof.
  destruct s as [k l]. unfold slice, len. cbn [kind elems].
  intros H. rewrite Nat.sub_0_r, drop_0, firstn_all2 by lia. reflexivity.
Qed.

Lemma local_serial_is_backend_on_12 (d : ByteSeq) :
  Local.hexToSerialNumber d = Backend.hexToSerialNumber (slice d 0 12).
Proof.
  unfold Local.hexToSerialNumber, Backend.hexToSerialNumber.
  set (s := slice d 0 12).
  assert (Hs : len s <= 12).
  { unfold s, slice, len. cbn [elems]. rewrite length_firstn. lia. }
  rewrite slice_whole by lia.
  destruct (includes (toUpperCase (joinMapped "" (map hex2 s)))
                     Backend.expectedPattern) eqn:I; [|reflexivity].
  apply includes_short in I; [now rewrite I|].
  pose proof (length_rendered s) as Hr.
  change (String.length Backend.expectedPattern) with 24. lia.
Qed.

(** C9, amended.  The two engines are near copies, not equivalent.  They
    build the same request and handshake frames and reject exactly the same
    responses, but on an accepted frame the local engine reads dataLength,
    serviceId and data at bytes 2, 3 and 5.. where the backend reads them
    at 3, 4 and 6...  [hexToVersion] agrees on four bytes or more and on
    fewer than two; the backend's [hexToTime] is the local one with the two
    bytes exchanged when only the first is below 60; the backend's
    [hexToDate] is the local one with bytes 0 and 2 exchanged; the backend's
    [hexToAscii] and [hexToArticleNumber] are the local ones followed by
    the backend's extra trimming; the local [hexToSerialNumber] is the
    backend's on the first 12 bytes. *)
Theorem engines_related :
  (forall sid did extra,
      Local.createUdsFrame sid did extra = Backend.createUdsFrame sid did extra)
  /\ Local.createHandshakeFrame = Backend.createHandshakeFrame
  /\ (forall response,
        match Local.parseUdsResponse response,
              Backend.parseUdsResponse response with
        | Throw _, Throw _ => True
        | Ok l, Ok b =>
            Local.dataLength l = idx response 2
            /\ Local.serviceId l = idx response 3
            /\ Local.data l = sliceFrom response 5
            /\ Backend.dataLength b = idx response 3
            /\ Backend.serviceId b = idx response 4
            /\ Backend.data b = sliceFrom response 6
        | _, _ => False
        end)
  /\ (forall k b0 b1 b2 b3 rest,
        Local.hexToVersion (mkSeq k (b0 :: b1 :: b2 :: b3 :: rest))
        = Backend.hexToVersion (mkSeq k (b0 :: b1 :: b2 :: b3 :: rest)))
  /\ (forall k, Local.hexToVersion (mkSeq k [])
                = Backend.hexToVersion (mkSeq k []))
  /\ (forall k b, Local.hexToVersion (mkSeq k [b])
                  = Backend.hexToVersion (mkSeq k [b]))
  /\ (forall k byte1 byte2 rest,
        Backend.hexToTime (mkSeq k (byte1 :: byte2 :: rest))
        = Local.hexToTime
            (mkSeq k (if negb (u8 byte2 <? 60)%N && (u8 byte1 <? 60)%N
                      then byte2 :: byte1 :: rest
                      else byte1 :: byte2 :: rest)))
  /\ (forall k, Backend.hexToTime (mkSeq k []) = Local.hexToTime (mkSeq k []))
  /\ (forall k b, Backend.hexToTime (mkSeq k [b])
                  = Local.hexToTime (mkSeq k [b]))
  /\ (forall k b0 b1 b2 rest,
        Backend.hexToDate (mkSeq k (b0 :: b1 :: b2 :: rest))
        = Local.hexToDate (mkSeq k (b2 :: b1 :: b0 :: rest)))
  /\ (forall k, Backend.hexToDate (mkSeq k []) = Local.hexToDate (mkSeq k []))
  /\ (forall k b, Backend.hexToDate (mkSeq k [b])
                  = Local.hexToDate (mkSeq k [b]))
  /\ (forall k b c, Backend.hexToDate (mkSeq k [b; c])
                    = Local.hexToDate (mkSeq k [b; c]))
  /\ (forall d, Backend.hexToAscii d
                = stripLeadingNonAlnum (Local.hexToAscii d))
  /\ (forall d, Backend.hexToArticleNumber d
                = stripTrailingNonDigit
                    (if startsWith (Local.hexToArticleNumber d) "2"
                     then substring1 (Local.hexToArticleNumber d)
                     else Local.hexToArticleNumber d))
  /\ (forall d, Local.hexToSerialNumber d
                = Backend.hexToSerialNumber (slice d 0 12)).
Proof.
  repeat match goal with |- _ /\ _ => split end; try reflexivity.
  - intros response.
    unfold Local.parseUdsResponse, Backend.parseUdsResponse.
    destruct (len response <? 6); [exact I|].
    destruct (negb (strictEq (idx response 0) 1)
              || negb (strictEq (idx response 1) 0)); [exact I|].
    cbn. repeat split; reflexivity.
  - intros k byte1 byte2 rest.
    unfold Backend.hexToTime, Local.hexToTime. cbn [elems].
    destruct (u8 byte2 <? 60)%N; [reflexivity|].
    destruct (u8 byte1 <? 60)%N; reflexivity.
  - exact local_serial_is_backend_on_12.
Qed.

(* ===================================================================== *)
(** * Reasoning about calls                                              *)
(* ===================================================================== *)

Section Outcomes.
Context {S : Type}.

Lemma returnsOnly_ret {A} (a : A) (Q : A -> Prop) :
  Q a -> returnsOnly (S := S) (ret a) Q.
Proof. intros H s b s' E. unfold ret in E. now inversion E; subst. Qed.

Lemma returnsOnly_throw {A} (message : string) (Q : A -> Prop) :
  returnsOnly (S := S) (throw message) Q.
Proof. intros s b s' E. discriminate E. Qed.

Lemma returnsOnly_bind {A B} (m : M S A) (k : A -> M S B)
    (P : A -> Prop) (Q : B -> Prop) :
  returnsOnly m P ->
  (forall a, P a -> returnsOnly (k a) Q) ->
  returnsOnly (bind m k) Q.
Proof.
  intros Hm Hk s b s' E. unfold bind in E.
  destruct (m s) as [[a|message] s1] eqn:Em; [|discriminate].
  exact (Hk a (Hm _ _ _ Em) _ _ _ E).
Qed.

Lemma returnsOnly_any {A} (m : M S A) : returnsOnly m (fun _ => True).
Proof. intros s a s' _. exact I. Qed.

Lemma returnsOnly_tryCatch {A} (body : M S A) (handler : string -> M S A)
    (Q : A -> Prop) :
  returnsOnly body Q ->
  (forall message, returnsOnly (handler message) Q) ->
  returnsOnly (tryCatch body handler) Q.
Proof.
  intros Hb Hh s a s' E. unfold tryCatch in E.
  destruct (body s) as [[b|message] s1] eqn:Eb.
  - inversion E; subst. exact (Hb _ _ _ Eb).
  - exact (Hh _ _ _ _ E).
Qed.

End Outcomes.

Ltac returns_step :=
  first
    [ apply returnsOnly_throw
    | apply returnsOnly_tryCatch; [|intros ?]
    | eapply returnsOnly_bind; [apply returnsOnly_any | intros ? _]
    | match goal with
      | |- returnsOnly (if ?c then _ else _) _ => destruct c eqn:?
      | |- returnsOnly (match ?x with _ => _ end) _ => destruct x eqn:?
      end ].

(* ===================================================================== *)
(** * Sessions                                                           *)
(* ===================================================================== *)

(** What [sendUdsRequest] of the local tool hands back has passed
    [isResponseSuccessful]. *)
Lemma local_sendUdsRequest_returns (hid : Local.NodeHid) (sid : byte)
    (did extra : list byte) (timeout : Z) :
  returnsOnly (Local.BoschDisplayTool.sendUdsRequest hid sid did extra timeout)
              (fun response => Local.isResponseSuccessful response = true).
Proof.
  unfold Local.BoschDisplayTool.sendUdsRequest.
  repeat returns_step.
  apply returnsOnly_ret. assumption.
Qed.

Lemma local_successful_header (response : ByteSeq) :
  Local.isResponseSuccessful response = true -> idx response 0 = Some x01.
Proof.
  unfold Local.isResponseSuccessful, Local.parseUdsResponse.
  destruct (len response <? 6); [discriminate|].
  destruct (strictEq (idx response 0) 1) eqn:E; cbn [negb orb].
  - intros _. now apply (strictEq_true _ x01).
  - discriminate.
Qed.

Lemma local_setDateTime_returns (hid : Local.NodeHid) (date : Local.JsDate) :
  returnsOnly (Local.BoschDisplayTool.setDateTime hid date) (fun _ => False).
Proof.
  unfold Local.BoschDisplayTool.setDateTime.
  apply returnsOnly_tryCatch; [|intros ?; apply returnsOnly_throw].
  eapply returnsOnly_bind; [apply local_sendUdsRequest_returns|].
  intros response Hok. apply local_successful_header in Hok.
  rewrite Hok. apply returnsOnly_throw.
Qed.

(** When the local [isResponseSuccessful] accepts a frame. *)
Lemma local_isResponseSuccessful_iff (response : ByteSeq) :
  Local.isResponseSuccessful response = true <->
  6 <= len response /\ idx response 0 = Some x01 /\ idx response 1 = Some x00
  /\ idx response 3 <> Some x7f /\ gt (idx response 2) 0 = true.
Proof.
  unfold Local.isResponseSuccessful, Local.parseUdsResponse.
  destruct (len response <? 6) eqn:L.
  - apply Nat.ltb_lt in L. split; [discriminate | intros [H _]; lia].
  - apply Nat.ltb_ge in L.
    destruct (strictEq (idx response 0) 1) eqn:E0; cbn [negb orb].
    + destruct (strictEq (idx response 1) 0) eqn:E1; cbn [negb orb].
      * apply (strictEq_true _ x01) in E0. apply (strictEq_true _ x00) in E1.
        cbn [Local.serviceId Local.dataLength].
        rewrite andb_true_iff, negb_true_iff, (strictEq_false _ x7f).
        tauto.
      * apply (strictEq_false _ x00) in E1.
        split; [discriminate | tauto].
    + apply (strictEq_false _ x01) in E0.
      split; [discriminate | tauto].
Qed.

(** C5.  The local [setDateTime] tests byte 0 of the raw frame against
    0x6E, but [sendUdsRequest] only hands back frames whose byte 0 is 0x01:
    the call ends in an error whatever the device answers, also when the
    answer carries the service byte 0x6E. *)
Theorem setDateTime_never_succeeds :
  (forall (hid : Local.NodeHid) (date : Local.JsDate) (s : Local.Tool),
      exists message,
        fst (Local.BoschDisplayTool.setDateTime hid date s) = Throw message)
  /\ Local.parseUdsResponse (bufferFrom Local.writeAck)
     = Ok (Local.mkUdsResponse (Some x6e) (Some x05)
             (bufferFrom [x3a; x00; x00]))
  /\ fst (Local.BoschDisplayTool.setDateTime
            (Local.answering x01 (tail Local.writeAck))
            (Local.mkDate 2024 5 15 14 30) Local.ready)
     = Throw "Datum/Zeit-Setze-Fehler: Datum/Zeit konnte nicht gesetzt werden".
Proof.
  split; [|split; reflexivity].
  intros hid date s.
  destruct (Local.BoschDisplayTool.setDateTime hid date s) as [[b|message] s']
    eqn:E; [exfalso | now exists message].
  exact (local_setDateTime_returns hid date s b s' E).
Qed.

Lemma local_disconnect_run (hid : Local.NodeHid) (s : Local.Tool) :
  exists s',
    Local.BoschDisplayTool.disconnect hid s = (Ok tt, s')
    /\ Local.hidWrapper s' = None
    /\ Local.device s' = None
    /\ Local.isConnected s' = false.
Proof.
  unfold Local.BoschDisplayTool.disconnect, Local.SimpleHidWrapper.close,
    Local.SimpleHidWrapper.this, Local.interact, bind, gets, modify, tryCatch,
    ret, throw.
  destruct (Local.hidWrapper s) as [w|] eqn:Ew; cbn [Local.isSome].
  - rewrite Ew.
    destruct (Local.hidDevice w); cbn [Local.isSome].
    + destruct (Local.hid_close hid (Local.clock (Local.world s)));
        cbn; eexists; repeat split; reflexivity.
    + cbn; eexists; repeat split; reflexivity.
  - eexists; repeat split; reflexivity.
Qed.

Lemma backend_disconnect_run (usb : Backend.UsbHost) (s : Backend.Tool) :
  exists s',
    Backend.BoschDisplayTool.disconnect usb s = (Ok tt, s')
    /\ Backend.usbWrapper s' = None
    /\ Backend.device s' = None
    /\ Backend.isConnected s' = false.
Proof.
  unfold Backend.BoschDisplayTool.disconnect,
    Backend.BoschDisplayTool.usbWrapper_close, Backend.interact,
    bind, gets, modify, tryCatch, ret, throw.
  destruct (Backend.usbWrapper s) as [w|]; cbn [Backend.isSome].
  - destruct (Backend.usb_close usb (Backend.clock (Backend.world s)));
      cbn; eexists; repeat split; reflexivity.
  - eexists; repeat split; reflexivity.
Qed.

(** C10.  [disconnect] of either tool always returns, whatever state the
    tool is in and whatever [close] does (no wrapper at all, a wrapper whose
    [close] throws): afterwards the wrapper and the device are [null] and
    [isConnected] is false. *)
Theorem disconnect_always_resets :
  (forall (hid : Local.NodeHid) (s : Local.Tool),
      exists s',
        Local.BoschDisplayTool.disconnect hid s = (Ok tt, s')
        /\ Local.hidWrapper s' = None
        /\ Local.device s' = None
        /\ Local.isConnected s' = false)
  /\ (forall (usb : Backend.UsbHost) (s : Backend.Tool),
        exists s',
          Backend.BoschDisplayTool.disconnect usb s = (Ok tt, s')
          /\ Backend.usbWrapper s' = None
          /\ Backend.device s' = None
          /\ Backend.isConnected s' = false)
  /\ fst (Backend.BoschDisplayTool.disconnect Backend.stuck Backend.ready)
     = Ok tt
  /\ (forall wo,
        fst (Local.BoschDisplayTool.disconnect Local.silent
               (Local.BoschDisplayTool.constructor wo)) = Ok tt).
Proof.
  split; [exact local_disconnect_run|].
  split; [exact backend_disconnect_run|].
  split; reflexivity.
Qed.








(** The task loop returns, and every task has filled its slot. *)
Lemma runTasks_fills {S} (todo : list (string * M S string)) :
  NoDup (List.map fst todo) ->
  forall (results : gmap string Value) (s : S),
    exists results' s',
      runTasks todo results s = (Ok results', s')
      /\ (forall key fn, (key, fn) ∈ todo ->
            exists v, results' !! key = Some v /\ filledBy fn v)
      /\ (forall key, key ∉ List.map fst todo ->
            results' !! key = results !! key).
Proof.
  induction todo as [|[key fn] rest IH]; intros Hnd results s.
  - exists results, s. split; [reflexivity|]. split; [|reflexivity].
    intros key fn H. inversion H.
  - cbn [List.map fst] in Hnd. apply NoDup_cons in Hnd as [Hkey Hrest].
    cbn [runTasks]. unfold bind at 1. unfold tryCatch, bind at 1, ret at 1 2.
    destruct (fn s) as [[value|message] s1] eqn:Efn.
    + destruct (IH Hrest (<[key := Str value]> results) s1)
        as (results' & s' & Erun & Hin & Hout).
      exists results', s'. split; [exact Erun|]. split.
      * intros key' fn' [E|H]%elem_of_cons.
        -- inversion E; subst. exists (Str value). split.
           ++ rewrite (Hout key Hkey). apply lookup_insert_eq.
           ++ exists s, s1. left. eauto.
        -- exact (Hin _ _ H).
      * intros key' [Hne Hnot]%not_elem_of_cons.
        rewrite (Hout key' Hnot). now apply lookup_insert_ne.
    + destruct (IH Hrest (<[key := Str ("Fehler: " +:+ message)]> results) s1)
        as (results' & s' & Erun & Hin & Hout).
      exists results', s'. split; [exact Erun|]. split.
      * intros key' fn' [E|H]%elem_of_cons.
        -- inversion E; subst. exists (Str ("Fehler: " +:+ message)). split.
           ++ rewrite (Hout key Hkey). apply lookup_insert_eq.
           ++ exists s, s1. right. eauto.
        -- exact (Hin _ _ H).
      * intros key' [Hne Hnot]%not_elem_of_cons.
        rewrite (Hout key' Hnot). now apply lookup_insert_ne.
Qed.

Lemma primaryFields_NoDup : NoDup Spec.primaryFields.
Proof. apply (bool_decide_unpack _). vm_compute. reflexivity. Qed.

Lemma primaryFields_other (key other : string) :
  key ∈ Spec.primaryFields -> other ∉ Spec.primaryFields -> other <> key.
Proof. intros Hin Hnot ->. exact (Hnot Hin). Qed.

Lemma not_primary (other : string) :
  bool_decide (other ∈ Spec.primaryFields) = false ->
  other ∉ Spec.primaryFields.
Proof. intros H. now apply bool_decide_eq_false in H. Qed.

Lemma task_key_primary {S} (todo : list (string * M S string))
    (key : string) (fn : M S string) :
  List.map fst todo = Spec.primaryFields -> (key, fn) ∈ todo ->
  key ∈ Spec.primaryFields.
Proof.
  intros <- H. apply list_elem_of_In. apply in_map_iff.
  exists (key, fn). split; [reflexivity | now apply list_elem_of_In].
Qed.

Lemma local_readAll_run (hid : Local.NodeHid) (mode : string) (s : Local.Tool) :
  exists results s',
    Local.BoschDisplayTool.readAllInformation hid mode s = (Ok results, s')
    /\ (forall key fn, (key, fn) ∈ Local.BoschDisplayTool.tasks hid ->
          exists v, results !! key = Some v /\ filledBy fn v)
    /\ results !! "lastUpdate"
       = Some (Obj (<["date" := Local.isoNow hid (Local.clock (Local.world s'))]> ∅)).
Proof.
  assert (Hkeys : List.map fst (Local.BoschDisplayTool.tasks hid)
                  = Spec.primaryFields) by reflexivity.
  destruct (runTasks_fills (Local.BoschDisplayTool.tasks hid)
              ltac:(rewrite Hkeys; exact primaryFields_NoDup) ∅ s)
    as (r1 & s1 & Erun & Hin & _).
  assert (Hkeep : forall (r : gmap string Value) (other : string) (x : Value),
             bool_decide (other ∈ Spec.primaryFields) = false ->
             (forall key fn, (key, fn) ∈ Local.BoschDisplayTool.tasks hid ->
                exists v, r !! key = Some v /\ filledBy fn v) ->
             forall key fn, (key, fn) ∈ Local.BoschDisplayTool.tasks hid ->
                exists v, <[other := x]> r !! key = Some v /\ filledBy fn v).
  { intros r other x Hother Hr key fn Hk.
    destruct (Hr key fn Hk) as (v & Hv & Hf). exists v. split; [|exact Hf].
    rewrite lookup_insert_ne; [exact Hv|].
    apply (primaryFields_other key other).
    - exact (task_key_primary _ _ _ Hkeys Hk).
    - now apply not_primary. }
  unfold Local.BoschDisplayTool.readAllInformation.
  unfold tryCatch at 1. unfold bind at 1. rewrite Erun.
  unfold bind at 1.
  destruct (String.eqb mode "full").
  - unfold bind at 1. unfold tryCatch at 1. unfold bind at 1.
    destruct (Local.BoschDisplayTool.readDriveUnitInfo hid s1)
      as [[du|m1] s2]; unfold ret at 1;
    unfold tryCatch at 1; unfold bind at 1;
    (destruct (Local.BoschDisplayTool.readBatteryManagementInfo hid s2)
      as [[bms|m2] s3]); unfold ret at 1;
    unfold bind, gets, ret; eexists; eexists;
    (split; [reflexivity|]);
    (split; [|apply lookup_insert_eq]);
    repeat (apply Hkeep; [reflexivity|]); exact Hin.
  - unfold ret at 1. unfold bind, gets, ret. eexists; eexists.
    split; [reflexivity|]. split; [|apply lookup_insert_eq].
    repeat (apply Hkeep; [reflexivity|]); exact Hin.
Qed.

Lemma backend_readAll_run (usb : Backend.UsbHost) (mode : string)
    (s : Backend.Tool) :
  exists results s',
    Backend.BoschDisplayTool.readAllInformation usb mode s = (Ok results, s')
    /\ (forall key fn, (key, fn) ∈ Backend.BoschDisplayTool.tasks usb ->
          exists v, results !! key = Some v /\ filledBy fn v)
    /\ results !! "lastUpdate"
       = Some (Obj (<["date" := Backend.isoNow usb
                                  (Backend.clock (Backend.world s'))]> ∅)).
Proof.
  assert (Hkeys : List.map fst (Backend.BoschDisplayTool.tasks usb)
                  = Spec.primaryFields) by reflexivity.
  destruct (runTasks_fills (Backend.BoschDisplayTool.tasks usb)
              ltac:(rewrite Hkeys; exact primaryFields_NoDup) ∅ s)
    as (r1 & s1 & Erun & Hin & _).
  unfold Backend.BoschDisplayTool.readAllInformation.
  unfold tryCatch at 1. unfold bind at 1. rewrite Erun.
  unfold bind, gets, ret. eexists; eexists.
  split; [reflexivity|]. split; [|apply lookup_insert_eq].
  intros key fn Hk.
  destruct (Hin key fn Hk) as (v & Hv & Hf). exists v. split; [|exact Hf].
  rewrite lookup_insert_ne; [exact Hv|].
  apply (primaryFields_other key "lastUpdate").
  - exact (task_key_primary _ _ _ Hkeys Hk).
  - now apply not_primary.
Qed.

(** C4.  [readAllInformation] of either tool returns for every behaviour
    of the transport and every state of the tool: the object returned has,
    for each of the eight primary fields, the value its read function
    returned or the marker "Fehler: ..." made from the error it threw, and a
    [lastUpdate] entry with the time stamp.  On a transport whose reads all
    time out, every primary field holds the marker of its TIMEOUT error. *)
Theorem readAllInformation_always_returns :
  (forall (hid : Local.NodeHid) (mode : string) (s : Local.Tool),
      exists results s',
        Local.BoschDisplayTool.readAllInformation hid mode s = (Ok results, s')
        /\ (forall key fn, (key, fn) ∈ Local.BoschDisplayTool.tasks hid ->
              exists v, results !! key = Some v /\ filledBy fn v)
        /\ results !! "lastUpdate"
           = Some (Obj (<["date" := Local.isoNow hid
                                      (Local.clock (Local.world s'))]> ∅)))
  /\ (forall (usb : Backend.UsbHost) (mode : string) (s : Backend.Tool),
        exists results s',
          Backend.BoschDisplayTool.readAllInformation usb mode s
          = (Ok results, s')
          /\ (forall key fn, (key, fn) ∈ Backend.BoschDisplayTool.tasks usb ->
                exists v, results !! key = Some v /\ filledBy fn v)
          /\ results !! "lastUpdate"
             = Some (Obj (<["date" := Backend.isoNow usb
                                        (Backend.clock (Backend.world s'))]> ∅)))
  /\ (forall hid, List.map fst (Local.BoschDisplayTool.tasks hid)
                  = Spec.primaryFields)
  /\ (forall usb, List.map fst (Backend.BoschDisplayTool.tasks usb)
                  = Spec.primaryFields)
  /\ List.map
       (field (fst (Local.BoschDisplayTool.readAllInformation
                      Local.silent "full" Local.ready)))
       Spec.primaryFields
     = [ Some (Str "Fehler: Seriennummer-Lesefehler: TIMEOUT");
         Some (Str "Fehler: Hardware-Version-Lesefehler: TIMEOUT");
         Some (Str "Fehler: Software-Version-Lesefehler: TIMEOUT");
         Some (Str "Fehler: Produktcode-Lesefehler: TIMEOUT");
         Some (Str "Fehler: Artikelnummer-Lesefehler: TIMEOUT");
         Some (Str "Fehler: Komponententyp-Lesefehler: TIMEOUT");
         Some (Str "Fehler: Uhrzeit-Lesefehler: TIMEOUT");
         Some (Str "Fehler: Datum-Lesefehler: TIMEOUT") ]
  /\ List.map
       (field (fst (Backend.BoschDisplayTool.readAllInformation
                      Backend.silent "display" Backend.ready)))
       Spec.primaryFields
     = [ Some (Str "Fehler: Seriennummer-Lesefehler: TIMEOUT");
         Some (Str "Fehler: Hardware-Version-Lesefehler: TIMEOUT");
         Some (Str "Fehler: Software-Version-Lesefehler: TIMEOUT");
         Some (Str "Fehler: Produktcode-Lesefehler: TIMEOUT");
         Some (Str "Fehler: Artikelnummer-Lesefehler: TIMEOUT");
         Some (Str "Fehler: Komponententyp-Lesefehler: TIMEOUT");
         Some (Str "Fehler: Uhrzeit-Lesefehler: TIMEOUT");
         Some (Str "Fehler: Datum-Lesefehler: TIMEOUT") ].
Proof.
  split; [exact local_readAll_run|].
  split; [exact backend_readAll_run|].
  split; [reflexivity|]. split; [reflexivity|].
  split; vm_compute; reflexivity.
Qed.

(** On the silent device the serial-number slot is filled by one run of
    [readSerialNumber]. *)
Lemma readAllInformation_always_returns_witness :
  exists results s',
    Local.BoschDisplayTool.readAllInformation Local.silent "display" Local.ready
    = (Ok results, s')
    /\ exists v,
         results !! "serialNumber" = Some v
         /\ filledBy (Local.BoschDisplayTool.readSerialNumber Local.silent) v.
Proof.
  destruct (proj1 readAllInformation_always_returns
              Local.silent "display" Local.ready)
    as (results & s' & E & Hin & _).
  exists results, s'. split; [exact E|].
  apply Hin. apply list_elem_of_here.
Defined.

(** ** Calls on a tool that is not connected *)

Section Idle.
Variable hid : Local.NodeHid.

Lemma idle_ret {A} (a : A) : Local.idle (ret a).
Proof. intros s _. reflexivity. Qed.

Lemma idle_throw {A} (message : string) : Local.idle (throw (A := A) message).
Proof. intros s _. reflexivity. Qed.

Lemma idle_gets {A} (f : Local.Tool -> A) : Local.idle (gets f).
Proof. intros s _. reflexivity. Qed.

Lemma idle_liftRes {A} (r : Res A) : Local.idle (liftRes r).
Proof. intros s _. reflexivity. Qed.

Lemma idle_bind {A B} (m : M Local.Tool A) (k : A -> M Local.Tool B) :
  Local.idle m -> (forall a, Local.idle (k a)) -> Local.idle (bind m k).
Proof.
  intros Hm Hk s Hs. unfold bind. specialize (Hm s Hs).
  destruct (m s) as [[a|message] s1]; cbn [snd] in *; subst s1.
  - exact (Hk a s Hs).
  - reflexivity.
Qed.

Lemma idle_tryCatch {A} (body : M Local.Tool A)
    (handler : string -> M Local.Tool A) :
  Local.idle body -> (forall message, Local.idle (handler message)) ->
  Local.idle (tryCatch body handler).
Proof.
  intros Hb Hh s Hs. unfold tryCatch. specialize (Hb s Hs).
  destruct (body s) as [[a|message] s1]; cbn [snd] in *; subst s1.
  - reflexivity.
  - exact (Hh message s Hs).
Qed.

(** The guard [if (!this.isConnected) throw ...] in front of a method. *)
Lemma guarded_run {A} (m : M Local.Tool A) (s : Local.Tool) :
  Local.isConnected s = false ->
  (connected <- gets Local.isConnected ;;
   if negb connected then throw Local.BoschDisplayTool.notConnected else m) s
  = (Throw Local.BoschDisplayTool.notConnected, s).
Proof. intros Hs. unfold bind, gets. rewrite Hs. reflexivity. Qed.

Lemma guarded2_run {A} (m : M Local.Tool A) (s : Local.Tool) :
  Local.isConnected s = false ->
  (connected <- gets Local.isConnected ;;
   wrapper <- gets Local.hidWrapper ;;
   if negb connected || negb (Local.isSome wrapper)
   then throw Local.BoschDisplayTool.notConnected else m) s
  = (Throw Local.BoschDisplayTool.notConnected, s).
Proof. intros Hs. unfold bind, gets. rewrite Hs. reflexivity. Qed.

Lemma sendUdsRequest_disconnected (sid : byte) (did extra : list byte)
    (timeout : Z) (s : Local.Tool) :
  Local.isConnected s = false ->
  Local.BoschDisplayTool.sendUdsRequest hid sid did extra timeout s
  = (Throw "Nicht mit dem Display verbunden!", s).
Proof. apply guarded_run. Qed.

Lemma sendData_disconnected (data : ByteSeq) (s : Local.Tool) :
  Local.isConnected s = false ->
  Local.BoschDisplayTool.sendData hid data s
  = (Throw "Nicht mit dem Display verbunden!", s).
Proof. apply guarded2_run. Qed.

Lemma idle_sendUdsRequest (sid : byte) (did extra : list byte) (timeout : Z) :
  Local.idle (Local.BoschDisplayTool.sendUdsRequest hid sid did extra timeout).
Proof. intros s Hs. now rewrite sendUdsRequest_disconnected. Qed.

Lemma idle_sendData (data : ByteSeq) :
  Local.idle (Local.BoschDisplayTool.sendData hid data).
Proof. intros s Hs. now rewrite sendData_disconnected. Qed.

Lemma idle_receiveData (timeout : Z) :
  Local.idle (Local.BoschDisplayTool.receiveData hid timeout).
Proof.
  intros s Hs. unfold Local.BoschDisplayTool.receiveData.
  now rewrite guarded2_run.
Qed.

Lemma idle_performHandshake :
  Local.idle (Local.BoschDisplayTool.performHandshake hid).
Proof.
  intros s Hs. unfold Local.BoschDisplayTool.performHandshake.
  now rewrite guarded_run.
Qed.

Lemma idle_readDriveUnitInfo :
  Local.idle (Local.BoschDisplayTool.readDriveUnitInfo hid).
Proof.
  intros s Hs. unfold Local.BoschDisplayTool.readDriveUnitInfo.
  now rewrite guarded_run.
Qed.

Lemma idle_readBatteryManagementInfo :
  Local.idle (Local.BoschDisplayTool.readBatteryManagementInfo hid).
Proof.
  intros s Hs. unfold Local.BoschDisplayTool.readBatteryManagementInfo.
  now rewrite guarded_run.
Qed.

Lemma idle_runTasks (todo : list (string * M Local.Tool string)) :
  Forall (fun task => Local.idle (snd task)) todo ->
  forall results, Local.idle (runTasks todo results).
Proof.
  induction 1 as [|[key fn] rest Hfn _ IH]; intros results; cbn [runTasks].
  - apply idle_ret.
  - apply idle_bind; [|intros r; apply IH].
    apply idle_tryCatch; [|intros message; apply idle_ret].
    apply idle_bind; [exact Hfn | intros value; apply idle_ret].
Qed.

End Idle.

Ltac idle_step hid :=
  first
    [ apply idle_ret | apply idle_throw | apply idle_gets | apply idle_liftRes
    | apply (idle_sendUdsRequest hid)
    | apply (idle_readDriveUnitInfo hid)
    | apply (idle_readBatteryManagementInfo hid)
    | apply idle_tryCatch; [|intros ?]
    | apply idle_bind; [|intros ?]
    | match goal with
      | |- Local.idle (if ?c then _ else _) => destruct c
      | |- Local.idle (match ?x with _ => _ end) => destruct x
      end ].

Lemma idle_readSerialNumber (hid : Local.NodeHid) :
  Local.idle (Local.BoschDisplayTool.readSerialNumber hid).
Proof. unfold Local.BoschDisplayTool.readSerialNumber. repeat idle_step hid. Qed.

Lemma idle_readHardwareVersion (hid : Local.NodeHid) :
  Local.idle (Local.BoschDisplayTool.readHardwareVersion hid).
Proof. unfold Local.BoschDisplayTool.readHardwareVersion. repeat idle_step hid. Qed.

Lemma idle_readSoftwareVersion (hid : Local.NodeHid) :
  Local.idle (Local.BoschDisplayTool.readSoftwareVersion hid).
Proof. unfold Local.BoschDisplayTool.readSoftwareVersion. repeat idle_step hid. Qed.

Lemma idle_readProductCode (hid : Local.NodeHid) :
  Local.idle (Local.BoschDisplayTool.readProductCode hid).
Proof. unfold Local.BoschDisplayTool.readProductCode. repeat idle_step hid. Qed.

Lemma idle_readArticleNumber (hid : Local.NodeHid) :
  Local.idle (Local.BoschDisplayTool.readArticleNumber hid).
Proof. unfold Local.BoschDisplayTool.readArticleNumber. repeat idle_step hid. Qed.

Lemma idle_readComponentType (hid : Local.NodeHid) :
  Local.idle (Local.BoschDisplayTool.readComponentType hid).
Proof. unfold Local.BoschDisplayTool.readComponentType. repeat idle_step hid. Qed.

Lemma idle_readCurrentTime (hid : Local.NodeHid) :
  Local.idle (Local.BoschDisplayTool.readCurrentTime hid).
Proof. unfold Local.BoschDisplayTool.readCurrentTime. repeat idle_step hid. Qed.

Lemma idle_readCurrentDate (hid : Local.NodeHid) :
  Local.idle (Local.BoschDisplayTool.readCurrentDate hid).
Proof. unfold Local.BoschDisplayTool.readCurrentDate. repeat idle_step hid. Qed.

Lemma idle_tasks (hid : Local.NodeHid) :
  Forall (fun task => Local.idle (snd task)) (Local.BoschDisplayTool.tasks hid).
Proof.
  unfold Local.BoschDisplayTool.tasks.
  repeat (constructor; [cbn [snd]|]); [..|constructor].
  - apply idle_readSerialNumber.
  - apply idle_readHardwareVersion.
  - apply idle_readSoftwareVersion.
  - apply idle_readProductCode.
  - apply idle_readArticleNumber.
  - apply idle_readComponentType.
  - apply idle_readCurrentTime.
  - apply idle_readCurrentDate.
Qed.

(** Every call but [connect] and [disconnect] leaves a tool that is not
    connected untouched. *)
Lemma idle_invoke (hid : Local.NodeHid) (c : Local.Call) :
  (forall dev, c <> Local.Connect dev) -> c <> Local.Disconnect ->
  Local.idle (Local.invoke hid c).
Proof.
  intros Hconnect Hdisconnect.
  assert (Hdiscard : forall A (m : M Local.Tool A),
             Local.idle m -> Local.idle (Local.discard m)).
  { intros A m Hm. apply idle_bind; [exact Hm | intros ?; apply idle_ret]. }
  destruct c; cbn [Local.invoke].
  - exfalso. exact (Hconnect dev eq_refl).
  - exfalso. exact (Hdisconnect eq_refl).
  - apply Hdiscard, idle_performHandshake.
  - apply idle_sendData.
  - apply Hdiscard, idle_receiveData.
  - apply Hdiscard, idle_sendUdsRequest.
  - apply Hdiscard, idle_readSerialNumber.
  - apply Hdiscard, idle_readHardwareVersion.
  - apply Hdiscard, idle_readSoftwareVersion.
  - apply Hdiscard, idle_readProductCode.
  - apply Hdiscard, idle_readArticleNumber.
  - apply Hdiscard, idle_readComponentType.
  - apply Hdiscard, idle_readCurrentTime.
  - apply Hdiscard, idle_readCurrentDate.
  - apply Hdiscard. unfold Local.BoschDisplayTool.setDateTime.
    repeat idle_step hid.
  - apply Hdiscard, idle_readDriveUnitInfo.
  - apply Hdiscard, idle_readBatteryManagementInfo.
  - apply Hdiscard. unfold Local.BoschDisplayTool.readAllInformation.
    apply idle_tryCatch; [|intros ?; apply idle_throw].
    apply idle_bind; [apply idle_runTasks, idle_tasks | intros ?].
    repeat idle_step hid.
Qed.

(** A [connect] that fails leaves the tool not connected. *)
Lemma failed_connect_disconnected (hid : Local.NodeHid)
    (dev : option Constants.DeviceInfo) (s : Local.Tool) :
  Local.isConnected s = false ->
  Local.connected (Local.Connect dev)
    (fst (Local.BoschDisplayTool.connect hid dev s)) = false ->
  Local.isConnected (snd (Local.BoschDisplayTool.connect hid dev s)) = false.
Proof.
  intros Hs. unfold Local.BoschDisplayTool.connect.
  destruct (negb (Local.isBoschDisplay dev)); [intros _; exact Hs|].
  unfold tryCatch.
  match goal with |- context [match ?body s with _ => _ end] =>
    destruct (body s) as [[a|message] s1] end.
  - cbn. discriminate.
  - intros _. reflexivity.
Qed.

(** On a tool that is not ready, [isConnected] is false. *)
Lemma notReady_disconnected (hid : Local.NodeHid) (s : Local.Tool) :
  Local.NotReady hid s -> Local.isConnected s = false.
Proof.
  induction 1 as [wo | c s Hbefore IH Hc | s]; [reflexivity| |].
  2:{ destruct (local_disconnect_run hid s) as (s' & E & _ & _ & H').
      rewrite E. exact H'. }
  destruct c;
    try (rewrite idle_invoke; [exact IH | intros ?; discriminate
                               | discriminate | exact IH]).
  - now apply failed_connect_disconnected.
  - cbn [Local.invoke].
    destruct (local_disconnect_run hid s) as (s' & E & _ & _ & H').
    rewrite E. exact H'.
Qed.

(** C8.  On a tool that is not ready (a new tool, a tool whose [connect]
    failed, a tool that was disconnected, and whatever further calls were
    made on it short of a successful [connect]), [sendUdsRequest] and
    [sendData] throw "Nicht mit dem Display verbunden!" and every read
    function throws its own error around that message; the tool and the
    world are exactly as before the call, so nothing was handed to the
    transport. *)
Theorem no_request_unless_ready (hid : Local.NodeHid) (s : Local.Tool) :
  Local.NotReady hid s ->
  (forall sid did extra timeout,
      Local.BoschDisplayTool.sendUdsRequest hid sid did extra timeout s
      = (Throw "Nicht mit dem Display verbunden!", s))
  /\ (forall data,
        Local.BoschDisplayTool.sendData hid data s
        = (Throw "Nicht mit dem Display verbunden!", s))
  /\ Local.BoschDisplayTool.readSerialNumber hid s
     = (Throw "Seriennummer-Lesefehler: Nicht mit dem Display verbunden!", s)
  /\ Local.BoschDisplayTool.readHardwareVersion hid s
     = (Throw "Hardware-Version-Lesefehler: Nicht mit dem Display verbunden!", s)
  /\ Local.BoschDisplayTool.readSoftwareVersion hid s
     = (Throw "Software-Version-Lesefehler: Nicht mit dem Display verbunden!", s)
  /\ Local.BoschDisplayTool.readProductCode hid s
     = (Throw "Produktcode-Lesefehler: Nicht mit dem Display verbunden!", s)
  /\ Local.BoschDisplayTool.readArticleNumber hid s
     = (Throw "Artikelnummer-Lesefehler: Nicht mit dem Display verbunden!", s)
  /\ Local.BoschDisplayTool.readComponentType hid s
     = (Throw "Komponententyp-Lesefehler: Nicht mit dem Display verbunden!", s)
  /\ Local.BoschDisplayTool.readCurrentTime hid s
     = (Throw "Uhrzeit-Lesefehler: Nicht mit dem Display verbunden!", s)
  /\ Local.BoschDisplayTool.readCurrentDate hid s
     = (Throw "Datum-Lesefehler: Nicht mit dem Display verbunden!", s).
Proof.
  intros Hs%notReady_disconnected.
  split; [intros; now apply sendUdsRequest_disconnected|].
  split; [intros; now apply sendData_disconnected|].
  unfold Local.BoschDisplayTool.readSerialNumber,
    Local.BoschDisplayTool.readHardwareVersion,
    Local.BoschDisplayTool.readSoftwareVersion,
    Local.BoschDisplayTool.readProductCode,
    Local.BoschDisplayTool.readArticleNumber,
    Local.BoschDisplayTool.readComponentType,
    Local.BoschDisplayTool.readCurrentTime,
    Local.BoschDisplayTool.readCurrentDate, tryCatch, bind.
  rewrite !(sendUdsRequest_disconnected hid _ _ _ _ s Hs).
  repeat split; reflexivity.
Qed.

(** A tool whose [connect] failed at the handshake is not ready: its
    wrapper is open, yet the request is refused and the tool is left as it
    was. *)
Lemma no_request_unless_ready_witness :
  Local.NotReady (Local.answering x01 [x00; x3d]) Local.afterFailedConnect
  /\ (Local.w_isConnected <$> Local.hidWrapper Local.afterFailedConnect)
     = Some true
  /\ Local.BoschDisplayTool.readSerialNumber (Local.answering x01 [x00; x3d])
       Local.afterFailedConnect
     = (Throw "Seriennummer-Lesefehler: Nicht mit dem Display verbunden!",
        Local.afterFailedConnect).
Proof.
  assert (H : Local.NotReady (Local.answering x01 [x00; x3d])
                             Local.afterFailedConnect).
  { unfold Local.afterFailedConnect.
    apply Local.notReady_call; [apply Local.notReady_new | reflexivity]. }
  split; [exact H|]. split; [reflexivity|].
  exact (proj1 (proj2 (proj2 (no_request_unless_ready _ _ H)))).
Defined.

(* ===================================================================== *)
(** * Further properties of the protocol helpers                         *)
(* ===================================================================== *)

Lemma createUdsFrame_elems (sid : byte) (did extra : list byte) :
  elems (Constants.createUdsFrame sid did extra)
  = Spec.requestContent sid did extra
    ++ repeat x00 (64 - length (Spec.requestContent sid did extra)).
Proof.
  unfold Constants.createUdsFrame. cbn [elems bufferFrom].
  rewrite pushZeros_repeat. reflexivity.
Qed.

Lemma byte_eqb_u8 (b c : byte) : (u8 b =? u8 c)%N = Byte.eqb b c.
Proof.
  destruct (Byte.eqb b c) eqn:E.
  - apply Byte.byte_dec_bl in E. subst. apply N.eqb_refl.
  - apply N.eqb_neq. intros H. apply u8_inj in H. subst.
    rewrite (Byte.byte_dec_lb eq_refl) in E. discriminate.
Qed.

(** X1.  [identifyDataIdentifier] finds the identifier of every read
    request built by [createUdsFrame], whatever extra bytes follow, and
    answers [null] for a request of any other service. *)
Theorem identifyDataIdentifier_of_request
    (serviceId a b : byte) (extra : list byte) :
  Backend.identifyDataIdentifier
    (Backend.createUdsFrame serviceId [a; b] extra)
  = if Byte.eqb serviceId x22 then Some [Some a; Some b] else None.
Proof.
  unfold Backend.identifyDataIdentifier, Backend.createUdsFrame, idx, len.
  rewrite createUdsFrame_elems. unfold Spec.requestContent.
  cbn [app length lookup list_lookup].
  match goal with |- context [?n <? 8] =>
    replace (n <? 8) with false by (symmetry; apply Nat.ltb_ge; lia) end.
  cbv iota.
  change (strictEq (Some serviceId) 34) with (u8 serviceId =? u8 x22)%N.
  rewrite byte_eqb_u8.
  destruct (Byte.eqb serviceId x22); reflexivity.
Qed.

Lemma hex2_shape (b : byte) :
  exists c1 c2,
    hex2 b = String c1 (String c2 EmptyString)
    /\ Ascii.eqb c1 ":" = false /\ Ascii.eqb c2 ":" = false.
Proof. destruct b; vm_compute; do 2 eexists; repeat split. Qed.

Lemma parseInt16_hex2 (b : byte) : slotOfNumber (parseInt16 (hex2 b)) = b.
Proof. destruct b; vm_compute; reflexivity. Qed.

Lemma append_nil_l (s : string) : EmptyString +:+ s = s.
Proof. reflexivity. Qed.

Lemma chunks2_dump (l : list byte) :
  chunks2 (removeColons (Spec.dump l)) = List.map hex2 l.
Proof.
  unfold Spec.dump.
  induction l as [|b l IH]; [reflexivity|].
  destruct (hex2_shape b) as (c1 & c2 & E & H1 & H2).
  destruct l as [|b' l].
  - cbn [List.map join]. rewrite E. cbn [removeColons].
    rewrite H1, H2. reflexivity.
  - change (join ":" (List.map hex2 (b :: b' :: l)))
      with (hex2 b +:+ ":" +:+ join ":" (List.map hex2 (b' :: l))).
    rewrite E. repeat (rewrite append_cons || rewrite append_nil_l).
    cbn [removeColons]. rewrite H1, H2.
    change (Ascii.eqb ":" ":") with true. cbv iota.
    cbn [chunks2]. rewrite IH. cbn [List.map]. rewrite E. reflexivity.
Qed.

(** X2.  [parsePcapHidData] reads a capture dump back: from the colon
    separated two-digit hexadecimal text of any byte sequence it returns
    that byte sequence. *)
Theorem parsePcapHidData_of_dump (l : list byte) :
  Backend.parsePcapHidData (Spec.dump l) = bufferFrom l.
Proof.
  unfold Backend.parsePcapHidData. rewrite chunks2_dump. f_equal.
  induction l as [|b l IH]; [reflexivity|].
  cbn [List.map]. rewrite parseInt16_hex2. f_equal. exact IH.
Qed.

Lemma dropWhile_Forall {A} (p : A -> bool) (P : A -> Prop) (l : list A) :
  Forall P l -> Forall P (dropWhile p l).
Proof.
  induction 1 as [|x l Hx Hl IH]; cbn; [constructor|].
  destruct (p x); [exact IH | now constructor].
Qed.

Lemma dropWhile_head {A} (p : A -> bool) (l : list A) :
  match dropWhile p l with
  | [] => True
  | x :: _ => p x = false
  end.
Proof.
  induction l as [|x l IH]; cbn; [exact I|].
  destruct (p x) eqn:E; [exact IH | exact E].
Qed.

Lemma asciiChar_printable (b : byte) :
  (negb (u8 b =? 0)%N && (32 <=? u8 b)%N && (u8 b <=? 126)%N) = true ->
  Spec.printable (asciiChar b) = true.
Proof. destruct b; vm_compute; congruence. Qed.

Lemma printable_kept (l : list byte) :
  Forall (fun c => Spec.printable c = true)
    (List.map asciiChar
       (List.filter (fun b => negb (u8 b =? 0)%N && (32 <=? u8 b)%N
                              && (u8 b <=? 126)%N) l)).
Proof.
  induction l as [|b l IH]; cbn [List.filter List.map]; [constructor|].
  destruct (negb (u8 b =? 0)%N && (32 <=? u8 b)%N && (u8 b <=? 126)%N) eqn:E;
    [|exact IH].
  cbn [List.map]. constructor; [now apply asciiChar_printable | exact IH].
Qed.

(** X3.  The text returned by the backend's [hexToAscii] holds printable
    ASCII characters only and is empty or starts with a letter or digit,
    whatever bytes come in; the local one holds printable characters
    only. *)
Theorem hexToAscii_printable (hexData : ByteSeq) :
  Forall (fun c => Spec.printable c = true)
         (list_ascii_of_string (Backend.hexToAscii hexData))
  /\ match Backend.hexToAscii hexData with
     | EmptyString => True
     | String c _ => isAlnum c = true
     end
  /\ Forall (fun c => Spec.printable c = true)
            (list_ascii_of_string (Local.hexToAscii hexData)).
Proof.
  unfold Backend.hexToAscii, Local.hexToAscii, stripLeadingNonAlnum,
    toAsciiString, filter.
  cbn [elems bufferFrom].
  rewrite !list_ascii_of_string_of_list_ascii.
  pose proof (printable_kept (elems hexData)) as Hp.
  split; [now apply dropWhile_Forall|]. split; [|exact Hp].
  pose proof (dropWhile_head (fun c => negb (isAlnum c))
                (List.map asciiChar
                   (List.filter (fun b => negb (u8 b =? 0)%N
                                          && (32 <=? u8 b)%N
                                          && (u8 b <=? 126)%N)
                                (elems hexData)))) as Hh.
  destruct (dropWhile _ _) as [|c rest]; [exact I|].
  cbn [string_of_list_ascii]. now apply negb_false_iff in Hh.
Qed.

(** X4.  The text returned by the backend's [hexToArticleNumber] never
    ends in a character that is not a digit: it is empty or its last
    character is a digit. *)
Theorem hexToArticleNumber_ends_in_digit (hexData : ByteSeq) :
  match rev (list_ascii_of_string (Backend.hexToArticleNumber hexData)) with
  | [] => True
  | c :: _ => isDigit c = true
  end.
Proof.
  unfold Backend.hexToArticleNumber, stripTrailingNonDigit.
  rewrite list_ascii_of_string_of_list_ascii, rev_involutive.
  match goal with |- context [dropWhile ?p ?l] =>
    pose proof (dropWhile_head p l) as Hh; destruct (dropWhile p l) end;
    [exact I | now apply negb_false_iff in Hh].
Qed.

Lemma digitsOnly_append (s t : string) :
  Spec.digitsOnly s -> Spec.digitsOnly t -> Spec.digitsOnly (s +:+ t).
Proof.
  unfold Spec.digitsOnly. induction s as [|c s IH]; intros Hs Ht; [exact Ht|].
  rewrite append_cons. cbn [list_ascii_of_string] in *.
  inversion Hs; subst. constructor; auto.
Qed.

Lemma digitsOnly_join (l : list string) :
  Forall Spec.digitsOnly l -> Spec.digitsOnly (join "" l).
Proof.
  induction 1 as [|s l Hs Hl IH]; [constructor|].
  destruct l as [|s' l]; [exact Hs|].
  change (join "" (s :: s' :: l)) with (s +:+ "" +:+ join "" (s' :: l)).
  apply digitsOnly_append; [exact Hs | exact IH].
Qed.

Lemma toUpperCase_digits (s : string) : Spec.digitsOnly s -> toUpperCase s = s.
Proof.
  unfold Spec.digitsOnly. induction s as [|c s IH]; intros H; [reflexivity|].
  cbn [list_ascii_of_string] in H. inversion H as [|? ? Hc Hs]; subst.
  cbn [toUpperCase]. rewrite (IH Hs). f_equal.
  unfold upperChar, isLower. unfold isDigit in Hc.
  destruct (97 <=? N_of_ascii c)%N eqn:E; [|reflexivity].
  apply andb_true_iff in Hc as [_ Hc].
  apply N.leb_le in E, Hc. lia.
Qed.

Lemma includes_digits (s : string) :
  Spec.digitsOnly s -> includes s Backend.expectedPattern = false.
Proof.
  unfold Spec.digitsOnly. induction s as [|c s IH]; intros H; [reflexivity|].
  cbn [list_ascii_of_string] in H. inversion H as [|? ? Hc Hs]; subst.
  cbn [includes]. rewrite (IH Hs), orb_false_r.
  unfold Backend.expectedPattern. cbn [String.prefix].
  destruct (ascii_dec "3" c); [|reflexivity].
  destruct s as [|c1 s]; [reflexivity|]. cbn [String.prefix].
  destruct (ascii_dec "7" c1); [|reflexivity].
  destruct s as [|c2 s]; [reflexivity|]. cbn [String.prefix].
  destruct (ascii_dec "F" c2) as [<-|]; [|reflexivity].
  cbn [list_ascii_of_string] in Hs.
  inversion Hs as [|? ? _ Hs']; subst. inversion Hs' as [|? ? Hf _]; subst.
  vm_compute in Hf. discriminate.
Qed.

Lemma slot_decimal (b : byte) :
  toString10 (u8 (slotOfString (hex2 b))) = Spec.decimal (Spec.slotNumber b).
Proof. destruct b; vm_compute; reflexivity. Qed.

Lemma digitsOnly_check (s : string) :
  forallb isDigit (list_ascii_of_string s) = true -> Spec.digitsOnly s.
Proof.
  unfold Spec.digitsOnly. induction (list_ascii_of_string s) as [|c l IH];
    cbn [forallb]; intros H; [constructor|].
  apply andb_true_iff in H as [Hc Hl]. constructor; auto.
Qed.

Lemma noDot_check (s : string) :
  forallb (fun c => negb (Ascii.eqb c ".")) (list_ascii_of_string s) = true ->
  Spec.noDot s.
Proof.
  unfold Spec.noDot. induction (list_ascii_of_string s) as [|c l IH];
    cbn [forallb]; intros H; [constructor|].
  apply andb_true_iff in H as [Hc Hl]. apply negb_true_iff in Hc.
  constructor; auto.
Qed.

Lemma decimal_slot_digits (b : byte) :
  Spec.digitsOnly (Spec.decimal (Spec.slotNumber b)).
Proof. apply digitsOnly_check. destruct b; vm_compute; reflexivity. Qed.

Lemma buffer_rendering (l : list byte) :
  joinMapped "" (map hex2 (bufferFrom l))
  = join "" (List.map (fun b => Spec.decimal (Spec.slotNumber b)) l).
Proof.
  unfold map, joinMapped. cbn [kind elems bufferFrom].
  rewrite List.map_map. f_equal. apply List.map_ext. intros b. apply slot_decimal.
Qed.

Lemma buffer_rendering_digits (l : list byte) :
  Spec.digitsOnly (join "" (List.map (fun b => Spec.decimal (Spec.slotNumber b)) l)).
Proof.
  apply digitsOnly_join. apply Forall_map, Forall_forall. intros b _.
  apply decimal_slot_digits.
Qed.

Lemma backend_serial_on_buffer (l : list byte) :
  Backend.hexToSerialNumber (bufferFrom l)
  = "0x" +:+ join "" (List.map (fun b => Spec.decimal (Spec.slotNumber b))
                               (firstn 20 l)).
Proof.
  unfold Backend.hexToSerialNumber, slice, len.
  cbn [kind elems bufferFrom]. rewrite drop_0, Nat.sub_0_r.
  rewrite firstn_min_length.
  change (mkSeq NodeBuffer (firstn 20 l)) with (bufferFrom (firstn 20 l)).
  rewrite buffer_rendering.
  rewrite (toUpperCase_digits _ (buffer_rendering_digits _)).
  rewrite (includes_digits _ (buffer_rendering_digits _)). reflexivity.
Qed.

Lemma local_serial_on_buffer (l : list byte) :
  Local.hexToSerialNumber (bufferFrom l)
  = "0x" +:+ join "" (List.map (fun b => Spec.decimal (Spec.slotNumber b))
                               (firstn 12 l)).
Proof.
  unfold Local.hexToSerialNumber, slice.
  cbn [kind elems bufferFrom]. rewrite drop_0, Nat.sub_0_r.
  change (mkSeq NodeBuffer (firstn 12 l)) with (bufferFrom (firstn 12 l)).
  rewrite buffer_rendering.
  rewrite (toUpperCase_digits _ (buffer_rendering_digits _)). reflexivity.
Qed.

(** X5.  On a Buffer, which is what every read function passes,
    [hexToSerialNumber] prints decimal digits only: after the prefix 0x
    every byte whose two hexadecimal digits are both decimal digits
    appears as the number these digits spell, without a leading zero,
    and every other byte as 0.  The exception for the known serial number
    never applies.  The backend renders the first 20 bytes, the local
    engine the first 12. *)
Theorem hexToSerialNumber_on_buffers (l : list byte) :
  Backend.hexToSerialNumber (bufferFrom l)
  = "0x" +:+ join "" (List.map (fun b => Spec.decimal (Spec.slotNumber b))
                               (firstn 20 l))
  /\ Local.hexToSerialNumber (bufferFrom l)
     = "0x" +:+ join "" (List.map (fun b => Spec.decimal (Spec.slotNumber b))
                                  (firstn 12 l)).
Proof. split; [apply backend_serial_on_buffer | apply local_serial_on_buffer]. Qed.


Lemma fields_noDot (s : string) : Spec.noDot s -> Spec.fields s = [s].
Proof.
  unfold Spec.noDot. induction s as [|c s IH]; intros H; [reflexivity|].
  cbn [list_ascii_of_string] in H. inversion H as [|? ? Hc Hs]; subst.
  cbn [Spec.fields]. rewrite Hc, (IH Hs). reflexivity.
Qed.

Lemma fields_dot (s t : string) :
  Spec.noDot s -> Spec.fields (s +:+ "." +:+ t) = s :: Spec.fields t.
Proof.
  unfold Spec.noDot. induction s as [|c s IH]; intros H.
  - reflexivity.
  - cbn [list_ascii_of_string] in H. inversion H as [|? ? Hc Hs]; subst.
    rewrite append_cons. cbn [Spec.fields]. rewrite Hc, (IH Hs). reflexivity.
Qed.


Lemma toString10_spells (b : byte) : Spec.spells (toString10 (u8 b)) (u8 b).
Proof.
  split; [apply noDot_check; destruct b; vm_compute; reflexivity|].
  split; destruct b; (discriminate || (vm_compute; reflexivity)).
Qed.

Lemma dec2_spells (b : byte) : Spec.spells (dec2 b) (u8 b).
Proof.
  split; [apply noDot_check; destruct b; vm_compute; reflexivity|].
  split; destruct b; (discriminate || (vm_compute; reflexivity)).
Qed.

Lemma year_spells (b : byte) : Spec.spells (toString10 (2000 + u8 b)) (2000 + u8 b).
Proof.
  split; [apply noDot_check; destruct b; vm_compute; reflexivity|].
  split; destruct b; (discriminate || (vm_compute; reflexivity)).
Qed.

Lemma dotted_last (s : string) (n : N) :
  Spec.spells s n -> Spec.dottedNumbers s = Some [n].
Proof.
  intros (Hd & Hne & Hv). unfold Spec.dottedNumbers.
  rewrite (fields_noDot _ Hd). cbn [mapM].
  destruct s; [contradiction|]. rewrite Hv. reflexivity.
Qed.

Lemma dotted_cons (s t : string) (n : N) (ns : list N) :
  Spec.spells s n -> Spec.dottedNumbers t = Some ns ->
  Spec.dottedNumbers (s +:+ "." +:+ t) = Some (n :: ns).
Proof.
  intros (Hd & Hne & Hv) Ht. unfold Spec.dottedNumbers in *.
  rewrite (fields_dot _ _ Hd). cbn [mapM].
  destruct s; [contradiction|]. rewrite Hv. cbn [mbind option_bind].
  rewrite Ht. reflexivity.
Qed.

(** X6.  The version text of four or more bytes reads back as the first
    four bytes: [hexToVersion] of both engines prints them in decimal,
    in order, separated by dots, so two inputs with the same text agree
    on their first four bytes. *)
Theorem hexToVersion_reads_back (k : SeqKind) (b0 b1 b2 b3 : byte)
    (rest : list byte) :
  Spec.dottedNumbers
    (Backend.hexToVersion (mkSeq k (b0 :: b1 :: b2 :: b3 :: rest)))
  = Some [u8 b0; u8 b1; u8 b2; u8 b3]
  /\ Spec.dottedNumbers
       (Local.hexToVersion (mkSeq k (b0 :: b1 :: b2 :: b3 :: rest)))
     = Some [u8 b0; u8 b1; u8 b2; u8 b3].
Proof.
  unfold Backend.hexToVersion, Local.hexToVersion. cbn [elems].
  split;
    repeat (apply dotted_cons; [apply toString10_spells|]);
    apply dotted_last, toString10_spells.
Qed.

(** X7.  The date text of three or more bytes reads back as day, month
    and year: the backend's [hexToDate] takes the year from the first
    byte and the day from the third, the local one the day from the first
    and the year from the third; the year is the byte plus 2000 and the
    month is the second byte in both. *)
Theorem hexToDate_reads_back (k : SeqKind) (b0 b1 b2 : byte)
    (rest : list byte) :
  Spec.dottedNumbers (Backend.hexToDate (mkSeq k (b0 :: b1 :: b2 :: rest)))
  = Some [u8 b2; u8 b1; (2000 + u8 b0)%N]
  /\ Spec.dottedNumbers (Local.hexToDate (mkSeq k (b0 :: b1 :: b2 :: rest)))
     = Some [u8 b0; u8 b1; (2000 + u8 b2)%N].
Proof.
  unfold Backend.hexToDate, Local.hexToDate. cbn [elems]. cbv zeta.
  split;
    repeat (apply dotted_cons; [apply dec2_spells|]);
    apply dotted_last, year_spells.
Qed.

(* ===================================================================== *)
(** * What a call puts on the wire                                       *)
(* ===================================================================== *)

Section Never.
Context {S : Type}.

Lemma throwsOnly_ret {A} (a : A) (Q : string -> Prop) :
  throwsOnly (S := S) (ret a) Q.
Proof. intros s message s' E. discriminate E. Qed.

Lemma throwsOnly_throw {A} (message : string) (Q : string -> Prop) :
  Q message -> throwsOnly (S := S) (A := A) (throw message) Q.
Proof. intros H s m s' E. unfold throw in E. now inversion E; subst. Qed.

Lemma throwsOnly_gets {A} (f : S -> A) (Q : string -> Prop) :
  throwsOnly (gets f) Q.
Proof. intros s message s' E. discriminate E. Qed.

Lemma throwsOnly_bind {A B} (m : M S A) (k : A -> M S B) (Q : string -> Prop) :
  throwsOnly m Q -> (forall a, throwsOnly (k a) Q) -> throwsOnly (bind m k) Q.
Proof.
  intros Hm Hk s message s' E. unfold bind in E.
  destruct (m s) as [[a|message1] s1] eqn:Em.
  - exact (Hk a _ _ _ E).
  - inversion E; subst. exact (Hm _ _ _ Em).
Qed.

Lemma throwsOnly_tryCatch {A} (body : M S A) (handler : string -> M S A)
    (Q : string -> Prop) :
  (forall message, throwsOnly (handler message) Q) ->
  throwsOnly (tryCatch body handler) Q.
Proof.
  intros Hh s message s' E. unfold tryCatch in E.
  destruct (body s) as [[a|message1] s1]; [discriminate|].
  exact (Hh _ _ _ _ E).
Qed.

Lemma throwsOnly_runTasks (todo : list (string * M S string))
    (results : gmap string Value) (Q : string -> Prop) :
  throwsOnly (runTasks todo results) Q.
Proof.
  revert results. induction todo as [|[key fn] rest IH]; intros results;
    cbn [runTasks].
  - apply throwsOnly_ret.
  - apply throwsOnly_bind; [|intros r; apply IH].
    apply throwsOnly_tryCatch. intros message. apply throwsOnly_ret.
Qed.

End Never.

Section Emits.
Context {S F : Type}.
Variable pre : S -> Prop.
Variable same : S -> S -> Prop.
Variable log : S -> list F.
Hypothesis same_refl : forall s, same s s.
Hypothesis same_trans : forall a b c, same a b -> same b c -> same a c.
Hypothesis pre_same : forall s s', pre s -> same s s' -> pre s'.

Lemma emits_ret {A} (a : A) : emits pre same log (ret a) [].
Proof using same_refl. intros s _. split; [apply same_refl | reflexivity]. Qed.

Lemma emits_throw {A} (message : string) :
  emits pre same log (throw (A := A) message) [].
Proof using same_refl. intros s _. split; [apply same_refl | reflexivity]. Qed.

Lemma emits_liftRes {A} (r : Res A) : emits pre same log (liftRes r) [].
Proof using same_refl. intros s _. split; [apply same_refl | reflexivity]. Qed.

Lemma emits_gets {A} (f : S -> A) : emits pre same log (gets f) [].
Proof using same_refl. intros s _. split; [apply same_refl | reflexivity]. Qed.

(** A call followed by steps that send nothing. *)
Lemma emits_bind_quiet {A B} (m : M S A) (k : A -> M S B) (items : list F) :
  emits pre same log m items ->
  (forall a, emits pre same log (k a) []) ->
  emits pre same log (bind m k) items.
Proof using same_trans pre_same.
  intros Hm Hk s Hs. unfold bind. destruct (Hm s Hs) as [Hsame Hlog].
  destruct (m s) as [[a|message] s1]; cbn [snd] in *; [|now split].
  destruct (Hk a s1 (pre_same _ _ Hs Hsame)) as [Hsame' Hlog'].
  split; [eapply same_trans; eassumption|].
  rewrite Hlog'. exact Hlog.
Qed.

(** A call that never throws, followed by another one. *)
Lemma emits_seq {A B} (m : M S A) (k : A -> M S B) (items items' : list F) :
  emits pre same log m items ->
  throwsOnly m (fun _ => False) ->
  (forall a, emits pre same log (k a) items') ->
  emits pre same log (bind m k) (items ++ items').
Proof using same_trans pre_same.
  intros Hm Hnever Hk s Hs. unfold bind. destruct (Hm s Hs) as [Hsame Hlog].
  destruct (m s) as [[a|message] s1] eqn:Em; cbn [snd] in *;
    [|destruct (Hnever _ _ _ Em)].
  destruct (Hk a s1 (pre_same _ _ Hs Hsame)) as [Hsame' Hlog'].
  split; [eapply same_trans; eassumption|].
  rewrite Hlog', Hlog, rev_app_distr, List.app_assoc. reflexivity.
Qed.

Lemma emits_tryCatch {A} (body : M S A) (handler : string -> M S A)
    (items : list F) :
  emits pre same log body items ->
  (forall message, emits pre same log (handler message) []) ->
  emits pre same log (tryCatch body handler) items.
Proof using same_trans pre_same.
  intros Hb Hh s Hs. unfold tryCatch. destruct (Hb s Hs) as [Hsame Hlog].
  destruct (body s) as [[a|message] s1]; cbn [snd] in *; [now split|].
  destruct (Hh message s1 (pre_same _ _ Hs Hsame)) as [Hsame' Hlog'].
  split; [eapply same_trans; eassumption|].
  rewrite Hlog'. exact Hlog.
Qed.

(** The guard [if (!this.isConnected) throw ...], passed. *)
Lemma emits_guard {A} (flag : S -> bool) (message : string) (m : M S A)
    (items : list F) :
  (forall s, pre s -> flag s = true) ->
  emits pre same log m items ->
  emits pre same log
    (connected <- gets flag ;; if negb connected then throw message else m)
    items.
Proof.
  intros Hflag Hm s Hs. unfold bind, gets. rewrite (Hflag s Hs). exact (Hm s Hs).
Qed.

(** The guard [if (!this.isConnected || !this.wrapper) throw ...], passed. *)
Lemma emits_guard2 {A W} (flag : S -> bool) (wrapper : S -> W)
    (present : W -> bool) (message : string) (m : M S A) (items : list F) :
  (forall s, pre s -> flag s = true) ->
  (forall s, pre s -> present (wrapper s) = true) ->
  emits pre same log m items ->
  emits pre same log
    (connected <- gets flag ;;
     wrapper <- gets wrapper ;;
     if negb connected || negb (present wrapper) then throw message else m)
    items.
Proof.
  intros Hflag Hw Hm s Hs. unfold bind, gets.
  rewrite (Hflag s Hs), (Hw s Hs). exact (Hm s Hs).
Qed.

(** The task loop sends what its tasks send, in their order. *)
Lemma emits_runTasks (todo : list (string * M S string)) (items : list F) :
  Forall2 (fun task item => emits pre same log (snd task) [item]) todo items ->
  forall results, emits pre same log (runTasks todo results) items.
Proof using same_refl same_trans pre_same.
  induction 1 as [|[key fn] item rest items Hfn _ IH]; intros results;
    cbn [runTasks].
  - apply emits_ret.
  - change (item :: items) with ([item] ++ items).
    apply emits_seq; [| |intros r; apply IH].
    + apply emits_tryCatch; [|intros message; apply emits_ret].
      apply emits_bind_quiet; [exact Hfn | intros value; apply emits_ret].
    + apply throwsOnly_tryCatch. intros message. apply throwsOnly_ret.
Qed.

End Emits.

Lemma local_sameTool_refl (s : Local.Tool) : Local.sameTool s s.
Proof. repeat split. Qed.

Lemma local_sameTool_trans (a b c : Local.Tool) :
  Local.sameTool a b -> Local.sameTool b c -> Local.sameTool a c.
Proof.
  unfold Local.sameTool. intros (H1 & H2 & H3 & H4) (K1 & K2 & K3 & K4).
  repeat split; congruence.
Qed.

Lemma local_attached_same (s s' : Local.Tool) :
  Local.attached s -> Local.sameTool s s' -> Local.attached s'.
Proof.
  unfold Local.attached, Local.sameTool. intros [Hc Hw] (_ & K2 & K3 & _).
  split; congruence.
Qed.

Lemma backend_sameTool_refl (s : Backend.Tool) : Backend.sameTool s s.
Proof. repeat split. Qed.

Lemma backend_sameTool_trans (a b c : Backend.Tool) :
  Backend.sameTool a b -> Backend.sameTool b c -> Backend.sameTool a c.
Proof.
  unfold Backend.sameTool. intros (H1 & H2 & H3 & H4) (K1 & K2 & K3 & K4).
  repeat split; congruence.
Qed.

Lemma backend_attached_same (s s' : Backend.Tool) :
  Backend.attached s -> Backend.sameTool s s' -> Backend.attached s'.
Proof.
  unfold Backend.attached, Backend.sameTool. intros [Hc Hw] (_ & K2 & K3 & _).
  split; congruence.
Qed.

Lemma local_attached_connected (s : Local.Tool) :
  Local.attached s -> Local.isConnected s = true.
Proof. now intros [H _]. Qed.

Lemma local_attached_wrapper (s : Local.Tool) :
  Local.attached s -> Local.isSome (Local.hidWrapper s) = true.
Proof. now intros [_ H]. Qed.

Lemma backend_attached_connected (s : Backend.Tool) :
  Backend.attached s -> Backend.isConnected s = true.
Proof. now intros [H _]. Qed.

Lemma backend_attached_wrapper (s : Backend.Tool) :
  Backend.attached s -> Backend.isSome (Backend.usbWrapper s) = true.
Proof. now intros [_ H]. Qed.

Create HintDb wire.
#[local] Hint Resolve local_sameTool_refl local_sameTool_trans
  local_attached_same backend_sameTool_refl backend_sameTool_trans
  backend_attached_same local_attached_connected local_attached_wrapper
  backend_attached_connected backend_attached_wrapper : wire.

Ltac wire_side := solve [eauto with wire].

(** One step through code that sends nothing. *)
Ltac quiet_step :=
  first
    [ apply emits_ret; wire_side
    | apply emits_throw; wire_side
    | apply emits_liftRes; wire_side
    | apply emits_gets; wire_side
    | apply emits_tryCatch; [wire_side | wire_side | | intros ?]
    | apply emits_bind_quiet; [wire_side | wire_side | | intros ?]
    | match goal with
      | |- emits _ _ _ (if ?c then _ else _) _ => destruct c
      | |- emits _ _ _ (match ?x with _ => _ end) _ => destruct x
      | |- emits _ _ _ (let '(_, _) := ?x in _) _ => destruct x
      end ].

Lemma local_write_sends (hid : Local.NodeHid) (data : ByteSeq) :
  Local.sends (Local.SimpleHidWrapper.write hid data) [data].
Proof.
  intros s [Hc Hw].
  unfold Local.SimpleHidWrapper.write, Local.SimpleHidWrapper.this,
    Local.interact, bind, modify, tryCatch, liftRes, throw, ret.
  destruct (Local.hidWrapper s) as [w|] eqn:E; [|discriminate].
  cbn [fst snd].
  destruct (negb (Local.w_isConnected w) || negb (Local.isSome (Local.hidDevice w)));
    [split; [repeat split; exact E | reflexivity]|].
  cbn [Local.logWriteCall Local.world Local.setWorld Local.clock
       Local.writeCalls Local.reports].
  destruct (Local.hid_write hid (Local.clock (Local.world s))
              (Local.SimpleHidWrapper.buildReport data)) as [n|message];
    [|split; [repeat split; exact E | reflexivity]].
  destruct (negb (n =? N.of_nat
                         (length (Local.SimpleHidWrapper.buildReport data)))%N);
    (split; [repeat split; exact E | reflexivity]).
Qed.

Lemma local_read_sends (hid : Local.NodeHid) (timeout : Z) :
  Local.sends (Local.SimpleHidWrapper.read hid timeout) [].
Proof.
  intros s [Hc Hw].
  unfold Local.SimpleHidWrapper.read, Local.SimpleHidWrapper.this,
    Local.interact, bind, throw, ret.
  destruct (Local.hidWrapper s) as [w|] eqn:E; [|discriminate].
  destruct (negb (Local.w_isConnected w) || negb (Local.isSome (Local.hidDevice w)));
    [split; [repeat split; exact E | reflexivity]|].
  destruct (Local.hid_poll hid (Local.clock (Local.world s)) timeout);
    (split; [repeat split; exact E | reflexivity]).
Qed.

Lemma local_sendData_sends (hid : Local.NodeHid) (data : ByteSeq) :
  Local.sends (Local.BoschDisplayTool.sendData hid data) [data].
Proof.
  unfold Local.sends, Local.BoschDisplayTool.sendData.
  apply emits_guard2; [wire_side | wire_side |].
  apply emits_tryCatch; [wire_side | wire_side | | intros ?; quiet_step].
  apply emits_bind_quiet; [wire_side | wire_side | | intros ?; quiet_step].
  apply local_write_sends.
Qed.

Lemma local_receiveData_sends (hid : Local.NodeHid) (timeout : Z) :
  Local.sends (Local.BoschDisplayTool.receiveData hid timeout) [].
Proof.
  unfold Local.sends, Local.BoschDisplayTool.receiveData.
  apply emits_guard2; [wire_side | wire_side |].
  apply emits_tryCatch; [wire_side | wire_side | | intros ?; repeat quiet_step].
  apply local_read_sends.
Qed.

Lemma local_sendUdsRequest_sends (hid : Local.NodeHid) (sid : byte)
    (did extra : list byte) (timeout : Z) :
  Local.sends (Local.BoschDisplayTool.sendUdsRequest hid sid did extra timeout)
              [Local.createUdsFrame sid did extra].
Proof.
  unfold Local.sends, Local.BoschDisplayTool.sendUdsRequest.
  apply emits_guard; [wire_side|].
  apply emits_tryCatch; [wire_side | wire_side | | intros ?; repeat quiet_step].
  apply emits_bind_quiet; [wire_side | wire_side | apply local_sendData_sends|].
  intros _.
  apply emits_bind_quiet; [wire_side | wire_side | apply local_receiveData_sends|].
  intros response. repeat quiet_step.
Qed.

Lemma local_performHandshake_sends (hid : Local.NodeHid) :
  Local.sends (Local.BoschDisplayTool.performHandshake hid)
              [Local.createHandshakeFrame].
Proof.
  unfold Local.sends, Local.BoschDisplayTool.performHandshake.
  apply emits_guard; [wire_side|].
  apply emits_tryCatch; [wire_side | wire_side | | intros ?; repeat quiet_step].
  apply emits_bind_quiet; [wire_side | wire_side | apply local_sendData_sends|].
  intros _.
  apply emits_bind_quiet; [wire_side | wire_side | apply local_receiveData_sends|].
  intros response. repeat quiet_step.
Qed.

(** A read function: one request, then decoding. *)
Ltac local_read_sends hid :=
  apply emits_tryCatch; [wire_side | wire_side | | intros ?; repeat quiet_step];
  apply emits_bind_quiet;
    [wire_side | wire_side | apply (local_sendUdsRequest_sends hid)
    | intros ?; repeat quiet_step].

Lemma local_tasks_send (hid : Local.NodeHid) :
  Forall2 (fun task item =>
             emits Local.attached Local.sameTool
                   (fun s => Local.writeCalls (Local.world s))
                   (snd task) [item])
    (Local.BoschDisplayTool.tasks hid)
    (Spec.requests
       [Constants.SERIAL_NUMBER; Local.HARDWARE_VERSION;
        Constants.SOFTWARE_VERSION; Constants.BOSCH_PRODUCT_CODE;
        Constants.HMI_PART_NUMBER; Constants.COMPONENT_TYPE;
        Constants.CURRENT_TIME; Constants.CURRENT_DATE]).
Proof.
  unfold Local.BoschDisplayTool.tasks, Spec.requests. cbn [List.map].
  repeat (apply List.Forall2_cons; [cbn [snd]|]); [..|apply List.Forall2_nil].
  - unfold Local.BoschDisplayTool.readSerialNumber. local_read_sends hid.
  - unfold Local.BoschDisplayTool.readHardwareVersion. local_read_sends hid.
  - unfold Local.BoschDisplayTool.readSoftwareVersion. local_read_sends hid.
  - unfold Local.BoschDisplayTool.readProductCode. local_read_sends hid.
  - unfold Local.BoschDisplayTool.readArticleNumber. local_read_sends hid.
  - unfold Local.BoschDisplayTool.readComponentType. local_read_sends hid.
  - unfold Local.BoschDisplayTool.readCurrentTime. local_read_sends hid.
  - unfold Local.BoschDisplayTool.readCurrentDate. local_read_sends hid.
Qed.

Lemma local_readPart_sends (hid : Local.NodeHid) (did : list byte)
    (enough : ByteSeq -> bool) (decode : ByteSeq -> string) (key : string)
    (acc : gmap string string * bool) :
  Local.sends (Local.BoschDisplayTool.readPart hid did enough decode key acc)
              [Local.createUdsFrame x22 did []].
Proof.
  unfold Local.sends, Local.BoschDisplayTool.readPart. destruct acc as [info t].
  local_read_sends hid.
Qed.

Lemma local_readPart_never_throws (hid : Local.NodeHid) (did : list byte)
    (enough : ByteSeq -> bool) (decode : ByteSeq -> string) (key : string)
    (acc : gmap string string * bool) :
  throwsOnly (Local.BoschDisplayTool.readPart hid did enough decode key acc)
             (fun _ => False).
Proof.
  unfold Local.BoschDisplayTool.readPart. destruct acc as [info t].
  apply throwsOnly_tryCatch. intros message.
  destruct (String.eqb message "TIMEOUT"); apply throwsOnly_ret.
Qed.

Lemma local_readDriveUnitInfo_sends (hid : Local.NodeHid) :
  Local.sends (Local.BoschDisplayTool.readDriveUnitInfo hid)
    (Spec.requests [Constants.DU_PART_NUMBER; Constants.DU_SERIAL_NUMBER;
                    Constants.DU_HW_VERSION; Constants.DU_SW_VERSION]).
Proof.
  unfold Local.sends, Local.BoschDisplayTool.readDriveUnitInfo.
  apply emits_guard; [wire_side|].
  apply emits_tryCatch; [wire_side | wire_side | | intros ?; repeat quiet_step].
  unfold Spec.requests. cbn [List.map].
  repeat (match goal with
          | |- emits _ _ _ (bind _ _) (?x :: ?y :: ?l) =>
              change (x :: y :: l) with ([x] ++ y :: l);
              apply emits_seq;
                [wire_side | wire_side | apply local_readPart_sends
                | apply local_readPart_never_throws | intros ?]
          end).
  apply emits_bind_quiet;
    [wire_side | wire_side | apply local_readPart_sends
    | intros ?; repeat quiet_step].
Qed.

Lemma local_readBatteryManagementInfo_sends (hid : Local.NodeHid) :
  Local.sends (Local.BoschDisplayTool.readBatteryManagementInfo hid)
    (Spec.requests [Constants.BMS_PART_NUMBER; Constants.BMS_SERIAL_NUMBER;
                    Constants.BMS_HW_VERSION; Constants.BMS_SW_VERSION]).
Proof.
  unfold Local.sends, Local.BoschDisplayTool.readBatteryManagementInfo.
  apply emits_guard; [wire_side|].
  apply emits_tryCatch; [wire_side | wire_side | | intros ?; repeat quiet_step].
  unfold Spec.requests. cbn [List.map].
  repeat (match goal with
          | |- emits _ _ _ (bind _ _) (?x :: ?y :: ?l) =>
              change (x :: y :: l) with ([x] ++ y :: l);
              apply emits_seq;
                [wire_side | wire_side | apply local_readPart_sends
                | apply local_readPart_never_throws | intros ?]
          end).
  apply emits_bind_quiet;
    [wire_side | wire_side | apply local_readPart_sends
    | intros ?; repeat quiet_step].
Qed.

Lemma local_readAllInformation_sends (hid : Local.NodeHid) (mode : string) :
  Local.sends (Local.BoschDisplayTool.readAllInformation hid mode)
    (Spec.requests
       ([Constants.SERIAL_NUMBER; Local.HARDWARE_VERSION;
         Constants.SOFTWARE_VERSION; Constants.BOSCH_PRODUCT_CODE;
         Constants.HMI_PART_NUMBER; Constants.COMPONENT_TYPE;
         Constants.CURRENT_TIME; Constants.CURRENT_DATE]
        ++ (if String.eqb mode "full"
            then [Constants.DU_PART_NUMBER; Constants.DU_SERIAL_NUMBER;
                  Constants.DU_HW_VERSION; Constants.DU_SW_VERSION;
                  Constants.BMS_PART_NUMBER; Constants.BMS_SERIAL_NUMBER;
                  Constants.BMS_HW_VERSION; Constants.BMS_SW_VERSION]
            else []))).
Proof.
  unfold Local.sends, Local.BoschDisplayTool.readAllInformation.
  apply emits_tryCatch; [wire_side | wire_side | | intros ?; quiet_step].
  unfold Spec.requests. rewrite List.map_app.
  apply emits_seq; [wire_side | wire_side | | apply throwsOnly_runTasks |].
  { apply emits_runTasks; [wire_side .. |]. apply local_tasks_send. }
  intros results.
  apply emits_bind_quiet; [wire_side | wire_side | | intros ?; repeat quiet_step].
  destruct (String.eqb mode "full"); [|quiet_step].
  change [Constants.DU_PART_NUMBER; Constants.DU_SERIAL_NUMBER;
          Constants.DU_HW_VERSION; Constants.DU_SW_VERSION;
          Constants.BMS_PART_NUMBER; Constants.BMS_SERIAL_NUMBER;
          Constants.BMS_HW_VERSION; Constants.BMS_SW_VERSION]
    with ([Constants.DU_PART_NUMBER; Constants.DU_SERIAL_NUMBER;
           Constants.DU_HW_VERSION; Constants.DU_SW_VERSION]
          ++ [Constants.BMS_PART_NUMBER; Constants.BMS_SERIAL_NUMBER;
              Constants.BMS_HW_VERSION; Constants.BMS_SW_VERSION]).
  rewrite List.map_app.
  apply emits_seq; [wire_side | wire_side | | |].
  - apply emits_tryCatch; [wire_side | wire_side | | intros ?; quiet_step].
    apply emits_bind_quiet;
      [wire_side | wire_side | apply local_readDriveUnitInfo_sends
      | intros ?; quiet_step].
  - apply throwsOnly_tryCatch. intros message. apply throwsOnly_ret.
  - intros results'.
    apply emits_tryCatch; [wire_side | wire_side | | intros ?; quiet_step].
    apply emits_bind_quiet;
      [wire_side | wire_side | apply local_readBatteryManagementInfo_sends
      | intros ?; quiet_step].
Qed.

Lemma backend_sendData_sends (usb : Backend.UsbHost) (data : ByteSeq) :
  Backend.sends (Backend.BoschDisplayTool.sendData usb data) [data].
Proof.
  unfold Backend.sends, Backend.BoschDisplayTool.sendData.
  apply emits_guard2; [wire_side | wire_side |].
  apply emits_tryCatch; [wire_side | wire_side | | intros ?; quiet_step].
  intros s _.
  unfold Backend.BoschDisplayTool.usbWrapper_write, Backend.interact, bind,
    throw, ret.
  destruct (Backend.usb_write usb (Backend.clock (Backend.world s)) data);
    (split; [repeat split | reflexivity]).
Qed.

Lemma backend_receiveData_sends (usb : Backend.UsbHost) (timeout : Z) :
  Backend.sends (Backend.BoschDisplayTool.receiveData usb timeout) [].
Proof.
  unfold Backend.sends, Backend.BoschDisplayTool.receiveData.
  apply emits_guard2; [wire_side | wire_side |].
  apply emits_tryCatch; [wire_side | wire_side | | intros ?; repeat quiet_step].
  intros s _.
  unfold Backend.BoschDisplayTool.usbWrapper_read, Backend.interact, bind,
    liftRes, ret.
  destruct (Backend.usb_read usb (Backend.clock (Backend.world s)) timeout);
    (split; [repeat split | reflexivity]).
Qed.

Lemma backend_sendUdsRequest_sends (usb : Backend.UsbHost) (sid : byte)
    (did extra : list byte) (timeout : Z) :
  Backend.sends
    (Backend.BoschDisplayTool.sendUdsRequest usb sid did extra timeout)
    [Backend.createUdsFrame sid did extra].
Proof.
  unfold Backend.sends, Backend.BoschDisplayTool.sendUdsRequest.
  apply emits_guard; [wire_side|].
  apply emits_tryCatch; [wire_side | wire_side | | intros ?; repeat quiet_step].
  apply emits_bind_quiet; [wire_side | wire_side | apply backend_sendData_sends|].
  intros _.
  apply emits_bind_quiet;
    [wire_side | wire_side | apply backend_receiveData_sends|].
  intros response. repeat quiet_step.
Qed.

Ltac backend_read_sends usb :=
  apply emits_tryCatch; [wire_side | wire_side | | intros ?; repeat quiet_step];
  apply emits_bind_quiet;
    [wire_side | wire_side | apply (backend_sendUdsRequest_sends usb)
    | intros ?; repeat quiet_step].

Lemma backend_tasks_send (usb : Backend.UsbHost) :
  Forall2 (fun task item =>
             emits Backend.attached Backend.sameTool
                   (fun s => Backend.writeCalls (Backend.world s))
                   (snd task) [item])
    (Backend.BoschDisplayTool.tasks usb)
    (Spec.requests
       [Constants.SERIAL_NUMBER; Backend.HARDWARE_VERSION;
        Constants.SOFTWARE_VERSION; Constants.BOSCH_PRODUCT_CODE;
        Constants.HMI_PART_NUMBER; Constants.COMPONENT_TYPE;
        Constants.CURRENT_TIME; Constants.CURRENT_DATE]).
Proof.
  unfold Backend.BoschDisplayTool.tasks, Spec.requests. cbn [List.map].
  repeat (apply List.Forall2_cons; [cbn [snd]|]); [..|apply List.Forall2_nil].
  - unfold Backend.BoschDisplayTool.readSerialNumber. backend_read_sends usb.
  - unfold Backend.BoschDisplayTool.readHardwareVersion. backend_read_sends usb.
  - unfold Backend.BoschDisplayTool.readSoftwareVersion. backend_read_sends usb.
  - unfold Backend.BoschDisplayTool.readProductCode. backend_read_sends usb.
  - unfold Backend.BoschDisplayTool.readArticleNumber. backend_read_sends usb.
  - unfold Backend.BoschDisplayTool.readComponentType. backend_read_sends usb.
  - unfold Backend.BoschDisplayTool.readCurrentTime. backend_read_sends usb.
  - unfold Backend.BoschDisplayTool.readCurrentDate. backend_read_sends usb.
Qed.

Lemma backend_readAllInformation_sends (usb : Backend.UsbHost) (mode : string) :
  Backend.sends (Backend.BoschDisplayTool.readAllInformation usb mode)
    (Spec.requests
       [Constants.SERIAL_NUMBER; Backend.HARDWARE_VERSION;
        Constants.SOFTWARE_VERSION; Constants.BOSCH_PRODUCT_CODE;
        Constants.HMI_PART_NUMBER; Constants.COMPONENT_TYPE;
        Constants.CURRENT_TIME; Constants.CURRENT_DATE]).
Proof.
  unfold Backend.sends, Backend.BoschDisplayTool.readAllInformation.
  apply emits_tryCatch; [wire_side | wire_side | | intros ?; quiet_step].
  apply emits_bind_quiet; [wire_side | wire_side | | intros ?; repeat quiet_step].
  apply emits_runTasks; [wire_side .. |]. apply backend_tasks_send.
Qed.

(** X8.  Whatever the device answers, [readAllInformation] on a connected
    tool hands its requests to the wrapper once each and in a fixed order
    (serial number, hardware version, software version, product code,
    article number, component type, time, date; in the local tool's full
    mode followed by the four drive-unit and the four battery requests),
    never repeats one after an error, and leaves the tool's fields as they
    were. *)
Theorem readAllInformation_requests :
  (forall (hid : Local.NodeHid) (mode : string) (s : Local.Tool),
      Local.attached s ->
      let s' := snd (Local.BoschDisplayTool.readAllInformation hid mode s) in
      Local.sameTool s s'
      /\ Local.writeCalls (Local.world s')
         = rev (Spec.requests
                  ([Constants.SERIAL_NUMBER; Local.HARDWARE_VERSION;
                    Constants.SOFTWARE_VERSION; Constants.BOSCH_PRODUCT_CODE;
                    Constants.HMI_PART_NUMBER; Constants.COMPONENT_TYPE;
                    Constants.CURRENT_TIME; Constants.CURRENT_DATE]
                   ++ (if String.eqb mode "full"
                       then [Constants.DU_PART_NUMBER;
                             Constants.DU_SERIAL_NUMBER;
                             Constants.DU_HW_VERSION; Constants.DU_SW_VERSION;
                             Constants.BMS_PART_NUMBER;
                             Constants.BMS_SERIAL_NUMBER;
                             Constants.BMS_HW_VERSION;
                             Constants.BMS_SW_VERSION]
                       else [])))
           ++ Local.writeCalls (Local.world s))
  /\ (forall (usb : Backend.UsbHost) (mode : string) (s : Backend.Tool),
         Backend.attached s ->
         let s' := snd (Backend.BoschDisplayTool.readAllInformation usb mode s) in
         Backend.sameTool s s'
         /\ Backend.writeCalls (Backend.world s')
            = rev (Spec.requests
                     [Constants.SERIAL_NUMBER; Backend.HARDWARE_VERSION;
                      Constants.SOFTWARE_VERSION; Constants.BOSCH_PRODUCT_CODE;
                      Constants.HMI_PART_NUMBER; Constants.COMPONENT_TYPE;
                      Constants.CURRENT_TIME; Constants.CURRENT_DATE])
              ++ Backend.writeCalls (Backend.world s)).
Proof.
  split.
  - intros hid mode s Hs. exact (local_readAllInformation_sends hid mode s Hs).
  - intros usb mode s Hs. exact (backend_readAllInformation_sends usb mode s Hs).
Qed.

(** On a device that never answers, the full mode of the local tool still
    sends all sixteen requests. *)
Lemma readAllInformation_requests_witness :
  Local.attached Local.ready
  /\ length (Local.writeCalls
               (Local.world
                  (snd (Local.BoschDisplayTool.readAllInformation
                          Local.silent "full" Local.ready)))) = 16
  /\ Backend.attached Backend.ready
  /\ length (Backend.writeCalls
               (Backend.world
                  (snd (Backend.BoschDisplayTool.readAllInformation
                          Backend.silent "display" Backend.ready)))) = 8.
Proof.
  assert (Local.attached Local.ready) as HL by (split; reflexivity).
  assert (Backend.attached Backend.ready) as HB by (split; reflexivity).
  destruct readAllInformation_requests as [Hlocal Hbackend].
  split; [exact HL|]. split.
  - destruct (Hlocal Local.silent "full" Local.ready HL) as [_ E].
    rewrite E. reflexivity.
  - split; [exact HB|].
    destruct (Hbackend Backend.silent "display" Backend.ready HB) as [_ E].
    rewrite E. reflexivity.
Defined.

(* ===================================================================== *)
(** * Runs of the local tool on an open wrapper                          *)
(* ===================================================================== *)

Lemma length_buildReport (data : ByteSeq) :
  length (Local.SimpleHidWrapper.buildReport data) = 65.
Proof.
  unfold Local.SimpleHidWrapper.buildReport.
  destruct (65 <? length (x00 :: elems data)) eqn:C.
  - apply Nat.ltb_lt in C. rewrite length_firstn. lia.
  - apply Nat.ltb_ge in C. rewrite pushZeros_repeat, length_app, repeat_length.
    lia.
Qed.

Lemma online_attached (s : Local.Tool) : Local.online s -> Local.attached s.
Proof. intros [Hc [d Hw]]. split; [exact Hc | now rewrite Hw]. Qed.

Lemma online_same (s s' : Local.Tool) :
  Local.online s -> Local.sameTool s s' -> Local.online s'.
Proof.
  intros [Hc [d Hw]] (_ & K2 & K3 & _). split; [congruence|].
  exists d. congruence.
Qed.

Lemma online_sent (data : ByteSeq) (s : Local.Tool) :
  Local.online s -> Local.online (Local.sent data s).
Proof. intros H. apply (online_same s); [exact H | repeat split]. Qed.

Lemma online_received (s : Local.Tool) :
  Local.online s -> Local.online (Local.received s).
Proof. intros H. apply (online_same s); [exact H | repeat split]. Qed.

(** [write] on an open wrapper, by what the device reports. *)
Lemma local_write_run (hid : Local.NodeHid) (s : Local.Tool) (data : ByteSeq) :
  Local.online s ->
  Local.SimpleHidWrapper.write hid data s
  = (match Local.hid_write hid (Local.clock (Local.world s))
             (Local.SimpleHidWrapper.buildReport data) with
     | Ok n =>
         if (n =? 65)%N then Ok n
         else Throw ("Schreibfehler: Nur " +:+ toString10 n
                     +:+ " von 65 Bytes geschrieben")
     | Throw message => Throw ("Schreibfehler: " +:+ message)
     end, Local.sent data s).
Proof.
  intros [Hc [d Hw]].
  unfold Local.SimpleHidWrapper.write, Local.SimpleHidWrapper.this,
    Local.interact, bind, modify, tryCatch, liftRes, throw, ret.
  rewrite Hw. cbn [negb orb Local.isSome Local.w_isConnected Local.hidDevice].
  cbn [Local.logWriteCall Local.world Local.setWorld Local.clock
       Local.writeCalls Local.reports Local.hidWrapper].
  rewrite length_buildReport.
  change (N.of_nat 65) with 65%N.
  destruct (Local.hid_write hid (Local.clock (Local.world s))
              (Local.SimpleHidWrapper.buildReport data)) as [n|message];
    [|reflexivity].
  destruct (n =? 65)%N; reflexivity.
Qed.

Lemma local_sendData_run (hid : Local.NodeHid) (s : Local.Tool) (data : ByteSeq) :
  Local.online s ->
  Local.hid_write hid (Local.clock (Local.world s))
    (Local.SimpleHidWrapper.buildReport data) = Ok 65%N ->
  Local.BoschDisplayTool.sendData hid data s = (Ok tt, Local.sent data s).
Proof.
  intros Hs Hwrite. pose proof (local_write_run hid s data Hs) as Hrun.
  destruct Hs as [Hc [d Hw]].
  unfold Local.BoschDisplayTool.sendData, bind, gets, tryCatch.
  rewrite Hc, Hw. cbn [negb orb Local.isSome].
  rewrite Hrun, Hwrite. reflexivity.
Qed.

(** [receiveData] on an open wrapper, by the outcome of the polling. *)
Lemma local_receiveData_run (hid : Local.NodeHid) (s : Local.Tool) (timeout : Z) :
  Local.online s ->
  Local.BoschDisplayTool.receiveData hid timeout s
  = (match Local.hid_poll hid (Local.clock (Local.world s)) timeout with
     | Local.Data first rest => Ok (bufferFrom (first :: rest))
     | Local.Fault message =>
         if includes ("Lesefehler: " +:+ message) "timeout"
            || includes ("Lesefehler: " +:+ message) "Timeout"
         then Throw "TIMEOUT"
         else Throw ("Empfangsfehler: Lesefehler: " +:+ message)
     | Local.Expired => Throw "TIMEOUT"
     end, Local.received s).
Proof.
  intros [Hc [d Hw]].
  unfold Local.BoschDisplayTool.receiveData, Local.SimpleHidWrapper.read,
    Local.SimpleHidWrapper.this, Local.interact, bind, gets, tryCatch, throw, ret.
  rewrite Hc, Hw. cbn [negb orb Local.isSome Local.w_isConnected Local.hidDevice].
  rewrite Hw. cbn [negb orb Local.isSome Local.w_isConnected Local.hidDevice].
  destruct (Local.hid_poll hid (Local.clock (Local.world s)) timeout)
    as [first rest|message|]; try reflexivity.
  destruct (includes ("Lesefehler: " +:+ message) "timeout"
            || includes ("Lesefehler: " +:+ message) "Timeout"); reflexivity.
Qed.

Lemma local_sendUdsRequest_timeout (hid : Local.NodeHid) (s : Local.Tool)
    (sid : byte) (did extra : list byte) (timeout : Z) :
  Local.online s ->
  Local.hid_write hid (Local.clock (Local.world s))
    (Local.SimpleHidWrapper.buildReport (Local.createUdsFrame sid did extra))
  = Ok 65%N ->
  Local.hid_poll hid (S (Local.clock (Local.world s))) timeout = Local.Expired ->
  Local.BoschDisplayTool.sendUdsRequest hid sid did extra timeout s
  = (Throw "TIMEOUT",
     Local.received (Local.sent (Local.createUdsFrame sid did extra) s)).
Proof.
  intros Hs Hwrite Hpoll.
  unfold Local.BoschDisplayTool.sendUdsRequest, bind, gets, tryCatch.
  rewrite (proj1 Hs). cbn [negb].
  rewrite (local_sendData_run hid s _ Hs Hwrite).
  rewrite (local_receiveData_run hid _ timeout (online_sent _ _ Hs)).
  cbn [Local.sent Local.world Local.setWorld Local.clock].
  rewrite Hpoll. reflexivity.
Qed.

Lemma strictEq_eqb (v : byte) (c : byte) :
  strictEq (Some v) (u8 c) = Byte.eqb v c.
Proof. apply byte_eqb_u8. Qed.

Lemma handshake_test (frame : list byte) :
  strictEq (idx (bufferFrom frame) 0) 0x00
  && strictEq (idx (bufferFrom frame) 1) 0x01
  && strictEq (idx (bufferFrom frame) 2) 0x01
  && strictEq (idx (bufferFrom frame) 3) 0x00
  = Spec.beginsWith Constants.HANDSHAKE_RESPONSE frame.
Proof.
  unfold idx. cbn [elems bufferFrom].
  change 0x00%N with (u8 x00). change 0x01%N with (u8 x01).
  destruct frame as [|b0 [|b1 [|b2 [|b3 rest]]]];
    cbn [lookup list_lookup Spec.beginsWith Constants.HANDSHAKE_RESPONSE];
    rewrite ?strictEq_eqb; cbn [strictEq];
    rewrite ?andb_false_r, ?andb_true_r; try reflexivity.
  now rewrite !andb_assoc.
Qed.

(** X9.  The handshake of the local tool on an open wrapper whose device
    takes the handshake report: one handshake frame is written and one
    read is made; the call returns true exactly when the answer starts
    with 00 01 01 00, and otherwise fails with an error that tells an
    invalid answer from a timeout and from a read fault. *)
Theorem performHandshake_outcome (hid : Local.NodeHid) (s : Local.Tool) :
  Local.online s ->
  Local.hid_write hid (Local.clock (Local.world s))
    (Local.SimpleHidWrapper.buildReport Local.createHandshakeFrame) = Ok 65%N ->
  Local.BoschDisplayTool.performHandshake hid s
  = (match Local.hid_poll hid (S (Local.clock (Local.world s))) 1000 with
     | Local.Data first rest =>
         if Spec.beginsWith Constants.HANDSHAKE_RESPONSE (first :: rest)
         then Ok true
         else Throw "Handshake-Fehler: Handshake fehlgeschlagen - ungültige Response"
     | Local.Fault message =>
         if includes ("Lesefehler: " +:+ message) "timeout"
            || includes ("Lesefehler: " +:+ message) "Timeout"
         then Throw "Handshake-Fehler: TIMEOUT"
         else Throw ("Handshake-Fehler: Empfangsfehler: Lesefehler: "
                     +:+ message)
     | Local.Expired => Throw "Handshake-Fehler: TIMEOUT"
     end,
     Local.received (Local.sent Local.createHandshakeFrame s)).
Proof.
  intros Hs Hwrite.
  unfold Local.BoschDisplayTool.performHandshake, bind, gets, tryCatch.
  rewrite (proj1 Hs). cbn [negb].
  rewrite (local_sendData_run hid s _ Hs Hwrite).
  rewrite (local_receiveData_run hid _ 1000 (online_sent _ _ Hs)).
  cbn [Local.sent Local.world Local.setWorld Local.clock].
  destruct (Local.hid_poll hid (S (Local.clock (Local.world s))) 1000)
    as [first rest|message|]; [| |reflexivity].
  - rewrite handshake_test.
    destruct (Spec.beginsWith Constants.HANDSHAKE_RESPONSE (first :: rest));
      reflexivity.
  - destruct (includes ("Lesefehler: " +:+ message) "timeout"
              || includes ("Lesefehler: " +:+ message) "Timeout");
      reflexivity.
Qed.

Lemma performHandshake_outcome_witness :
  Local.BoschDisplayTool.performHandshake
    (Local.answering x00 [x01; x01; x00; x3d]) Local.ready
  = (Ok true, Local.received (Local.sent Local.createHandshakeFrame Local.ready)).
Proof.
  apply (performHandshake_outcome (Local.answering x00 [x01; x01; x00; x3d])
           Local.ready).
  - split; [reflexivity | eexists; reflexivity].
  - reflexivity.
Defined.

Lemma sends_sameTool {A} (m : M Local.Tool A) (frames : list ByteSeq)
    (s : Local.Tool) :
  Local.sends m frames -> Local.attached s -> Local.sameTool s (snd (m s)).
Proof. intros H Hs. exact (proj1 (H s Hs)). Qed.

(** X10.  [connect] of the local tool.  A device that is not a Bosch
    display is refused before anything is touched.  Otherwise the device
    is stored, and the call either returns, leaving the tool connected
    with an open wrapper, or throws an error that starts with
    "Verbindungsfehler: ", leaving the tool not connected; when the
    handle was opened and the handshake failed, the wrapper is left
    open: the failed [connect] does not close it. *)
Theorem connect_outcome (hid : Local.NodeHid) (dev : option Constants.DeviceInfo)
    (s : Local.Tool) :
  let outcome := fst (Local.BoschDisplayTool.connect hid dev s) in
  let s' := snd (Local.BoschDisplayTool.connect hid dev s) in
  if Local.isBoschDisplay dev
  then Local.device s' = dev
       /\ ((outcome = Ok tt /\ Local.online s')
           \/ (exists message,
                 outcome = Throw ("Verbindungsfehler: " +:+ message)
                 /\ Local.isConnected s' = false
                 /\ Local.hidWrapper s'
                    = Some (match Local.hid_new hid (Local.clock (Local.world s)) with
                            | None => Local.mkWrapper dev (Some Local.HID) true
                            | Some _ => Local.SimpleHidWrapper.new dev
                            end)))
  else outcome = Throw "Das angegebene Gerät ist kein Bosch eBike Display!"
       /\ s' = s.
Proof.
  cbv zeta. unfold Local.BoschDisplayTool.connect.
  destruct (Local.isBoschDisplay dev) eqn:Hb; cbn [negb]; [|now split].
  destruct dev as [d|]; [|discriminate].
  cbv beta iota zeta delta
    [tryCatch bind modify throw ret id Local.SimpleHidWrapper.open
     Local.SimpleHidWrapper.this Local.SimpleHidWrapper.new Local.interact
     Local.setWrapper Local.setDevice Local.setConnected Local.setWorld].
  cbn [Local.hidWrapper Local.w_device Local.world Local.clock Local.device
       Local.isConnected Local.sequenceNumber Local.writeCalls Local.reports].
  destruct (Local.hid_new hid (Local.clock (Local.world s))) as [failure|].
  - cbn [fst snd Local.device Local.setConnected Local.isConnected
         Local.hidWrapper Local.setWorld Local.setWrapper Local.setDevice].
    split; [reflexivity|]. right. eexists. repeat split.
  - match goal with
    | |- context [Local.BoschDisplayTool.performHandshake hid ?s1] =>
        pose proof (sends_sameTool _ _ s1 (local_performHandshake_sends hid)
                      (conj eq_refl eq_refl)) as (Hd & Hw & Hc & _);
        destruct (Local.BoschDisplayTool.performHandshake hid s1)
          as [[b|message] s2]
    end; cbn [fst snd] in *.
    + cbn [Local.device Local.hidWrapper Local.isConnected Local.setConnected
           Local.setWrapper Local.setWorld Local.setDevice] in Hd, Hw, Hc.
      split; [exact Hd|]. left. split; [reflexivity|].
      split; [exact Hc | eexists; exact Hw].
    + cbn [Local.device Local.hidWrapper Local.isConnected Local.setConnected
           Local.setWrapper Local.setWorld Local.setDevice] in Hd, Hw, Hc |- *.
      split; [exact Hd|]. right. exists message. repeat split. exact Hw.
Qed.

Lemma local_readPart_timeout (hid : Local.NodeHid) (s : Local.Tool)
    (did : list byte) (enough : ByteSeq -> bool) (decode : ByteSeq -> string)
    (key : string) (info : gmap string string) (t : bool) :
  Local.online s -> Local.neverAnswers hid ->
  Local.BoschDisplayTool.readPart hid did enough decode key (info, t) s
  = (Ok (<[key := "Nicht angeschlossen (Timeout)"]> info, true),
     Local.received (Local.sent (Local.createUdsFrame x22 did []) s)).
Proof.
  intros Hs [Hwrite Hpoll].
  unfold Local.BoschDisplayTool.readPart, tryCatch, bind.
  rewrite (local_sendUdsRequest_timeout hid s _ _ _ _ Hs (Hwrite _ _) (Hpoll _ _)).
  reflexivity.
Qed.

(** X11.  A timeout travels up unchanged through every layer.  On an open
    wrapper whose device takes every report and never answers,
    [sendUdsRequest] fails with exactly "TIMEOUT", and
    [readDriveUnitInfo] and [readBatteryManagementInfo] return (they do
    not throw) an object in which each of the four fields is
    "Nicht angeschlossen (Timeout)" and the status is
    "Nicht angeschlossen". *)
Theorem timeouts_mark_component_absent (hid : Local.NodeHid) (s : Local.Tool) :
  Local.online s -> Local.neverAnswers hid ->
  (forall sid did extra timeout,
      fst (Local.BoschDisplayTool.sendUdsRequest hid sid did extra timeout s)
      = Throw "TIMEOUT")
  /\ fst (Local.BoschDisplayTool.readDriveUnitInfo hid s)
     = Ok (<["message" := "Drive Unit ist nicht am Display angeschlossen oder nicht verfügbar"]>
             (<["status" := "Nicht angeschlossen"]>
                (<["softwareVersion" := "Nicht angeschlossen (Timeout)"]>
                   (<["hardwareVersion" := "Nicht angeschlossen (Timeout)"]>
                      (<["serialNumber" := "Nicht angeschlossen (Timeout)"]>
                         (<["partNumber" := "Nicht angeschlossen (Timeout)"]>
                            ∅))))))
  /\ fst (Local.BoschDisplayTool.readBatteryManagementInfo hid s)
     = Ok (<["message" := "Battery Management System ist nicht am Display angeschlossen oder nicht verfügbar"]>
             (<["status" := "Nicht angeschlossen"]>
                (<["softwareVersion" := "Nicht angeschlossen (Timeout)"]>
                   (<["hardwareVersion" := "Nicht angeschlossen (Timeout)"]>
                      (<["serialNumber" := "Nicht angeschlossen (Timeout)"]>
                         (<["partNumber" := "Nicht angeschlossen (Timeout)"]>
                            ∅)))))).
Proof.
  intros Hs Hhid. split; [|split].
  - intros sid did extra timeout. destruct Hhid as [Hwrite Hpoll].
    now rewrite (local_sendUdsRequest_timeout hid s _ _ _ _ Hs
                   (Hwrite _ _) (Hpoll _ _)).
  - unfold Local.BoschDisplayTool.readDriveUnitInfo, bind at 1, gets.
    rewrite (proj1 Hs). cbn [negb]. unfold tryCatch, bind.
    repeat (rewrite local_readPart_timeout;
            [|auto using online_sent, online_received|exact Hhid]).
    reflexivity.
  - unfold Local.BoschDisplayTool.readBatteryManagementInfo, bind at 1, gets.
    rewrite (proj1 Hs). cbn [negb]. unfold tryCatch, bind.
    repeat (rewrite local_readPart_timeout;
            [|auto using online_sent, online_received|exact Hhid]).
    reflexivity.
Qed.

Lemma timeouts_mark_component_absent_witness :
  fst (Local.BoschDisplayTool.readDriveUnitInfo Local.silent Local.ready)
  = Ok (<["message" := "Drive Unit ist nicht am Display angeschlossen oder nicht verfügbar"]>
          (<["status" := "Nicht angeschlossen"]>
             (<["softwareVersion" := "Nicht angeschlossen (Timeout)"]>
                (<["hardwareVersion" := "Nicht angeschlossen (Timeout)"]>
                   (<["serialNumber" := "Nicht angeschlossen (Timeout)"]>
                      (<["partNumber" := "Nicht angeschlossen (Timeout)"]>
                         ∅)))))).
Proof.
  refine (proj1 (proj2 (timeouts_mark_component_absent Local.silent Local.ready
                          _ _))).
  - split; [reflexivity | eexists; reflexivity].
  - split; reflexivity.
Defined.

Lemma guard_run {S A} (flag : S -> bool) (message : string) (m : M S A)
    (s : S) :
  (connected <- gets flag ;; if negb connected then throw message else m) s
  = if flag s then m s else (Throw message, s).
Proof. unfold bind, gets. now destruct (flag s). Qed.

Lemma local_successful_length (response : ByteSeq) :
  Local.isResponseSuccessful response = true -> 6 <= len response.
Proof. intros H. now apply local_isResponseSuccessful_iff in H. Qed.

Lemma local_readPart_fills (hid : Local.NodeHid) (did : list byte)
    (enough : ByteSeq -> bool) (decode : ByteSeq -> string) (key : string)
    (info : gmap string string) (t : bool) (s : Local.Tool) :
  (forall r, Local.isResponseSuccessful r = true -> enough r = true) ->
  exists v t' s',
    Local.BoschDisplayTool.readPart hid did enough decode key (info, t) s
    = (Ok (<[key := v]> info, t'), s').
Proof.
  intros Henough. unfold Local.BoschDisplayTool.readPart, tryCatch, bind.
  destruct (Local.BoschDisplayTool.sendUdsRequest hid
              Constants.READ_DATA_BY_IDENTIFIER did [] 2000 s)
    as [[r|message] s1] eqn:E.
  - rewrite (Henough r (local_sendUdsRequest_returns _ _ _ _ _ _ _ _ E)).
    unfold ret. eauto.
  - destruct (String.eqb message "TIMEOUT"); unfold ret; eauto.
Qed.

Lemma nonEmpty_successful (r : ByteSeq) :
  Local.isResponseSuccessful r = true -> Local.BoschDisplayTool.nonEmpty r = true.
Proof.
  intros H. apply local_successful_length in H.
  apply Nat.ltb_lt. lia.
Qed.

Lemma atLeast4_successful (r : ByteSeq) :
  Local.isResponseSuccessful r = true -> Local.BoschDisplayTool.atLeast4 r = true.
Proof.
  intros H. apply local_successful_length in H.
  apply Nat.leb_le. lia.
Qed.

Ltac map_lookups :=
  repeat first
    [ rewrite lookup_insert_eq
    | rewrite lookup_insert_ne by discriminate
    | rewrite lookup_empty ].

Lemma componentInfo_finish (message v1 v2 v3 v4 : string) (t : bool) :
  Spec.componentInfo
    (if t
     then <["message" := message]>
            (<["status" := "Nicht angeschlossen"]>
               (<["softwareVersion" := v4]>
                  (<["hardwareVersion" := v3]>
                     (<["serialNumber" := v2]> (<["partNumber" := v1]> ∅)))))
     else <["status" := "Verfügbar"]>
            (<["softwareVersion" := v4]>
               (<["hardwareVersion" := v3]>
                  (<["serialNumber" := v2]> (<["partNumber" := v1]> ∅))))).
Proof.
  destruct t; (split; [repeat constructor; map_lookups; eauto|]).
  - right. map_lookups. eauto.
  - left. map_lookups. eauto.
Qed.

(** X12.  On a connected tool, [readDriveUnitInfo] and
    [readBatteryManagementInfo] never throw, whatever the device does:
    they return an object that always has the properties partNumber,
    serialNumber, hardwareVersion, softwareVersion and status, where the
    status is either "Verfügbar" without a message or
    "Nicht angeschlossen" with one. *)
Theorem component_info_always_answers (hid : Local.NodeHid) (s : Local.Tool) :
  Local.isConnected s = true ->
  (exists info,
      fst (Local.BoschDisplayTool.readDriveUnitInfo hid s) = Ok info
      /\ Spec.componentInfo info)
  /\ (exists info,
         fst (Local.BoschDisplayTool.readBatteryManagementInfo hid s) = Ok info
         /\ Spec.componentInfo info).
Proof.
  intros Hc. split.
  - unfold Local.BoschDisplayTool.readDriveUnitInfo, bind at 1, gets.
    rewrite Hc. cbn [negb]. unfold tryCatch, bind.
    destruct (local_readPart_fills hid Constants.DU_PART_NUMBER _
                (fun r => Local.hexToArticleNumber (slice r 8 18)) "partNumber"
                ∅ false s nonEmpty_successful) as (v1 & t1 & s1 & E1).
    rewrite E1.
    destruct (local_readPart_fills hid Constants.DU_SERIAL_NUMBER _
                (fun r => Local.hexToSerialNumber (slice r 8 20)) "serialNumber"
                (<["partNumber" := v1]> ∅) t1 s1 nonEmpty_successful)
      as (v2 & t2 & s2 & E2).
    rewrite E2.
    destruct (local_readPart_fills hid Constants.DU_HW_VERSION _
                (fun r => Local.hexToVersion (slice r 8 12)) "hardwareVersion"
                (<["serialNumber" := v2]> (<["partNumber" := v1]> ∅)) t2 s2
                atLeast4_successful) as (v3 & t3 & s3 & E3).
    rewrite E3.
    destruct (local_readPart_fills hid Constants.DU_SW_VERSION _
                (fun r => Local.hexToVersion (slice r 8 12)) "softwareVersion"
                (<["hardwareVersion" := v3]>
                   (<["serialNumber" := v2]> (<["partNumber" := v1]> ∅)))
                t3 s3 atLeast4_successful) as (v4 & t4 & s4 & E4).
    rewrite E4.
    pose proof (componentInfo_finish
                  "Drive Unit ist nicht am Display angeschlossen oder nicht verfügbar"
                  v1 v2 v3 v4 t4) as Hfin.
    destruct t4; eexists; (split; [reflexivity | exact Hfin]).
  - unfold Local.BoschDisplayTool.readBatteryManagementInfo, bind at 1, gets.
    rewrite Hc. cbn [negb]. unfold tryCatch, bind.
    destruct (local_readPart_fills hid Constants.BMS_PART_NUMBER _
                (fun r => Local.hexToArticleNumber (slice r 8 18)) "partNumber"
                ∅ false s nonEmpty_successful) as (v1 & t1 & s1 & E1).
    rewrite E1.
    destruct (local_readPart_fills hid Constants.BMS_SERIAL_NUMBER _
                (fun r => Local.hexToSerialNumber (slice r 8 20)) "serialNumber"
                (<["partNumber" := v1]> ∅) t1 s1 nonEmpty_successful)
      as (v2 & t2 & s2 & E2).
    rewrite E2.
    destruct (local_readPart_fills hid Constants.BMS_HW_VERSION _
                (fun r => Local.hexToVersion (slice r 8 12)) "hardwareVersion"
                (<["serialNumber" := v2]> (<["partNumber" := v1]> ∅)) t2 s2
                atLeast4_successful) as (v3 & t3 & s3 & E3).
    rewrite E3.
    destruct (local_readPart_fills hid Constants.BMS_SW_VERSION _
                (fun r => Local.hexToVersion (slice r 8 12)) "softwareVersion"
                (<["hardwareVersion" := v3]>
                   (<["serialNumber" := v2]> (<["partNumber" := v1]> ∅)))
                t3 s3 atLeast4_successful) as (v4 & t4 & s4 & E4).
    rewrite E4.
    pose proof (componentInfo_finish
                  "Battery Management System ist nicht am Display angeschlossen oder nicht verfügbar"
                  v1 v2 v3 v4 t4) as Hfin.
    destruct t4; eexists; (split; [reflexivity | exact Hfin]).
Qed.

Lemma component_info_always_answers_witness :
  exists info,
    fst (Local.BoschDisplayTool.readDriveUnitInfo
           (Local.answering x01 [x00; x3d]) Local.ready) = Ok info
    /\ Spec.componentInfo info.
Proof.
  exact (proj1 (component_info_always_answers (Local.answering x01 [x00; x3d])
                  Local.ready eq_refl)).
Defined.

(** X13.  The tool cannot tell the battery from the drive unit:
    [readBatteryManagementInfo] sends the same four requests as
    [readDriveUnitInfo], so from the same state and with the same device
    both leave the same state, both fail or both return, and what they
    return differs in nothing but the text of the message. *)
Theorem battery_read_like_drive_unit (hid : Local.NodeHid) (s : Local.Tool) :
  snd (Local.BoschDisplayTool.readBatteryManagementInfo hid s)
  = snd (Local.BoschDisplayTool.readDriveUnitInfo hid s)
  /\ match fst (Local.BoschDisplayTool.readDriveUnitInfo hid s),
           fst (Local.BoschDisplayTool.readBatteryManagementInfo hid s) with
     | Ok driveUnit, Ok battery =>
         delete "message" battery = delete "message" driveUnit
         /\ (is_Some (battery !! "message")
             <-> is_Some (driveUnit !! "message"))
     | Throw a, Throw b => a = b
     | _, _ => False
     end.
Proof.
  unfold Local.BoschDisplayTool.readBatteryManagementInfo,
    Local.BoschDisplayTool.readDriveUnitInfo.
  rewrite !guard_run.
  destruct (Local.isConnected s); [|split; reflexivity].
  change Constants.BMS_PART_NUMBER with Constants.DU_PART_NUMBER.
  change Constants.BMS_SERIAL_NUMBER with Constants.DU_SERIAL_NUMBER.
  change Constants.BMS_HW_VERSION with Constants.DU_HW_VERSION.
  change Constants.BMS_SW_VERSION with Constants.DU_SW_VERSION.
  unfold tryCatch, bind.
  destruct (local_readPart_fills hid Constants.DU_PART_NUMBER _
              (fun r => Local.hexToArticleNumber (slice r 8 18)) "partNumber"
              ∅ false s nonEmpty_successful) as (v1 & t1 & s1 & E1).
  rewrite E1.
  destruct (local_readPart_fills hid Constants.DU_SERIAL_NUMBER _
              (fun r => Local.hexToSerialNumber (slice r 8 20)) "serialNumber"
              (<["partNumber" := v1]> ∅) t1 s1 nonEmpty_successful)
    as (v2 & t2 & s2 & E2).
  rewrite E2.
  destruct (local_readPart_fills hid Constants.DU_HW_VERSION _
              (fun r => Local.hexToVersion (slice r 8 12)) "hardwareVersion"
              (<["serialNumber" := v2]> (<["partNumber" := v1]> ∅)) t2 s2
              atLeast4_successful) as (v3 & t3 & s3 & E3).
  rewrite E3.
  destruct (local_readPart_fills hid Constants.DU_SW_VERSION _
              (fun r => Local.hexToVersion (slice r 8 12)) "softwareVersion"
              (<["hardwareVersion" := v3]>
                 (<["serialNumber" := v2]> (<["partNumber" := v1]> ∅)))
              t3 s3 atLeast4_successful) as (v4 & t4 & s4 & E4).
  rewrite E4.
  destruct t4; cbn [fst snd ret]; unfold ret; cbn [fst snd];
    (split; [reflexivity|]).
  - rewrite !delete_insert_eq. split; [reflexivity|].
    map_lookups. split; eauto.
  - split; reflexivity.
Qed.

Lemma buildReport_content (data : ByteSeq) :
  Local.SimpleHidWrapper.buildReport data
  = x00 :: firstn 64 (elems data ++ repeat x00 (64 - len data)).
Proof.
  unfold Local.SimpleHidWrapper.buildReport, len. cbn [length].
  destruct (65 <? S (length (elems data))) eqn:C.
  - apply Nat.ltb_lt in C. cbn [firstn]. f_equal.
    replace (64 - length (elems data)) with 0 by lia.
    cbn [repeat]. now rewrite app_nil_r.
  - apply Nat.ltb_ge in C. rewrite pushZeros_repeat.
    replace (65 - S (length (elems data))) with (64 - length (elems data))
      by lia.
    cbn [app]. f_equal. rewrite firstn_all2; [reflexivity|].
    rewrite length_app, repeat_length. lia.
Qed.

(** X14.  [write] of the HID wrapper returns only when the device took
    one whole report: the report id 0 followed by the first 64 bytes of
    the data, padded with zeros, 65 bytes in all, for data of any length.
    A returned count is therefore always 65, and the wrapper was open. *)
Theorem wrapper_write_whole_report (hid : Local.NodeHid) (data : ByteSeq)
    (s s' : Local.Tool) (n : N) :
  Local.SimpleHidWrapper.write hid data s = (Ok n, s') ->
  n = 65%N
  /\ Local.hid_write hid (Local.clock (Local.world s))
       (x00 :: firstn 64 (elems data ++ repeat x00 (64 - len data)))
     = Ok 65%N
  /\ (exists d, Local.hidWrapper s = Some (Local.mkWrapper d (Some Local.HID) true))
  /\ s' = Local.sent data s.
Proof.
  rewrite <- buildReport_content.
  unfold Local.SimpleHidWrapper.write, Local.SimpleHidWrapper.this,
    Local.interact, bind, modify, tryCatch, liftRes, throw, ret.
  destruct (Local.hidWrapper s) as [[d [[]|] [|]]|] eqn:Hw;
    cbn [negb orb Local.isSome Local.w_isConnected Local.hidDevice];
    try discriminate.
  cbn [Local.logWriteCall Local.world Local.setWorld Local.clock
       Local.writeCalls Local.reports].
  rewrite length_buildReport. change (N.of_nat 65) with 65%N.
  destruct (Local.hid_write hid (Local.clock (Local.world s))
              (Local.SimpleHidWrapper.buildReport data)) as [k|message];
    [|discriminate].
  destruct (k =? 65)%N eqn:E; cbn [negb]; [|discriminate].
  apply N.eqb_eq in E. subst k. intros H. inversion H; subst.
  repeat split. eauto.
Qed.

Lemma wrapper_write_whole_report_witness :
  65%N = 65%N
  /\ Local.hid_write Local.silent 2
       (x00 :: firstn 64 (elems (bufferFrom [x01; x02])
                          ++ repeat x00 (64 - len (bufferFrom [x01; x02]))))
     = Ok 65%N
  /\ (exists d, Local.hidWrapper Local.ready
                = Some (Local.mkWrapper d (Some Local.HID) true))
  /\ Local.sent (bufferFrom [x01; x02]) Local.ready
     = Local.sent (bufferFrom [x01; x02]) Local.ready.
Proof.
  exact (wrapper_write_whole_report Local.silent (bufferFrom [x01; x02])
           Local.ready _ 65%N eq_refl).
Defined.

(** X15.  [close] of the HID wrapper always returns, also when closing
    the handle throws, and touches the device only if a handle was open.
    Afterwards the wrapper is inert: [write] and [read] fail with
    "HID-Gerät nicht verbunden" and nothing reaches the device. *)
Theorem wrapper_closed_is_inert (hid : Local.NodeHid) (s : Local.Tool)
    (w : Local.Wrapper) :
  Local.hidWrapper s = Some w ->
  let closed := snd (Local.SimpleHidWrapper.close hid s) in
  fst (Local.SimpleHidWrapper.close hid s) = Ok tt
  /\ Local.hidWrapper closed = Some (Local.mkWrapper (Local.w_device w) None false)
  /\ Local.clock (Local.world closed)
     = (if Local.isSome (Local.hidDevice w) then 1 else 0)
       + Local.clock (Local.world s)
  /\ (forall data,
         fst (Local.SimpleHidWrapper.write hid data closed)
         = Throw "HID-Gerät nicht verbunden"
         /\ Local.reports (Local.world
                             (snd (Local.SimpleHidWrapper.write hid data closed)))
            = Local.reports (Local.world s)
         /\ Local.clock (Local.world
                           (snd (Local.SimpleHidWrapper.write hid data closed)))
            = Local.clock (Local.world closed))
  /\ (forall timeout,
         Local.SimpleHidWrapper.read hid timeout closed
         = (Throw "HID-Gerät nicht verbunden", closed)).
Proof.
  intros Hw. cbv zeta.
  unfold Local.SimpleHidWrapper.close, Local.SimpleHidWrapper.write,
    Local.SimpleHidWrapper.read, Local.SimpleHidWrapper.this.
  rewrite Hw.
  destruct (Local.isSome (Local.hidDevice w)).
  - unfold tryCatch, bind, Local.interact, modify, throw, ret.
    destruct (Local.hid_close hid (Local.clock (Local.world s)));
      cbn; repeat split.
  - cbn. repeat split.
Qed.

Lemma wrapper_closed_is_inert_witness :
  Local.SimpleHidWrapper.read Local.silent 5000
    (snd (Local.SimpleHidWrapper.close Local.silent Local.ready))
  = (Throw "HID-Gerät nicht verbunden",
     snd (Local.SimpleHidWrapper.close Local.silent Local.ready)).
Proof.
  exact (proj2 (proj2 (proj2 (proj2
           (wrapper_closed_is_inert Local.silent Local.ready _ eq_refl))))
           5000%Z).
Defined.


Lemma serial_of_buffer_local (d : ByteSeq) :
  kind d = NodeBuffer -> Spec.decimalSerial (Local.hexToSerialNumber d).
Proof.
  destruct d as [k l]. cbn [kind]. intros ->.
  change (mkSeq NodeBuffer l) with (bufferFrom l).
  rewrite local_serial_on_buffer. eexists. split; [reflexivity|].
  apply buffer_rendering_digits.
Qed.

Lemma decimalSerial_orElse (text fallback : string) :
  Spec.decimalSerial text -> Spec.decimalSerial (orElse text fallback).
Proof. intros (digits & -> & H). unfold orElse. cbn. eexists; eauto. Qed.

Lemma returnsOnly_this {A} (method : string)
    (body : Local.Wrapper -> M Local.Tool A) (Q : A -> Prop) :
  (forall w, returnsOnly (body w) Q) ->
  returnsOnly (Local.SimpleHidWrapper.this method body) Q.
Proof.
  intros H s a s' E. unfold Local.SimpleHidWrapper.this in E.
  destruct (Local.hidWrapper s) as [w|]; [exact (H w _ _ _ E) | discriminate].
Qed.

Lemma local_receiveData_buffer (hid : Local.NodeHid) (timeout : Z) :
  returnsOnly (Local.BoschDisplayTool.receiveData hid timeout)
              (fun r => kind r = NodeBuffer).
Proof.
  unfold Local.BoschDisplayTool.receiveData, Local.SimpleHidWrapper.read.
  do 3 returns_step; [apply returnsOnly_throw|].
  apply returnsOnly_tryCatch; [|intros ?; repeat returns_step].
  apply returnsOnly_this. intros w.
  repeat returns_step. now apply returnsOnly_ret.
Qed.

Lemma local_sendUdsRequest_buffer (hid : Local.NodeHid) (sid : byte)
    (did extra : list byte) (timeout : Z) :
  returnsOnly (Local.BoschDisplayTool.sendUdsRequest hid sid did extra timeout)
              (fun r => kind r = NodeBuffer).
Proof.
  unfold Local.BoschDisplayTool.sendUdsRequest.
  eapply returnsOnly_bind; [apply returnsOnly_any | intros connected _].
  destruct (negb connected); [apply returnsOnly_throw|].
  apply returnsOnly_tryCatch; [|intros ?; repeat returns_step].
  eapply returnsOnly_bind; [apply returnsOnly_any | intros _ _].
  eapply returnsOnly_bind; [apply local_receiveData_buffer|].
  intros response Hk. repeat returns_step. now apply returnsOnly_ret.
Qed.

(** X16.  [readSerialNumber] of the local tool never returns a
    hexadecimal serial number: whatever the device answers, what it
    returns is 0x followed by decimal digits only, because the answer
    reaches [hexToSerialNumber] as the Buffer that [read] made of it.
    The fallback text "Seriennummer nicht lesbar" is never returned. *)
Theorem readSerialNumber_prints_decimal (hid : Local.NodeHid) :
  returnsOnly (Local.BoschDisplayTool.readSerialNumber hid) Spec.decimalSerial.
Proof.
  unfold Local.BoschDisplayTool.readSerialNumber.
  apply returnsOnly_tryCatch; [|intros ?; apply returnsOnly_throw].
  eapply returnsOnly_bind; [apply local_sendUdsRequest_buffer|].
  intros response Hk.
  destruct (0 <? len response); [|apply returnsOnly_throw].
  apply returnsOnly_ret, decimalSerial_orElse, serial_of_buffer_local.
  exact Hk.
Qed.

(** The captured serial-number answer, read by the local tool. *)
Lemma readSerialNumber_prints_decimal_witness :
  Spec.decimalSerial "0x3700556031304644200".
Proof.
  exact (readSerialNumber_prints_decimal
           (Local.answering x01
              ([x00; x05; x62; x02; x42; x00; x00] ++ Spec.knownSerial))
           Local.ready "0x3700556031304644200"
           (Local.received
              (Local.sent
                 (Local.createUdsFrame x22 Constants.SERIAL_NUMBER [])
                 Local.ready))
           eq_refl).
Defined.

Lemma find_first {A} (p : A -> bool) (l : list A) :
  match List.find p l with
  | Some x =>
      p x = true
      /\ exists before after,
           l = before ++ x :: after /\ Forall (fun y => p y = false) before
  | None => Forall (fun y => p y = false) l
  end.
Proof.
  induction l as [|y l IH]; cbn [List.find]; [constructor|].
  destruct (p y) eqn:E.
  - split; [exact E|]. exists [], l. split; [reflexivity | constructor].
  - destruct (List.find p l) as [x|].
    + destruct IH as [Hx (before & after & -> & Hb)].
      split; [exact Hx|]. exists (y :: before), after.
      split; [reflexivity | now constructor].
    + now constructor.
Qed.

(** X17.  [findBoschDisplay] hands [connect] the first listed device with
    the vendor and product id of the display, and [connect] accepts it;
    [connect] refuses what [findBoschDisplay] returned, with
    "Das angegebene Gerät ist kein Bosch eBike Display!", exactly when no
    listed device has these ids. *)
Theorem connect_accepts_found_display (hid : Local.NodeHid)
    (devices : list Constants.DeviceInfo) (s : Local.Tool) :
  (fst (Local.BoschDisplayTool.connect hid (Local.findBoschDisplay devices) s)
   = Throw "Das angegebene Gerät ist kein Bosch eBike Display!"
   <-> Forall (fun d => Local.isBoschDisplay (Some d) = false) devices)
  /\ (forall d, Local.findBoschDisplay devices = Some d ->
        Local.isBoschDisplay (Some d) = true
        /\ exists before after,
             devices = before ++ d :: after
             /\ Forall (fun d' => Local.isBoschDisplay (Some d') = false) before).
Proof.
  pose proof (find_first
                (fun device => (Constants.vendorId device =? 0x108c)%Z
                               && (Constants.productId device =? 0x155)%Z)
                devices) as Hfind.
  fold (Local.findBoschDisplay devices) in Hfind.
  split.
  - unfold Local.BoschDisplayTool.connect.
    destruct (Local.findBoschDisplay devices) as [d|].
    + destruct Hfind as [Hd (before & after & -> & _)].
      cbn [Local.isBoschDisplay]. rewrite Hd. cbn [negb]. split.
      * unfold tryCatch.
        match goal with |- context [let (_, _) := ?body s in _] =>
          destruct (body s) as [[u|message] s1] end; cbn [fst].
        -- discriminate.
        -- unfold bind, modify, throw. cbn [fst]. intros H.
           apply (f_equal (fun r => match r with
                                    | Throw (String c _) => c
                                    | _ => "D"%char
                                    end)) in H.
           rewrite append_cons in H. discriminate H.
      * intros H. apply Forall_app in H as [_ H].
        apply Forall_cons in H as [H _]. cbn [Local.isBoschDisplay] in H.
        congruence.
    + cbn [Local.isBoschDisplay negb]. split; [intros _; exact Hfind|].
      reflexivity.
  - intros d E. rewrite E in Hfind. exact Hfind.
Qed.

Lemma connect_accepts_found_display_witness :
  Local.isBoschDisplay (Some Local.boschDisplay) = true
  /\ exists before after,
       [Constants.mkDeviceInfo 0x46d 0xc52b "usb-0"; Local.boschDisplay]
       = before ++ Local.boschDisplay :: after
       /\ Forall (fun d' => Local.isBoschDisplay (Some d') = false) before.
Proof.
  exact (proj2 (connect_accepts_found_display Local.silent
                  [Constants.mkDeviceInfo 0x46d 0xc52b "usb-0";
                   Local.boschDisplay]
                  Local.ready)
               Local.boschDisplay eq_refl).
Defined.

Lemma includes_skip (c : ascii) (s sub : string) :
  String.prefix sub (String c s) = false ->
  includes (String c s) sub = includes s sub.
Proof. intros H. cbn [includes]. now rewrite H. Qed.

Lemma prefix_other_first (c x : ascii) (s sub : string) :
  Ascii.eqb x c = false -> String.prefix (String x sub) (String c s) = false.
Proof.
  intros H. cbn [String.prefix]. destruct (ascii_dec x c) as [->|]; [|reflexivity].
  rewrite Ascii.eqb_refl in H. discriminate.
Qed.

Lemma send_error_timeout (message : string) :
  includes ("Sendefehler: Schreibfehler: " +:+ message) "Timeout"
  || includes ("Sendefehler: Schreibfehler: " +:+ message) "TIMEOUT"
  = includes message "Timeout" || includes message "TIMEOUT".
Proof.
  repeat (rewrite append_cons;
          rewrite !includes_skip by (apply prefix_other_first; reflexivity)).
  reflexivity.
Qed.

(** X18.  A write that the device refuses ends the request at once: no
    read is attempted, and [sendUdsRequest] of the local tool fails with
    "UDS-Request-Fehler: Sendefehler: Schreibfehler: " followed by the
    device's message; but when that message contains Timeout or TIMEOUT
    the failure is reported as "TIMEOUT", as if the display had not
    answered. *)
Theorem write_fault_ends_request (hid : Local.NodeHid) (s : Local.Tool)
    (sid : byte) (did extra : list byte) (timeout : Z) (message : string) :
  Local.online s ->
  Local.hid_write hid (Local.clock (Local.world s))
    (Local.SimpleHidWrapper.buildReport (Local.createUdsFrame sid did extra))
  = Throw message ->
  Local.BoschDisplayTool.sendUdsRequest hid sid did extra timeout s
  = (Throw (if includes message "Timeout" || includes message "TIMEOUT"
            then "TIMEOUT"
            else "UDS-Request-Fehler: Sendefehler: Schreibfehler: "
                 +:+ message),
     Local.sent (Local.createUdsFrame sid did extra) s).
Proof.
  intros Hs Hwrite. pose proof (local_write_run hid s
                                  (Local.createUdsFrame sid did extra) Hs) as Hrun.
  rewrite Hwrite in Hrun.
  unfold Local.BoschDisplayTool.sendUdsRequest, bind at 1, gets.
  rewrite (proj1 Hs). cbn [negb].
  unfold tryCatch at 1, bind at 1.
  unfold Local.BoschDisplayTool.sendData, bind at 1 2, gets.
  destruct Hs as [Hc [d Hw]]. rewrite Hc, Hw. cbn [negb orb Local.isSome].
  unfold tryCatch at 1, bind at 1. rewrite Hrun.
  unfold throw at 1.
  change ("Sendefehler: " +:+ "Schreibfehler: " +:+ message)
    with ("Sendefehler: Schreibfehler: " +:+ message).
  rewrite send_error_timeout.
  destruct (includes message "Timeout" || includes message "TIMEOUT");
    reflexivity.
Qed.

Lemma write_fault_ends_request_witness :
  Local.BoschDisplayTool.sendUdsRequest
    (Local.mkNodeHid (fun _ => None) (fun _ => None)
                     (fun _ _ => Throw "cannot write to device")
                     (fun _ _ => Local.Expired) (fun _ => "now"))
    x22 Constants.SERIAL_NUMBER [] 3000 Local.ready
  = (Throw "UDS-Request-Fehler: Sendefehler: Schreibfehler: cannot write to device",
     Local.sent (Local.createUdsFrame x22 Constants.SERIAL_NUMBER []) Local.ready).
Proof.
  apply (write_fault_ends_request
           (Local.mkNodeHid (fun _ => None) (fun _ => None)
                            (fun _ _ => Throw "cannot write to device")
                            (fun _ _ => Local.Expired) (fun _ => "now"))
           Local.ready x22 Constants.SERIAL_NUMBER [] 3000
           "cannot write to device").
  - split; [reflexivity | eexists; reflexivity].
  - reflexivity.
Defined.

Lemma backend_performHandshake_sends (usb : Backend.UsbHost) :
  Backend.sends (Backend.BoschDisplayTool.performHandshake usb)
                [Backend.createHandshakeFrame].
Proof.
  unfold Backend.sends, Backend.BoschDisplayTool.performHandshake.
  apply emits_guard; [wire_side|].
  apply emits_tryCatch; [wire_side | wire_side | | intros ?; repeat quiet_step].
  apply emits_bind_quiet; [wire_side | wire_side | apply backend_sendData_sends|].
  intros _.
  apply emits_bind_quiet;
    [wire_side | wire_side | apply backend_receiveData_sends|].
  intros response. repeat quiet_step.
Qed.

(** X19.  [connect] of the backend tool takes any device: it does not look
    at the vendor or product id.  Without a wrapper it fails with
    "WebUSB Wrapper nicht initialisiert!" and changes nothing.  With one,
    the device is stored and the wrapper kept, and the call either
    returns, leaving the tool connected, or throws an error that starts
    with "Verbindungsfehler: ", leaving it not connected; when [open]
    went through, exactly the handshake frame was written. *)
Theorem backend_connect_outcome (usb : Backend.UsbHost)
    (dev : Constants.DeviceInfo) (s : Backend.Tool) :
  let outcome := fst (Backend.BoschDisplayTool.connect usb dev s) in
  let s' := snd (Backend.BoschDisplayTool.connect usb dev s) in
  if Backend.isSome (Backend.usbWrapper s)
  then Backend.device s' = Some dev
       /\ Backend.usbWrapper s' = Backend.usbWrapper s
       /\ ((outcome = Ok tt /\ Backend.isConnected s' = true)
           \/ (exists message,
                 outcome = Throw ("Verbindungsfehler: " +:+ message)
                 /\ Backend.isConnected s' = false))
       /\ Backend.writeCalls (Backend.world s')
          = match Backend.usb_open usb (Backend.clock (Backend.world s)) with
            | None => [Backend.createHandshakeFrame]
            | Some _ => []
            end ++ Backend.writeCalls (Backend.world s)
  else outcome = Throw "WebUSB Wrapper nicht initialisiert!" /\ s' = s.
Proof.
  cbv zeta. unfold Backend.BoschDisplayTool.connect.
  cbv beta iota zeta delta
    [tryCatch bind gets modify throw ret id
     Backend.BoschDisplayTool.usbWrapper_open
     Backend.interact Backend.setWrapper Backend.setDevice
     Backend.setConnected Backend.setWorld].
  destruct (Backend.isSome (Backend.usbWrapper s)) eqn:Hw; cbn [negb];
    [|now split].
  cbn [Backend.usbWrapper Backend.world Backend.clock Backend.device
       Backend.isConnected Backend.sequenceNumber Backend.writeCalls].
  destruct (Backend.usb_open usb (Backend.clock (Backend.world s)))
    as [failure|].
  - cbn [fst snd Backend.device Backend.usbWrapper Backend.isConnected
         Backend.world Backend.writeCalls app].
    repeat split. right. eexists. split; reflexivity.
  - match goal with
    | |- context [Backend.BoschDisplayTool.performHandshake usb ?s1] =>
        destruct (backend_performHandshake_sends usb s1 (conj eq_refl Hw))
          as [(Hd & Hu & Hc & _) Hlog];
        destruct (Backend.BoschDisplayTool.performHandshake usb s1)
          as [[b|message] s2]
    end; cbn [fst snd] in *;
      cbn [Backend.device Backend.usbWrapper Backend.isConnected
           Backend.world Backend.writeCalls rev app] in Hd, Hu, Hc, Hlog |- *.
    + repeat split; try assumption. left. split; [reflexivity | exact Hc].
    + repeat split; try assumption. right. exists message.
      split; reflexivity.
Qed.
